(** * Order and product back end: record store, order validation, list queries

    A shallow embedding of the Express route handlers of the store back end
    ([utils/helpers.js], the orders router, [routes/products.js] and the
    profile routes of [routes/auth.js]), the properties its specification
    states about them, and further properties of the routes and helpers: who
    may read and change what, what each change leaves alone, how writing and
    reading compose.

    JavaScript values are embedded as a small universe of JSON-like values,
    numbers are IEEE-754 binary64 floats (Rocq's primitive floats), a route
    handler is a function of the request and of the world (the data directory
    and the clock) that yields a response and a new world.  Early [return]s
    and exceptions caught by the handlers' [try]/[catch] are threaded by a
    small monad. *)

From Stdlib Require Import ZArith QArith Qround Qabs List String Ascii Bool Lia.
From Stdlib Require Import DecimalString.
From Stdlib Require Import Uint63 Floats.PrimFloat Floats.FloatOps Floats.SpecFloat.
From Stdlib Require Import Floats.FloatAxioms.
From stdpp Require Import base option list strings gmap.
Import ListNotations.

Set Warnings "-inexact-float".
Local Open Scope Z_scope.
Local Open Scope string_scope.
Local Open Scope list_scope.

(** ** JavaScript values *)

Module JS.

(** The values a JSON body, a query string or a data file can hold, plus
    [undefined] for absent properties.  An object is the list of its own
    properties in insertion order. *)
Unset Elimination Schemes.
Inductive value : Type :=
| VUndefined
| VNull
| VBool (b : bool)
| VNum (x : float)
| VStr (s : string)
| VArr (xs : list value)
| VObj (fields : list (string * value)).
Set Elimination Schemes.

(** Induction through the nested lists. *)
Definition value_ind (P : value -> Prop)
    (Hu : P VUndefined) (Hn : P VNull) (Hb : forall b, P (VBool b))
    (Hx : forall x, P (VNum x)) (Hs : forall s, P (VStr s))
    (Ha : forall xs, Forall P xs -> P (VArr xs))
    (Ho : forall fields, Forall (fun kv => P (snd kv)) fields -> P (VObj fields)) :
    forall v, P v :=
  fix go (v : value) : P v :=
    match v with
    | VUndefined => Hu
    | VNull => Hn
    | VBool b => Hb b
    | VNum x => Hx x
    | VStr s => Hs s
    | VArr xs =>
        Ha xs ((fix all (l : list value) : Forall P l :=
                  match l with
                  | [] => List.Forall_nil P
                  | v :: l' => List.Forall_cons P v l' (go v) (all l')
                  end) xs)
    | VObj fields =>
        Ho fields ((fix all (l : list (string * value)) : Forall (fun kv => P (snd kv)) l :=
                      match l with
                      | [] => List.Forall_nil _
                      | kv :: l' => List.Forall_cons _ kv l' (go (snd kv)) (all l')
                      end) fields)
    end.

(** *** Numbers *)

(** The Number with the value of a natural number below 2^53 (array lengths). *)
Definition of_nat (n : nat) : float := PrimFloat.of_uint63 (Uint63.of_Z (Z.of_nat n)).

(** The Number with the value of an integer of magnitude below 2^53. *)
Definition of_Z (z : Z) : float :=
  if (z <? 0)%Z then PrimFloat.opp (PrimFloat.of_uint63 (Uint63.of_Z (- z)))
  else PrimFloat.of_uint63 (Uint63.of_Z z).

Inductive extint : Type := Fin (z : Z) | PosInf | NegInf.

(** ECMAScript ToIntegerOrInfinity: NaN and the zeros give 0, the infinities
    stay, any other number is truncated towards zero. *)
Definition ToIntegerOrInfinity (x : float) : extint :=
  match Prim2SF x with
  | S754_nan => Fin 0
  | S754_zero _ => Fin 0
  | S754_infinity false => PosInf
  | S754_infinity true => NegInf
  | S754_finite s m e =>
      let mag := Z.shiftl (Z.pos m) e in
      Fin (if s then - mag else mag)
  end.

(** [Math.ceil]. *)
Definition Math_ceil (x : float) : float :=
  match Prim2SF x with
  | S754_finite s m e =>
      if (0 <=? e)%Z then x
      else
        let q := Z.shiftl (Z.pos m) e in
        let exact := (Z.shiftl q (- e) =? Z.pos m)%Z in
        if s then (if (q =? 0)%Z then PrimFloat.neg_zero else of_Z (- q))
        else of_Z (if exact then q else q + 1)
  | _ => x
  end.

Definition Math_abs (x : float) : float := PrimFloat.abs x.

(** [Number.isFinite]: neither NaN nor an infinity. *)
Definition Number_isFinite (x : float) : bool :=
  match Prim2SF x with
  | S754_nan | S754_infinity _ => false
  | _ => true
  end.

(** One of the zeros, or NaN: the Numbers that are falsy. *)
Definition zero_or_nan (x : float) : Prop :=
  Prim2SF x = S754_nan \/ exists s, Prim2SF x = S754_zero s.

(** *** Truthiness and strict equality *)

(** ToBoolean: [undefined], [null], [false], [+0], [-0], [NaN] and the empty
    string are falsy. *)
Definition truthy (v : value) : bool :=
  match v with
  | VUndefined | VNull => false
  | VBool b => b
  | VNum x => negb (PrimFloat.is_zero x || PrimFloat.is_nan x)
  | VStr s => negb (String.eqb s "")
  | VArr _ | VObj _ => true
  end.

(** [a === b].  Arrays and objects compare by identity; every comparison in
    the handlers is between a value of the request and a value read from a
    data file (or a literal), which never are the same object. *)
Definition strict_eq (a b : value) : bool :=
  match a, b with
  | VUndefined, VUndefined => true
  | VNull, VNull => true
  | VBool x, VBool y => Bool.eqb x y
  | VNum x, VNum y => PrimFloat.eqb x y
  | VStr x, VStr y => String.eqb x y
  | _, _ => false
  end.

(** *** The conversions of the runtime *)

(** The parts of the ECMAScript runtime that work on the text of numbers,
    strings and dates.  The handlers are defined over any runtime. *)
Class Runtime : Type := {
  (** Number::toString(x), radix 10 *)
  Number_toString : float -> string;
  (** StringToNumber(s), the value of [Number(s)] *)
  StringToNumber : string -> float;
  (** [parseInt(s)] on a String, no radix argument *)
  parseInt_string : string -> float;
  (** [parseFloat(s)] on a String *)
  parseFloat_string : string -> float;
  (** [String.prototype.toLowerCase] *)
  String_toLowerCase : string -> string;
  (** [Date.parse(s)]: the time value of the date a String denotes, NaN when
      it denotes none *)
  Date_parse : string -> float;
  (** [Date.prototype.toISOString] of the date with a (valid) time value *)
  Date_toISOString : float -> string
}.

Section Conversions.
Context {rt : Runtime}.

(** ToString.  An array prints its elements joined by commas, with [null] and
    [undefined] elements printed empty. *)
Fixpoint ToString (v : value) : string :=
  match v with
  | VUndefined => "undefined"
  | VNull => "null"
  | VBool true => "true"
  | VBool false => "false"
  | VNum x => Number_toString x
  | VStr s => s
  | VArr xs =>
      String.concat ","
        (List.map (fun x => match x with
                            | VUndefined | VNull => ""
                            | _ => ToString x
                            end) xs)
  | VObj _ => "[object Object]"
  end.

(** ToNumber.  Arrays and objects go through their string. *)
Definition ToNumber (v : value) : float :=
  match v with
  | VUndefined => PrimFloat.nan
  | VNull => 0%float
  | VBool true => 1%float
  | VBool false => 0%float
  | VNum x => x
  | VStr s => StringToNumber s
  | VArr _ | VObj _ => StringToNumber (ToString v)
  end.

(** [a <= x], [a > x] and the like against a Number [x] compare numerically. *)
Definition js_le (a : value) (x : float) : bool := PrimFloat.leb (ToNumber a) x.
Definition js_gt (a : value) (x : float) : bool := PrimFloat.ltb x (ToNumber a).

(** [a * b] and [a / b]. *)
Definition js_mul (a b : value) : float := PrimFloat.mul (ToNumber a) (ToNumber b).
Definition js_div (a b : value) : float := PrimFloat.div (ToNumber a) (ToNumber b).

(** [a + b]: concatenation as soon as one operand is, or converts by
    ToPrimitive to, a String; addition of Numbers otherwise. *)
Definition stringy (v : value) : bool :=
  match v with
  | VStr _ | VArr _ | VObj _ => true
  | _ => false
  end.

Definition js_add (a b : value) : value :=
  if stringy a || stringy b then VStr (ToString a +:+ ToString b)
  else VNum (PrimFloat.add (ToNumber a) (ToNumber b)).

(** [parseInt(v)] and [parseFloat(v)] first convert their argument to a String. *)
Definition parseInt (v : value) : float := parseInt_string (ToString v).
Definition parseFloat (v : value) : float := parseFloat_string (ToString v).

(** [Boolean(v)]. *)
Definition Boolean (v : value) : value := VBool (truthy v).

(** TimeClip. *)
Definition TimeClip (t : float) : float :=
  if negb (Number_isFinite t) then PrimFloat.nan
  else if PrimFloat.ltb 8.64e15 (PrimFloat.abs t) then PrimFloat.nan
  else match ToIntegerOrInfinity t with
       | Fin z => of_Z z
       | _ => PrimFloat.nan
       end.

(** The time value of [new Date(v)]. *)
Definition Date_of (v : value) : float :=
  match v with
  | VStr s => Date_parse s
  | VArr _ | VObj _ => Date_parse (ToString v)
  | _ => TimeClip (ToNumber v)
  end.

End Conversions.

(** *** Arrays *)

Definition relative_index (len : Z) (i : extint) : Z :=
  match i with
  | NegInf => 0
  | PosInf => len
  | Fin r => if (r <? 0)%Z then Z.max (len + r) 0 else Z.min r len
  end.

(** [xs.slice(start, end)]. *)
Definition slice {A : Type} (xs : list A) (start_ end_ : float) : list A :=
  let len := Z.of_nat (length xs) in
  let k := relative_index len (ToIntegerOrInfinity start_) in
  let final := relative_index len (ToIntegerOrInfinity end_) in
  take (Z.to_nat (final - k)) (drop (Z.to_nat k) xs).

(** [xs.sort(cmp)] for a comparator given by its numeric result: a stable
    insertion sort, in which a NaN result counts as 0.  For a consistent
    comparator this is the one order the language allows; for an inconsistent
    one the language leaves the order to the engine (some permutation). *)
Fixpoint sort_insert {A : Type} (cmp : A -> A -> float) (x : A) (ys : list A) : list A :=
  match ys with
  | [] => [x]
  | y :: ys' => if PrimFloat.ltb 0 (cmp x y) then y :: sort_insert cmp x ys'
                else x :: y :: ys'
  end.

Definition sort {A : Type} (cmp : A -> A -> float) (xs : list A) : list A :=
  foldr (sort_insert cmp) [] xs.

(** *** Objects *)

Fixpoint lookup_field (k : string) (fields : list (string * value)) : value :=
  match fields with
  | [] => VUndefined
  | (k', v) :: rest => if String.eqb k k' then v else lookup_field k rest
  end.

(** [obj.k = v] on an object's property list: replaces the value of an
    existing property in place, appends a new one. *)
Fixpoint set_field (k : string) (v : value) (fields : list (string * value))
  : list (string * value) :=
  match fields with
  | [] => [(k, v)]
  | (k', v') :: rest =>
      if String.eqb k k' then (k, v) :: rest else (k', v') :: set_field k v rest
  end.

(** *** SameValueZero, [Math.max] and [Math.min] *)

(** SameValueZero, the comparison of [Array.prototype.includes] and of the
    elements of a [Set]: as [===], except that NaN is the same value as NaN.
    Arrays and objects compare by identity, as for [strict_eq]. *)
Definition same_value_zero (a b : value) : bool :=
  match a, b with
  | VNum x, VNum y => PrimFloat.eqb x y || (PrimFloat.is_nan x && PrimFloat.is_nan y)
  | _, _ => strict_eq a b
  end.

(** [Math.max(x, y)] and [Math.min(x, y)] on Numbers: NaN as soon as one
    argument is, and [+0] counts as larger than [-0]. *)
Definition Math_max (x y : float) : float :=
  if PrimFloat.is_nan x || PrimFloat.is_nan y then PrimFloat.nan
  else if PrimFloat.ltb x y then y
  else if PrimFloat.ltb y x then x
  else if PrimFloat.get_sign x then y else x.

Definition Math_min (x y : float) : float :=
  if PrimFloat.is_nan x || PrimFloat.is_nan y then PrimFloat.nan
  else if PrimFloat.ltb x y then x
  else if PrimFloat.ltb y x then y
  else if PrimFloat.get_sign x then x else y.

(** The property key of the array index [i]: its decimal digits. *)
Definition index_key (i : nat) : string := NilZero.string_of_uint (Nat.to_uint i).

End JS.

(** ** Handlers: responses, control flow, the world *)

Module Http.
Import JS.

(** What [res.status(s).json(b)] sends. *)
Record response : Type := Response { status : nat; body : value }.

(** The parts of an Express request the handlers read: the parsed JSON body,
    the query and the route parameters (both objects, of Strings for the
    requests Express parses), and what the authentication middleware stored
    in [req.user], the verified token's payload; the middleware itself is an
    external collaborator. *)
Record request : Type := Request {
  req_body : value;
  req_query : value;
  req_params : value;
  req_user : value
}.

(** The result of running statements inside a handler's [try] block. *)
Inductive flow (A : Type) : Type :=
| Next (a : A)            (* control reaches the next statement *)
| Return (r : response)   (* [return res.status(..).json(..)] *)
| Throw.                  (* an exception, caught by the handler's [catch] *)
Arguments Next {A} a.
Arguments Return {A} r.
Arguments Throw {A}.

Definition flow_bind {A B : Type} (m : flow A) (k : A -> flow B) : flow B :=
  match m with
  | Next a => k a
  | Return r => Return r
  | Throw => Throw
  end.

(** [v.k] for the property names the handlers read from bodies, records and
    token payloads: reading a property of [undefined] or [null] throws a
    TypeError; a primitive or an array has none of these properties, neither
    of its own nor from its prototype. *)
Definition prop (v : value) (k : string) : flow value :=
  match v with
  | VUndefined | VNull => Throw
  | VObj fields => Next (lookup_field k fields)
  | _ => Next VUndefined
  end.

(** [v.k] where it is known not to throw. *)
Definition get (v : value) (k : string) : value :=
  match prop v k with
  | Next x => x
  | _ => VUndefined
  end.

(** The destructuring [const { a, b } = v]: throws on [undefined] and [null],
    otherwise gives each named property. *)
Definition fields_of (v : value) : flow (string -> value) :=
  match v with
  | VUndefined | VNull => Throw
  | VObj fields => Next (fun k => lookup_field k fields)
  | _ => Next (fun _ => VUndefined)
  end.

(** A destructuring default, [{ k = d }]: used when the property is
    [undefined]. *)
Definition or_default (v d : value) : value :=
  match v with
  | VUndefined => d
  | _ => v
  end.

(** [s.toLowerCase()]: only a String has the method. *)
Definition toLowerCase {rt : Runtime} (v : value) : flow string :=
  match v with
  | VStr s => Next (String_toLowerCase s)
  | _ => Throw
  end.

(** [xs.find(pred)] and [xs.findIndex(pred)] with a callback that may throw. *)
Fixpoint array_find (pred : value -> flow bool) (xs : list value) : flow value :=
  match xs with
  | [] => Next VUndefined
  | x :: rest =>
      flow_bind (pred x) (fun b => if b then Next x else array_find pred rest)
  end.

Fixpoint array_findIndex (pred : value -> flow bool) (xs : list value) : flow (option nat) :=
  match xs with
  | [] => Next None
  | x :: rest =>
      flow_bind (pred x) (fun b =>
        if b then Next (Some O)
        else flow_bind (array_findIndex pred rest) (fun r => Next (option_map S r)))
  end.

(** [xs.filter(pred)]. *)
Fixpoint array_filter (pred : value -> flow bool) (xs : list value) : flow (list value) :=
  match xs with
  | [] => Next []
  | x :: rest =>
      flow_bind (pred x) (fun b =>
        flow_bind (array_filter pred rest) (fun ys =>
          Next (if b then x :: ys else ys)))
  end.

(** [xs.map(f)] with a callback that may throw. *)
Fixpoint array_mapM {A : Type} (f : value -> flow A) (xs : list value) : flow (list A) :=
  match xs with
  | [] => Next []
  | x :: rest =>
      flow_bind (f x) (fun y => flow_bind (array_mapM f rest) (fun ys => Next (y :: ys)))
  end.

(** [xs.includes(v)]. *)
Definition array_includes (xs : list value) (v : value) : bool :=
  existsb (same_value_zero v) xs.

(** The own enumerable properties of a value, as the rest of a destructuring
    copies them: the properties of an object, the elements of an array and
    the characters of a String under their indices, none for a Number or a
    Boolean. *)
Definition own_properties (v : value) : list (string * value) :=
  match v with
  | VObj fields => fields
  | VArr xs => imap (fun i x => (index_key i, x)) xs
  | VStr s =>
      imap (fun i c => (index_key i, VStr (String c EmptyString))) (list_ascii_of_string s)
  | _ => []
  end.

(** The destructuring [const { k: _, ...rest } = v]: throws on [undefined]
    and [null]; [rest] is a new object with the own properties of [v] but [k]. *)
Definition rest_without (k : string) (v : value) : flow value :=
  match v with
  | VUndefined | VNull => Throw
  | _ => Next (VObj (List.filter (fun kv => negb (String.eqb k (fst kv)))
                       (own_properties v)))
  end.

End Http.

(** ** The record store ([utils/helpers.js]) *)

Module Store.
Import JS Http.

(** The value [JSON.parse] reads back from the text [JSON.stringify] writes
    for [v]; [None] when [JSON.stringify] yields [undefined].  A Number that
    is not finite is written as [null], negative zero as [0]; an [undefined]
    array element is written as [null], an [undefined] property is left out. *)
Fixpoint jsonify (v : value) : option value :=
  match v with
  | VUndefined => None
  | VNull => Some VNull
  | VBool b => Some (VBool b)
  | VNum x =>
      Some (if Number_isFinite x
            then VNum (if PrimFloat.is_zero x then 0%float else x)
            else VNull)
  | VStr s => Some (VStr s)
  | VArr xs =>
      Some (VArr (List.map (fun x => match jsonify x with
                                     | Some y => y
                                     | None => VNull
                                     end) xs))
  | VObj fields =>
      Some (VObj ((fix props (l : list (string * value)) : list (string * value) :=
                     match l with
                     | [] => []
                     | (k, x) :: l' =>
                         match jsonify x with
                         | Some y => (k, y) :: props l'
                         | None => props l'
                         end
                     end) fields))
  end.

(** The property list [JSON.stringify] and [JSON.parse] make of one. *)
Fixpoint stored_fields (fields : list (string * value)) : list (string * value) :=
  match fields with
  | [] => []
  | (k, x) :: rest =>
      match jsonify x with
      | Some y => (k, y) :: stored_fields rest
      | None => stored_fields rest
      end
  end.

(** The records a data file holds after an array was written to it. *)
Definition stored_form (data : list value) : list value :=
  List.map (fun x => match jsonify x with Some y => y | None => VNull end) data.

(** A data file [<name>.json]: either its text is a JSON array, given by the
    records [JSON.parse] reads from it, or reading it fails (it cannot be
    read, or its text is not JSON).  The collections are stored as arrays
    (every write of the program writes one); a file whose text is JSON of
    another shape is outside this model. *)
Inductive file : Type :=
| Records (rs : list value)
| Unusable.

(** The data directory.  Under [read_only] the directory refuses every write
    and leaves its files as they are. *)
Record disk : Type := Disk {
  data_dir : bool;             (* the directory exists *)
  read_only : bool;
  files : gmap string file     (* by collection name *)
}.

(** The world a handler runs in: the data directory, the clock, given by
    the time value each successive reading of it returns, and, to state what
    a handler did, the calls of [writeData] made so far with their
    arguments (oldest first). *)
Record world : Type := World {
  fs : disk;
  clock : nat -> float;
  reads : nat;
  written : list (string * list value)
}.

Definition set_fs (d : disk) (w : world) : world :=
  World d (clock w) (reads w) (written w).

Definition record_write (filename : string) (data : list value) (w : world) : world :=
  World (fs w) (clock w) (reads w) (written w ++ [(filename, data)]).

(** Statements that use the world. *)
Definition M (A : Type) : Type := world -> flow A * world.

Definition ret {A : Type} (a : A) : M A := fun w => (Next a, w).

Definition bind {A B : Type} (m : M A) (k : A -> M B) : M B :=
  fun w =>
    match m w with
    | (Next a, w') => k a w'
    | (Return r, w') => (Return r, w')
    | (Throw, w') => (Throw, w')
    end.

(** A statement that does not touch the world. *)
Definition pure {A : Type} (m : flow A) : M A := fun w => (m, w).

(** [return res.status(s).json(b)]. *)
Definition respond {A : Type} (s : nat) (b : value) : M A :=
  fun w => (Return (Response s b), w).

(** The handler's [try { ... } catch (error) { res.status(500).json(..) }]. *)
Definition handler (message : string) (m : M response) (w : world) : response * world :=
  match m w with
  | (Next r, w') => (r, w')
  | (Return r, w') => (r, w')
  | (Throw, w') => (Response 500 (VObj [("message", VStr message)]), w')
  end.

(** [Date.now()], and the time value of [new Date()]. *)
Definition Date_now : M float :=
  fun w => (Next (clock w (reads w)), World (fs w) (clock w) (S (reads w)) (written w)).

Definition existsSync (filename : string) (d : disk) : bool :=
  data_dir d && bool_decide (is_Some (files d !! filename)).

(** [fs.writeFileSync(filePath, JSON.stringify(data, null, 2))]; [None] when
    it throws. *)
Definition writeFileSync (filename : string) (data : list value) (d : disk) : option disk :=
  if read_only d || negb (data_dir d) then None
  else Some (Disk true false (<[filename := Records (stored_form data)]> (files d))).

(** [fs.mkdirSync(dataDir, { recursive: true })]. *)
Definition mkdirSync (d : disk) : option disk :=
  if read_only d then None else Some (Disk true false ∅).

(** [readData(filename)]. *)
Definition readData (filename : string) : M (list value) :=
  fun w =>
    let d := fs w in
    if negb (existsSync filename d) then
      (* create it with an empty array; a failing write is caught *)
      match writeFileSync filename [] d with
      | Some d' => (Next [], set_fs d' w)
      | None => (Next [], w)
      end
    else
      match files d !! filename with
      | Some (Records rs) => (Next rs, w)
      | _ => (Next [], w)              (* the catch: log and return [] *)
      end.

(** [writeData(filename, data)], for the arrays the handlers pass. *)
Definition writeData (filename : string) (data : list value) : M bool :=
  fun w0 =>
    let w := record_write filename data w0 in
    let d := fs w in
    match (if data_dir d then Some d else mkdirSync d) with
    | None => (Next false, w)
    | Some d1 =>
        match writeFileSync filename data d1 with
        | Some d2 => (Next true, set_fs d2 w)
        | None => (Next false, set_fs d1 w)
        end
    end.

(** What [readData] returns in a world, and the records a collection file
    holds ([None] when there is no such file). *)
Definition loaded (filename : string) (w : world) : list value :=
  match fst (readData filename w) with
  | Next rs => rs
  | _ => []
  end.

Definition stored (filename : string) (w : world) : option file :=
  if data_dir (fs w) then files (fs w) !! filename else None.

(** The world after a handler has read a collection, read the clock [n]
    times and written the collection back as [data]. *)
Definition saved (filename : string) (data : list value) (n : nat) (w : world) : world :=
  snd (writeData filename data
         (World (fs (snd (readData filename w))) (clock w) (n + reads w) (written w))).

(** A handler that only reads: it never calls [writeData], and afterwards
    [readData] returns for every collection what it returned before. *)
Definition reads_only (h : request -> world -> response * world) : Prop :=
  forall (req : request) (w : world),
    written (snd (h req w)) = written w
    /\ (forall name, loaded name (snd (h req w)) = loaded name w)
    /\ clock (snd (h req w)) = clock w.

(** A route for admins alone: a caller whose role is not ['admin'] is
    answered 403, or 500 when the request carries no user at all, and the
    world stays as it is. *)
Definition admins_only (h : request -> world -> response * world) : Prop :=
  forall (req : request) (w : world),
    get (req_user req) "role" <> VStr "admin" ->
    snd (h req w) = w
    /\ (fst (h req w) = Response 403 (VObj [("message", VStr "Access denied. Admin only.")])
        \/ (status (fst (h req w)) = 500%nat
            /\ (req_user req = VUndefined \/ req_user req = VNull))).

(** The same world on a disk that cannot be written. *)
Definition write_protected (w : world) : world :=
  set_fs (Disk (data_dir (fs w)) true (files (fs w))) w.

(** A collection file as the program writes it: the records are what
    [JSON.parse] reads back from what [JSON.stringify] wrote. *)
Definition well_stored (filename : string) (w : world) : Prop :=
  exists rs, stored filename w = Some (Records rs) /\ stored_form rs = rs.

End Store.

Declare Scope js_scope.
Delimit Scope js_scope with js.
Notation "'let*' x ':=' m 'in' k" := (Store.bind m (fun x => k))
  (at level 10, x binder, m at level 100, k at level 200) : js_scope.
Notation "'let?' x ':=' m 'in' k" := (Http.flow_bind m (fun x => k))
  (at level 10, x binder, m at level 100, k at level 200) : js_scope.

(** ** The orders router *)

Module Orders.
Import JS Http Store.
Local Open Scope js_scope.

Section Routes.
Context {rt : Runtime}.

Definition message (text : string) : value := VObj [("message", VStr text)].

(** The callback of [products.find(p => p.id === item.id)]. *)
Definition same_id (item p : value) : flow bool :=
  let? pid := prop p "id" in
  let? iid := prop item "id" in
  Next (strict_eq pid iid).

(** The catalog lookup [products.find(p => p.id === item.id)]. *)
Definition findById (products : list value) (item : value) : flow value :=
  array_find (same_id item) products.

(** [!item.quantity || item.quantity <= 0]. *)
Definition invalid_quantity (quantity : value) : bool :=
  negb (truthy quantity) || js_le quantity 0.

(** The entry pushed on [validatedItems] for an item and its product. *)
Definition validated_item (product item : value) (itemTotal : float) : flow value :=
  let? pid := prop product "id" in
  let? pname := prop product "name" in
  let? pprice := prop product "price" in
  let? quantity := prop item "quantity" in
  Next (VObj [("id", pid); ("name", pname); ("price", pprice);
              ("quantity", quantity); ("subtotal", VNum itemTotal)]).

(** The loop [for (const item of items) { ... }] of the create handler, from
    the current [calculatedTotal] and [validatedItems]. *)
Fixpoint validate_items (products items : list value)
    (calculatedTotal : float) (validatedItems : list value)
  : flow (float * list value) :=
  match items with
  | [] => Next (calculatedTotal, validatedItems)
  | item :: rest =>
      let? product := findById products item in
      if negb (truthy product) then
        let? iid := prop item "id" in
        Return (Response 400
                  (message ("Product with ID " +:+ ToString iid +:+ " not found")))
      else
        let? quantity := prop item "quantity" in
        if invalid_quantity quantity then
          let? pname := prop product "name" in
          Return (Response 400
                    (message ("Invalid quantity for product: " +:+ ToString pname)))
        else
          let? pprice := prop product "price" in
          let itemTotal := js_mul pprice quantity in
          let? entry := validated_item product item itemTotal in
          validate_items products rest
            (PrimFloat.add calculatedTotal itemTotal) (validatedItems ++ [entry])
  end.

(** The required billing fields, [!email || !firstName || ... ]. *)
Definition billing_missing (b : string -> value) : bool :=
  negb (truthy (b "email")) || negb (truthy (b "firstName"))
  || negb (truthy (b "lastName")) || negb (truthy (b "address"))
  || negb (truthy (b "city")) || negb (truthy (b "zipCode"))
  || negb (truthy (b "paymentMethod")).

(** [!items || !Array.isArray(items) || items.length === 0]. *)
Definition items_missing (items : value) : bool :=
  match items with
  | VArr (_ :: _) => false
  | _ => true
  end.

Definition items_of (items : value) : list value :=
  match items with
  | VArr xs => xs
  | _ => []
  end.

(** [!total || total <= 0]. *)
Definition total_invalid (total : value) : bool :=
  negb (truthy total) || js_le total 0.

(** [Math.abs(calculatedTotal - total) > 0.01]. *)
Definition total_mismatch (calculatedTotal : float) (total : value) : bool :=
  PrimFloat.ltb 0.01 (Math_abs (PrimFloat.sub calculatedTotal (ToNumber total))).

(** The object literal [newOrder]; the four time values are those of the
    four successive clock readings [Date.now()], [Date.now()], [new Date()],
    [new Date()]. *)
Definition newOrder (b : string -> value) (validatedItems : list value)
    (calculatedTotal : float) (t_id t_number t_created t_updated : float) : value :=
  VObj [("id", VNum t_id);
        ("orderNumber", VStr ("ORD-" +:+ Number_toString t_number));
        ("userId", if truthy (b "userId") then b "userId" else VNull);
        ("customerInfo",
           VObj [("email", b "email"); ("firstName", b "firstName");
                 ("lastName", b "lastName"); ("address", b "address");
                 ("city", b "city"); ("zipCode", b "zipCode")]);
        ("items", VArr validatedItems);
        ("total", VNum calculatedTotal);
        ("paymentMethod", b "paymentMethod");
        ("status", VStr "completed");
        ("paymentStatus", VStr "paid");
        ("createdAt", VStr (Date_toISOString t_created));
        ("updatedAt", VStr (Date_toISOString t_updated))].

(** [router.post('/')]: create a new order. *)
Definition create_order_body (req : request) : M response :=
  let* b := pure (fields_of (req_body req)) in
  if billing_missing b then
    respond 400 (message "All billing information fields are required")
  else if items_missing (b "items") then
    respond 400 (message "Order must contain at least one item")
  else if total_invalid (b "total") then
    respond 400 (message "Invalid order total")
  else
    let* products := readData "products" in
    let* validated := pure (validate_items products (items_of (b "items")) 0 []) in
    let calculatedTotal := fst validated in
    let validatedItems := snd validated in
    if total_mismatch calculatedTotal (b "total") then
      respond 400 (VObj [("message", VStr "Order total mismatch");
                         ("calculated", VNum calculatedTotal);
                         ("provided", b "total")])
    else
      let* orders := readData "orders" in
      let* t_id := Date_now in
      let* t_number := Date_now in
      let* t_created := Date_now in
      let* t_updated := Date_now in
      let order := newOrder b validatedItems calculatedTotal
                     t_id t_number t_created t_updated in
      let* _ := writeData "orders" (orders ++ [order]) in
      ret (Response 201 (VObj [("message", VStr "Order created successfully");
                               ("order", order)])).

Definition create_order (req : request) : world -> response * world :=
  handler "Error creating order" (create_order_body req).

(** *** The vocabulary of the specification of [create] *)

(** The item resolves in the catalog and its quantity passes the check. *)
Definition resolves_positive (products : list value) (item : value) : bool :=
  match findById products item with
  | Next product => truthy product && negb (invalid_quantity (get item "quantity"))
  | _ => false
  end.

(** The item resolves in the catalog and its quantity is a Number greater
    than 0. *)
Definition resolves_with_positive_quantity (products : list value) (item : value) : bool :=
  match findById products item, get item "quantity" with
  | Next product, VNum quantity => truthy product && PrimFloat.ltb 0 quantity
  | _, _ => false
  end.

(** The product an item resolves to. *)
Definition product_of (products : list value) (item : value) : value :=
  match findById products item with
  | Next product => product
  | _ => VUndefined
  end.

(** Some product of the catalog has the item's id. *)
Definition in_catalog (products : list value) (item : value) : bool :=
  existsb (fun p => match same_id item p with
                    | Next true => true
                    | _ => false
                    end) products.

(** [catalogPrice * quantity] of one line. *)
Definition line_total (products : list value) (item : value) : float :=
  js_mul (get (product_of products item) "price") (get item "quantity").

(** The sum of the line totals, added up from 0 in the order of the items. *)
Definition computedTotal (products items : list value) : float :=
  fold_left (fun sum item => PrimFloat.add sum (line_total products item)) items 0%float.

(** The line stored for an item: the catalog's id, name and price, the
    requested quantity and the line total. *)
Definition line_snapshot (products : list value) (item : value) : value :=
  let product := product_of products item in
  VObj [("id", get product "id"); ("name", get product "name");
        ("price", get product "price"); ("quantity", get item "quantity");
        ("subtotal", VNum (line_total products item))].

(** The response to a total that does not match. *)
Definition TotalMismatchError (calculated : float) (provided : value) : response :=
  Response 400 (VObj [("message", VStr "Order total mismatch");
                      ("calculated", VNum calculated);
                      ("provided", provided)]).

Definition UnknownProductError (id : value) : response :=
  Response 400 (message ("Product with ID " +:+ ToString id +:+ " not found")).

Definition InvalidQuantityError (name : value) : response :=
  Response 400 (message ("Invalid quantity for product: " +:+ ToString name)).

(** The comparator of [sort((a, b) => new Date(b.createdAt) - new Date(a.createdAt))]
    reads [createdAt] of every element it is given, which throws on a [null]
    element; with fewer than two elements [sort] makes no comparison. *)
Definition created_key (order : value) : flow (value * float) :=
  let? c := prop order "createdAt" in
  Next (order, Date_of c).

Definition sort_newest_first (orders : list value) : flow (list value) :=
  match orders with
  | [] | [_] => Next orders
  | _ =>
      let? keyed := array_mapM created_key orders in
      Next (List.map fst (sort (fun a b => PrimFloat.sub (snd b) (snd a)) keyed))
  end.

(** The result envelope both order listings send with [res.json]. *)
Definition page_of_orders (orders : list value) (page limit : value) : value :=
  let pageSize := parseInt limit in
  let startIndex := PrimFloat.mul (PrimFloat.sub (parseInt page) 1) pageSize in
  let endIndex := PrimFloat.add startIndex pageSize in
  let paginatedOrders := slice orders startIndex endIndex in
  VObj [("orders", VArr paginatedOrders);
        ("total", VNum (of_nat (length orders)));
        ("page", VNum (parseInt page));
        ("pageSize", VNum pageSize);
        ("totalPages", VNum (Math_ceil (PrimFloat.div (of_nat (length orders)) pageSize)))].

(** [req.user.role !== 'admin']. *)
Definition not_admin (req : request) : flow bool :=
  let? role := prop (req_user req) "role" in
  Next (negb (strict_eq role (VStr "admin"))).

(** [router.get('/')]: all orders, admin only. *)
Definition list_orders_body (req : request) : M response :=
  let* denied := pure (not_admin req) in
  if denied then respond 403 (message "Access denied. Admin only.")
  else
    let* q := pure (fields_of (req_query req)) in
    let status := q "status" in
    let page := or_default (q "page") (VNum 1) in
    let limit := or_default (q "limit") (VNum 10) in
    let* orders := readData "orders" in
    let* orders :=
      pure (if truthy status
            then array_filter (fun order =>
                   let? s := prop order "status" in Next (strict_eq s status)) orders
            else Next orders) in
    let* orders := pure (sort_newest_first orders) in
    ret (Response 200 (page_of_orders orders page limit)).

Definition list_orders (req : request) : world -> response * world :=
  handler "Error fetching orders" (list_orders_body req).

(** The callback of [orders.filter(order => order.userId === req.user.userId)]. *)
Definition owned_by (req : request) (order : value) : flow bool :=
  let? owner := prop order "userId" in
  let? caller := prop (req_user req) "userId" in
  Next (strict_eq owner caller).

(** [router.get('/my-orders')]: the caller's orders. *)
Definition my_orders_body (req : request) : M response :=
  let* q := pure (fields_of (req_query req)) in
  let page := or_default (q "page") (VNum 1) in
  let limit := or_default (q "limit") (VNum 10) in
  let* orders := readData "orders" in
  let* userOrders := pure (array_filter (owned_by req) orders) in
  let* userOrders := pure (sort_newest_first userOrders) in
  ret (Response 200 (page_of_orders userOrders page limit)).

Definition my_orders (req : request) : world -> response * world :=
  handler "Error fetching orders" (my_orders_body req).

(** [orders.reduce((sum, order) => sum + order.total, 0)]. *)
Fixpoint sum_totals (sum : value) (orders : list value) : flow value :=
  match orders with
  | [] => Next sum
  | order :: rest =>
      let? t := prop order "total" in
      sum_totals (js_add sum t) rest
  end.

(** [orders.filter(o => o.status === s).length]. *)
Definition count_status (s : string) (orders : list value) : flow value :=
  let? hits := array_filter (fun o =>
                 let? st := prop o "status" in Next (strict_eq st (VStr s))) orders in
  Next (VNum (of_nat (length hits))).

(** [router.get('/stats/summary')]: order statistics, admin only. *)
Definition stats_summary_body (req : request) : M response :=
  let* denied := pure (not_admin req) in
  if denied then respond 403 (message "Access denied. Admin only.")
  else
    let* orders := readData "orders" in
    let* totalRevenue := pure (sum_totals (VNum 0) orders) in
    let* completedOrders := pure (count_status "completed" orders) in
    let* pendingOrders := pure (count_status "pending" orders) in
    let* cancelledOrders := pure (count_status "cancelled" orders) in
    let* averageOrderValue :=
      pure (if PrimFloat.ltb 0 (of_nat (length orders))
            then let? again := sum_totals (VNum 0) orders in
                 Next (VNum (js_div again (VNum (of_nat (length orders)))))
            else Next (VNum 0)) in
    ret (Response 200
           (VObj [("totalOrders", VNum (of_nat (length orders)));
                  ("totalRevenue", totalRevenue);
                  ("completedOrders", completedOrders);
                  ("pendingOrders", pendingOrders);
                  ("cancelledOrders", cancelledOrders);
                  ("averageOrderValue", averageOrderValue)])).

Definition stats_summary (req : request) : world -> response * world :=
  handler "Error fetching order statistics" (stats_summary_body req).

(** The orders a listing answers with. *)
Definition returned_orders (r : response) : list value :=
  items_of (get (body r) "orders").

(** The envelope of a listing whose page size is zero: an empty page under
    the key [k], and a number of pages that is an infinity or NaN. *)
Definition zero_page (envelope : value) (k : string) : Prop :=
  get envelope k = VArr []
  /\ (exists size, get envelope "pageSize" = VNum size /\ PrimFloat.eqb size 0 = true)
  /\ (exists pages, get envelope "totalPages" = VNum pages
                    /\ Number_isFinite pages = false).

(** *** One order: reading it, changing its status, deleting it *)

(** The callback of [orders.find(o => o.id === orderId)] and of
    [orders.findIndex(o => o.id === orderId)]. *)
Definition has_id (orderId : float) (o : value) : flow bool :=
  let? oid := prop o "id" in
  Next (strict_eq oid (VNum orderId)).

(** [req.user.role !== 'admin' && order.userId !== req.user.userId]. *)
Definition not_permitted (req : request) (order : value) : flow bool :=
  let? role := prop (req_user req) "role" in
  if negb (strict_eq role (VStr "admin")) then
    let? owner := prop order "userId" in
    let? caller := prop (req_user req) "userId" in
    Next (negb (strict_eq owner caller))
  else Next false.

(** [router.get('/:id')]: one order, for its owner or an admin. *)
Definition get_order_body (req : request) : M response :=
  let* id := pure (prop (req_params req) "id") in
  let orderId := parseInt id in
  let* orders := readData "orders" in
  let* order := pure (array_find (has_id orderId) orders) in
  if negb (truthy order) then respond 404 (message "Order not found")
  else
    let* denied := pure (not_permitted req order) in
    if denied then respond 403 (message "Access denied")
    else ret (Response 200 order).

Definition get_order (req : request) : world -> response * world :=
  handler "Error fetching order" (get_order_body req).

Definition validStatuses : list value :=
  [VStr "pending"; VStr "processing"; VStr "completed"; VStr "cancelled";
   VStr "refunded"].

(** [xs.join(sep)]: [null] and [undefined] elements are joined as empty. *)
Definition join (sep : string) (xs : list value) : string :=
  String.concat sep
    (List.map (fun x => match x with
                        | VUndefined | VNull => ""
                        | _ => ToString x
                        end) xs).

(** [!status || !validStatuses.includes(status)]. *)
Definition invalid_status (status : value) : bool :=
  negb (truthy status) || negb (array_includes validStatuses status).

(** [router.put('/:id/status')]: set the status of an order, admin only.
    The element [findIndex] stops at has a Number as its [id], so it is an
    object; its [status] and [updatedAt] are assigned in place. *)
Definition update_order_status_body (req : request) : M response :=
  let* denied := pure (not_admin req) in
  if denied then respond 403 (message "Access denied. Admin only.")
  else
    let* id := pure (prop (req_params req) "id") in
    let orderId := parseInt id in
    let* b := pure (fields_of (req_body req)) in
    let status := b "status" in
    if invalid_status status then
      respond 400 (message ("Invalid status. Valid statuses: "
                            +:+ join ", " validStatuses))
    else
      let* orders := readData "orders" in
      let* orderIndex := pure (array_findIndex (has_id orderId) orders) in
      match orderIndex with
      | None => respond 404 (message "Order not found")
      | Some i =>
          match nth i orders VUndefined with
          | VObj fields =>
              let fields := set_field "status" status fields in
              let* t_updated := Date_now in
              let fields :=
                set_field "updatedAt" (VStr (Date_toISOString t_updated)) fields in
              let order := VObj fields in
              let orders := <[i := order]> orders in
              let* _ := writeData "orders" orders in
              ret (Response 200
                     (VObj [("message", VStr "Order status updated successfully");
                            ("order", order)]))
          | _ => pure Throw
          end
      end.

Definition update_order_status (req : request) : world -> response * world :=
  handler "Error updating order status" (update_order_status_body req).

(** The response to a status that is not one of the five. *)
Definition InvalidStatusError : response :=
  Response 400 (message "Invalid status. Valid statuses: pending, processing, completed, cancelled, refunded").

(** [router.delete('/:id')]: delete an order, admin only;
    [orders.splice(orderIndex, 1)[0]] takes the order out of the array. *)
Definition delete_order_body (req : request) : M response :=
  let* denied := pure (not_admin req) in
  if denied then respond 403 (message "Access denied. Admin only.")
  else
    let* id := pure (prop (req_params req) "id") in
    let orderId := parseInt id in
    let* orders := readData "orders" in
    let* orderIndex := pure (array_findIndex (has_id orderId) orders) in
    match orderIndex with
    | None => respond 404 (message "Order not found")
    | Some i =>
        let deletedOrder := nth i orders VUndefined in
        let orders := delete i orders in
        let* _ := writeData "orders" orders in
        ret (Response 200 (VObj [("message", VStr "Order deleted successfully");
                                 ("order", deletedOrder)]))
    end.

Definition delete_order (req : request) : world -> response * world :=
  handler "Error deleting order" (delete_order_body req).

End Routes.
End Orders.

(** ** The products router ([routes/products.js]) *)

Module Products.
Import JS Http Store.
Local Open Scope js_scope.

Section Routes.
Context {rt : Runtime}.

Definition message (text : string) : value := VObj [("message", VStr text)].

(** [s.includes(t)] on Strings. *)
Fixpoint String_includes (s t : string) : bool :=
  String.prefix t s
  || match s with
     | EmptyString => false
     | String _ s' => String_includes s' t
     end.

(** [product.k.toLowerCase().includes(searchTerm)]. *)
Definition field_includes (product : value) (k searchTerm : string) : flow bool :=
  let? v := prop product k in
  let? low := toLowerCase v in
  Next (String_includes low searchTerm).

(** The callback of the search filter, with the short circuit of [||]. *)
Definition matches_search (searchTerm : string) (product : value) : flow bool :=
  let? in_name := field_includes product "name" searchTerm in
  if in_name then Next true
  else
    let? in_description := field_includes product "description" searchTerm in
    if in_description then Next true
    else field_includes product "category" searchTerm.

(** The callback of the category filter. *)
Definition in_category (category : value) (product : value) : flow bool :=
  let? c := prop product "category" in
  let? mine := toLowerCase c in
  let? wanted := toLowerCase category in
  Next (String.eqb mine wanted).

(** [router.get('/')]: all products. *)
Definition list_products_body (req : request) : M response :=
  let* q := pure (fields_of (req_query req)) in
  let category := q "category" in
  let search := q "search" in
  let limit := q "limit" in
  let page := or_default (q "page") (VNum 1) in
  let* products := readData "products" in
  let* products :=
    pure (if truthy category && negb (strict_eq category (VStr "All"))
          then array_filter (in_category category) products
          else Next products) in
  let* products :=
    pure (if truthy search
          then let? searchTerm := toLowerCase search in
               array_filter (matches_search searchTerm) products
          else Next products) in
  let pageSize := if truthy limit then parseInt limit else of_nat (length products) in
  let startIndex := PrimFloat.mul (PrimFloat.sub (parseInt page) 1) pageSize in
  let endIndex := PrimFloat.add startIndex pageSize in
  let paginatedProducts := slice products startIndex endIndex in
  ret (Response 200
         (VObj [("products", VArr paginatedProducts);
                ("total", VNum (of_nat (length products)));
                ("page", VNum (parseInt page));
                ("pageSize", VNum pageSize);
                ("totalPages",
                   VNum (Math_ceil (PrimFloat.div (of_nat (length products)) pageSize)))])).

Definition list_products (req : request) : world -> response * world :=
  handler "Error fetching products" (list_products_body req).

(** [req.user.role !== 'admin']. *)
Definition not_admin (req : request) : flow bool :=
  let? role := prop (req_user req) "role" in
  Next (negb (strict_eq role (VStr "admin"))).

(** The callback of [products.find(p => p.name.toLowerCase() === name.toLowerCase())]. *)
Definition same_name (name : value) (p : value) : flow bool :=
  let? pname := prop p "name" in
  let? mine := toLowerCase pname in
  let? wanted := toLowerCase name in
  Next (String.eqb mine wanted).

(** The object literal [newProduct]; the three time values are those of
    [Date.now()], [new Date()] and [new Date()]. *)
Definition newProduct (b : string -> value) (t_id t_created t_updated : float) : value :=
  VObj [("id", VNum t_id);
        ("name", b "name");
        ("price", VNum (parseFloat (b "price")));
        ("category", b "category");
        ("description", b "description");
        ("image", if truthy (b "image") then b "image"
                  else VStr "/api/placeholder/300/200");
        ("featured", Boolean (or_default (b "featured") (VBool false)));
        ("createdAt", VStr (Date_toISOString t_created));
        ("updatedAt", VStr (Date_toISOString t_updated))].

(** [router.post('/')]: create a product, admin only. *)
Definition create_product_body (req : request) : M response :=
  let* denied := pure (not_admin req) in
  if denied then respond 403 (message "Access denied. Admin only.")
  else
    let* b := pure (fields_of (req_body req)) in
    if negb (truthy (b "name")) || negb (truthy (b "price"))
       || negb (truthy (b "category")) || negb (truthy (b "description")) then
      respond 400 (message "Name, price, category, and description are required")
    else if js_le (b "price") 0 then
      respond 400 (message "Price must be greater than 0")
    else
      let* products := readData "products" in
      let* existingProduct := pure (array_find (same_name (b "name")) products) in
      if truthy existingProduct then
        respond 400 (message "Product with this name already exists")
      else
        let* t_id := Date_now in
        let* t_created := Date_now in
        let* t_updated := Date_now in
        let product := newProduct b t_id t_created t_updated in
        let* _ := writeData "products" (products ++ [product]) in
        ret (Response 201 (VObj [("message", VStr "Product created successfully");
                                 ("product", product)])).

Definition create_product (req : request) : world -> response * world :=
  handler "Error creating product" (create_product_body req).

(** The callback of [products.findIndex(p => p.id === productId)]. *)
Definition has_id (productId : float) (p : value) : flow bool :=
  let? pid := prop p "id" in
  Next (strict_eq pid (VNum productId)).

(** The callback of the rename check,
    [p.name.toLowerCase() === name.toLowerCase() && p.id !== productId]. *)
Definition name_taken (name : value) (productId : float) (p : value) : flow bool :=
  let? same := same_name name p in
  if same then
    let? pid := prop p "id" in
    Next (negb (strict_eq pid (VNum productId)))
  else Next false.

(** [if (v) product.k = v], on the property list of the product. *)
Definition assign_if (k : string) (v : value) (fields : list (string * value))
  : list (string * value) :=
  if truthy v then set_field k v fields else fields.

(** The assignments of the update handler to [products[productIndex]]. *)
Definition updated_fields (b : string -> value) (t_updated : float)
    (fields : list (string * value)) : list (string * value) :=
  let fields := assign_if "name" (b "name") fields in
  let fields := if truthy (b "price")
                then set_field "price" (VNum (parseFloat (b "price"))) fields
                else fields in
  let fields := assign_if "category" (b "category") fields in
  let fields := assign_if "description" (b "description") fields in
  let fields := assign_if "image" (b "image") fields in
  let fields := match b "featured" with
                | VUndefined => fields
                | f => set_field "featured" (Boolean f) fields
                end in
  set_field "updatedAt" (VStr (Date_toISOString t_updated)) fields.

(** [router.put('/:id')]: update a product, admin only. *)
Definition update_product_body (req : request) : M response :=
  let* denied := pure (not_admin req) in
  if denied then respond 403 (message "Access denied. Admin only.")
  else
    let* params := pure (fields_of (req_params req)) in
    let productId := parseInt (params "id") in
    let* b := pure (fields_of (req_body req)) in
    let* products := readData "products" in
    let* productIndex := pure (array_findIndex (has_id productId) products) in
    match productIndex with
    | None => respond 404 (message "Product not found")
    | Some i =>
        if truthy (b "price") && js_le (b "price") 0 then
          respond 400 (message "Price must be greater than 0")
        else
          let* current := pure (prop (nth i products VUndefined) "name") in
          let* existingProduct :=
            pure (if truthy (b "name") && negb (strict_eq (b "name") current)
                  then array_find (name_taken (b "name") productId) products
                  else Next VUndefined) in
          if truthy existingProduct then
            respond 400 (message "Product with this name already exists")
          else
            match nth i products VUndefined with
            | VObj fields =>
                let* t_updated := Date_now in
                let product := VObj (updated_fields b t_updated fields) in
                let products := <[i := product]> products in
                let* _ := writeData "products" products in
                ret (Response 200 (VObj [("message", VStr "Product updated successfully");
                                         ("product", product)]))
            | _ => pure Throw
            end
    end.

Definition update_product (req : request) : world -> response * world :=
  handler "Error updating product" (update_product_body req).

(** *** The vocabulary of the specification of the catalog *)

(** Two names are both Strings and equal once in lower case. *)
Definition same_lower (a b : value) : bool :=
  match a, b with
  | VStr s, VStr t => String.eqb (String_toLowerCase s) (String_toLowerCase t)
  | _, _ => false
  end.

(** [ok] holds of every element and every later element. *)
Fixpoint pairwise {A : Type} (ok : A -> A -> bool) (l : list A) : bool :=
  match l with
  | [] => true
  | x :: rest => forallb (ok x) rest && pairwise ok rest
  end.

(** No two products share a case-insensitive name. *)
Definition names_distinct (products : list value) : Prop :=
  pairwise (fun p q => negb (same_lower (get p "name") (get q "name"))) products = true.

(** No two products have the same id. *)
Definition ids_distinct (products : list value) : Prop :=
  pairwise (fun p q => negb (strict_eq (get p "id") (get q "id"))) products = true.

(** Every product has a String as its name. *)
Definition names_are_strings (products : list value) : Prop :=
  forallb (fun p => match prop p "name" with
                    | Next (VStr _) => true
                    | _ => false
                    end) products = true.

Definition DuplicateNameError : response :=
  Response 400 (message "Product with this name already exists").

Definition PriceError : response :=
  Response 400 (message "Price must be greater than 0").

(** *** Featured products, categories, one product, deleting a product *)

(** The callback of [products.filter(product => product.featured)]. *)
Definition is_featured (product : value) : flow bool :=
  let? f := prop product "featured" in
  Next (truthy f).

(** [router.get('/featured')]: up to six featured products, or the first six
    products when none is featured. *)
Definition featured_products_body (req : request) : M response :=
  let* products := readData "products" in
  let* featured := pure (array_filter is_featured products) in
  let featuredProducts := slice featured 0 6 in
  match featuredProducts with
  | [] => respond 200 (VArr (slice products 0 6))
  | _ => ret (Response 200 (VArr featuredProducts))
  end.

Definition featured_products (req : request) : world -> response * world :=
  handler "Error fetching featured products" (featured_products_body req).

(** The element a [Set] keeps for a value: [-0] is kept as [+0]. *)
Definition Set_element (v : value) : value :=
  match v with
  | VNum x => if PrimFloat.is_zero x then VNum 0 else v
  | _ => v
  end.

(** [set.add(v)] on the elements of a [Set] in insertion order: a value that
    is already an element (by SameValueZero) is not added again. *)
Definition Set_add (elements : list value) (v : value) : list value :=
  let v := Set_element v in
  if existsb (same_value_zero v) elements then elements else elements ++ [v].

(** [[...new Set(xs)]]. *)
Definition Set_of (xs : list value) : list value := fold_left Set_add xs [].

(** [router.get('/categories')]: the distinct categories of the products. *)
Definition product_categories_body (req : request) : M response :=
  let* products := readData "products" in
  let* categories := pure (array_mapM (fun product => prop product "category") products) in
  ret (Response 200 (VArr (Set_of categories))).

Definition product_categories (req : request) : world -> response * world :=
  handler "Error fetching categories" (product_categories_body req).

(** [router.get('/:id')]: one product. *)
Definition get_product_body (req : request) : M response :=
  let* id := pure (prop (req_params req) "id") in
  let productId := parseInt id in
  let* products := readData "products" in
  let* product := pure (array_find (has_id productId) products) in
  if negb (truthy product) then respond 404 (message "Product not found")
  else ret (Response 200 product).

Definition get_product (req : request) : world -> response * world :=
  handler "Error fetching product" (get_product_body req).

(** [router.delete('/:id')]: delete a product, admin only. *)
Definition delete_product_body (req : request) : M response :=
  let* denied := pure (not_admin req) in
  if denied then respond 403 (message "Access denied. Admin only.")
  else
    let* id := pure (prop (req_params req) "id") in
    let productId := parseInt id in
    let* products := readData "products" in
    let* productIndex := pure (array_findIndex (has_id productId) products) in
    match productIndex with
    | None => respond 404 (message "Product not found")
    | Some i =>
        let deletedProduct := nth i products VUndefined in
        let products := delete i products in
        let* _ := writeData "products" products in
        ret (Response 200 (VObj [("message", VStr "Product deleted successfully");
                                 ("product", deletedProduct)]))
    end.

Definition delete_product (req : request) : world -> response * world :=
  handler "Error deleting product" (delete_product_body req).

End Routes.
End Products.

(** ** The pure helpers of [utils/helpers.js]

    In this part a String is the sequence of its code units, all below 256. *)

Module Helpers.
Import JS Http Store.
Local Open Scope js_scope.

(** The white space and the line terminators: what [\s] matches and what
    [trim] strips (tab to carriage return, the space, the no-break space). *)
Definition white_space (c : ascii) : bool :=
  let n := nat_of_ascii c in
  ((9 <=? n) && (n <=? 13))%nat || (n =? 32)%nat || (n =? 160)%nat.

(** A pattern without alternatives: a sequence of character classes, each
    taken once or, under [+], one or more times. *)
Inductive item : Type :=
| One (cls : ascii -> bool)
| Plus (cls : ascii -> bool).

(** [/^...$/.test(s)] by backtracking: a [+] takes as many characters as it
    can and gives them back one by one until the rest of the pattern matches
    the rest of the input. *)
Fixpoint matches (re : list item) (s : string) {struct re} : bool :=
  match re with
  | [] => match s with
          | EmptyString => true
          | _ => false
          end
  | One cls :: re' =>
      match s with
      | String c s' => cls c && matches re' s'
      | EmptyString => false
      end
  | Plus cls :: re' =>
      (fix many (s : string) : bool :=
         match s with
         | String c s' => cls c && (many s' || matches re' s')
         | EmptyString => false
         end) s
  end.

(** The class [[^\s@]]. *)
Definition not_space_or_at (c : ascii) : bool :=
  negb (white_space c) && negb (Ascii.eqb c "@").

(** Every character of [s] is in the class [cls]. *)
Fixpoint all_in (cls : ascii -> bool) (s : string) : bool :=
  match s with
  | EmptyString => true
  | String c s' => cls c && all_in cls s'
  end.

(** [/^[^\s@]+@[^\s@]+\.[^\s@]+$/]. *)
Definition emailRegex : list item :=
  [Plus not_space_or_at; One (Ascii.eqb "@"); Plus not_space_or_at;
   One (Ascii.eqb "."); Plus not_space_or_at].

Fixpoint trim_start (s : string) : string :=
  match s with
  | String c s' => if white_space c then trim_start s' else s
  | EmptyString => s
  end.

(** [s.trim()]. *)
Definition trim (s : string) : string :=
  String.rev (trim_start (String.rev (trim_start s))).

(** [s.replace(/[<>]/g, '')]. *)
Fixpoint remove_angle_brackets (s : string) : string :=
  match s with
  | EmptyString => EmptyString
  | String c s' =>
      if Ascii.eqb c "<" || Ascii.eqb c ">" then remove_angle_brackets s'
      else String c (remove_angle_brackets s')
  end.

(** [sanitizeInput(input)]. *)
Definition sanitizeInput (input : value) : value :=
  match input with
  | VStr s => VStr (remove_angle_brackets (trim s))
  | _ => input
  end.

(** [filterUserData(user)]: [const { password, ...filteredUser } = user]. *)
Definition filterUserData (user : value) : flow value :=
  rest_without "password" user.

Section Conversions.
Context {rt : Runtime}.

(** [isValidEmail(email)]; [test] converts its argument to a String. *)
Definition isValidEmail (email : value) : bool :=
  matches emailRegex (ToString email).

(** [getPaginationData(totalItems, page = 1, limit = 10)]. *)
Definition getPaginationData (totalItems page limit : value) : value :=
  let page := or_default page (VNum 1) in
  let limit := or_default limit (VNum 10) in
  let totalPages := Math_ceil (js_div totalItems limit) in
  let currentPage := Math_max 1 (Math_min (ToNumber page) totalPages) in
  let offset := PrimFloat.mul (PrimFloat.sub currentPage 1) (ToNumber limit) in
  VObj [("totalItems", totalItems);
        ("totalPages", VNum totalPages);
        ("currentPage", VNum currentPage);
        ("limit", limit);
        ("offset", VNum offset);
        ("hasNext", VBool (PrimFloat.ltb currentPage totalPages));
        ("hasPrev", VBool (PrimFloat.ltb 1 currentPage))].

End Conversions.
End Helpers.

(** ** The profile routes of [routes/auth.js] *)

Module Auth.
Import JS Http Store.
Local Open Scope js_scope.

Section Routes.
Context {rt : Runtime}.

Definition message (text : string) : value := VObj [("message", VStr text)].

(** The callback of [users.find(u => u.id === req.user.userId)]. *)
Definition is_caller (req : request) (u : value) : flow bool :=
  let? uid := prop u "id" in
  let? caller := prop (req_user req) "userId" in
  Next (strict_eq uid caller).

(** [router.get('/profile')]: the caller's user record without its password. *)
Definition get_profile_body (req : request) : M response :=
  let* users := readData "users" in
  let* user := pure (array_find (is_caller req) users) in
  if negb (truthy user) then respond 404 (message "User not found")
  else
    let* userWithoutPassword := pure (rest_without "password" user) in
    ret (Response 200 (VObj [("user", userWithoutPassword)])).

Definition get_profile (req : request) : world -> response * world :=
  handler "Server error" (get_profile_body req).

(** The callback of
    [users.find(u => u.email === email.toLowerCase() && u.id !== req.user.userId)]. *)
Definition email_taken (req : request) (email : value) (u : value) : flow bool :=
  let? uemail := prop u "email" in
  let? wanted := toLowerCase email in
  if strict_eq uemail (VStr wanted) then
    let? uid := prop u "id" in
    let? caller := prop (req_user req) "userId" in
    Next (negb (strict_eq uid caller))
  else Next false.

(** The assignments [target.k = v] of [updates], in order: the value that
    [JSON.stringify] then writes for [target], and the own properties of
    [target] after them.  An object takes the properties; an array keeps a
    property of such a name beside its elements, where [JSON.stringify] does
    not write it; on a primitive the assignment has no effect (the module is
    not in strict mode). *)
Definition assigned (target : value) (updates : list (string * value))
  : value * list (string * value) :=
  let assign := fold_left (fun fields kv => set_field (fst kv) (snd kv) fields) updates in
  match target with
  | VObj fields => (VObj (assign fields), assign fields)
  | VArr _ => (target, own_properties target ++ assign [])
  | _ => (target, own_properties target)
  end.

(** The assignments of the profile update to [users[userIndex]]: [name] if
    the body has one, [email] in lower case if the body has one ([lowered]),
    and [updatedAt]. *)
Definition profile_updates (b : string -> value) (lowered : list (string * value))
    (t_updated : float) : list (string * value) :=
  (if truthy (b "name") then [("name", b "name")] else []) ++ lowered
  ++ [("updatedAt", VStr (Date_toISOString t_updated))].

(** [router.put('/profile')]: change the caller's name and email. *)
Definition update_profile_body (req : request) : M response :=
  let* b := pure (fields_of (req_body req)) in
  let name := b "name" in
  let email := b "email" in
  let* users := readData "users" in
  let* userIndex := pure (array_findIndex (is_caller req) users) in
  match userIndex with
  | None => respond 404 (message "User not found")
  | Some i =>
      let user := nth i users VUndefined in
      let* current := pure (prop user "email") in
      let* existingUser :=
        pure (if truthy email && negb (strict_eq email current)
              then array_find (email_taken req email) users
              else Next VUndefined) in
      if truthy existingUser then respond 400 (message "Email already taken")
      else
        let* lowered :=
          pure (if truthy email
                then let? e := toLowerCase email in Next [("email", VStr e)]
                else Next []) in
        let* t_updated := Date_now in
        let user := assigned user (profile_updates b lowered t_updated) in
        let users := <[i := fst user]> users in
        let* _ := writeData "users" users in
        let userWithoutPassword :=
          VObj (List.filter (fun kv => negb (String.eqb "password" (fst kv))) (snd user)) in
        ret (Response 200 (VObj [("message", VStr "Profile updated successfully");
                                 ("user", userWithoutPassword)]))
  end.

Definition update_profile (req : request) : world -> response * world :=
  handler "Server error" (update_profile_body req).

(** *** The vocabulary of the user records *)

(** No two users have the same email. *)
Definition emails_distinct (users : list value) : Prop :=
  Products.pairwise (fun u v => negb (strict_eq (get u "email") (get v "email"))) users
  = true.

(** Every user's email is a String in lower case. *)
Definition emails_lower_case (users : list value) : Prop :=
  Forall (fun u => exists s, get u "email" = VStr s /\ String_toLowerCase s = s) users.

End Routes.
End Auth.

(** ** A reference runtime

    The conversions of ECMAScript computed exactly, to run the handlers on
    concrete requests.  Strings are taken as sequences of ASCII characters:
    [toLowerCase] maps the letters A-Z, and only the ASCII white space is
    trimmed.  [Date_parse] reads the format that [toISOString] writes and
    takes any other text as an invalid date. *)

Module Node.
Import JS.

Definition string_of_Z (z : Z) : string := NilZero.string_of_int (Z.to_int z).

(** The exact value of a finite Number. *)
Definition Q_of_float (x : float) : option Q :=
  match Prim2SF x with
  | S754_zero _ => Some 0%Q
  | S754_finite s m e =>
      let q := (inject_Z (Z.pos m) * Qpower 2 e)%Q in
      Some (Qred (if s then (- q)%Q else q))
  | _ => None
  end.

(** The Number nearest to a rational (ties to even), with the sign given
    apart so that zero keeps it.  The quotient is cut after more than 64
    bits and a sticky bit records what was cut. *)
Definition float_of_Q (neg : bool) (q : Q) : float :=
  let p := Qnum q in
  let d := Z.pos (Qden q) in
  if (p <=? 0)%Z then (if neg then PrimFloat.neg_zero else PrimFloat.zero)
  else
    let sh := Z.max 0 (64 + Z.log2 d - Z.log2 p) + 1 in
    let m := (p * 2 ^ sh) / d in
    let r := (p * 2 ^ sh) mod d in
    let m' := 2 * m + (if (r =? 0)%Z then 0 else 1) in
    SF2Prim (binary_normalize 53 1024 (if neg then - m' else m') (- sh - 1) false).

Definition Qleb (a b : Q) : bool := Qle_bool a b.
Definition Qltb (a b : Q) : bool := negb (Qle_bool b a).

(** The reals that round to a positive finite [x]: those between the
    midpoints to its two neighbours, the midpoints included when the
    significand of [x] is even. *)
Definition rounds_to (x : float) (v : Q) : bool :=
  match Q_of_float x, Q_of_float (PrimFloat.next_down x), Prim2SF x with
  | Some xq, Some dq, S754_finite _ m _ =>
      let uq := match Q_of_float (PrimFloat.next_up x) with
                | Some u => u
                | None => (xq + (xq - dq))%Q
                end in
      let lo := ((dq + xq) / 2)%Q in
      let hi := ((xq + uq) / 2)%Q in
      if Z.even (Z.pos m) then Qleb lo v && Qleb v hi
      else Qltb lo v && Qltb v hi
  | _, _, _ => false
  end.

(** The [n] with 10^(n-1) <= q < 10^n, for a positive [q]. *)
Definition decimal_exponent (q : Q) : Z :=
  let n0 := ((Z.log2 (Qnum q) - Z.log2 (Z.pos (Qden q))) * 30103) / 100000 - 2 in
  let fix up (fuel : nat) (n : Z) : Z :=
    match fuel with
    | O => n
    | S fuel' => if Qltb q (Qpower 10 n) then n else up fuel' (n + 1)
    end in
  up 8%nat n0.

(** Number::toString picks the fewest digits [s] (there are [k] of them) such
    that [s * 10^(n-k)] rounds to [x], and among those the nearest to [x]. *)
Fixpoint shortest (fuel : nat) (k : Z) (x : float) (xq : Q) (n : Z) : Z * Z :=
  match fuel with
  | O => (0, n)
  | S fuel' =>
      let u := Qpower 10 (n - k) in
      let c1 := Qfloor (xq / u) in
      let c2 := c1 + 1 in
      let v1 := (inject_Z c1 * u)%Q in
      let v2 := (inject_Z c2 * u)%Q in
      let ok1 := rounds_to x v1 in
      let ok2 := rounds_to x v2 in
      let d1 := Qabs (v1 - xq) in
      let d2 := Qabs (v2 - xq) in
      let pick (c : Z) := if (c =? 10 ^ k)%Z then (c / 10 ^ k, n + 1) else (c, n) in
      if ok1 && ok2 then
        (if Qltb d1 d2 then pick c1
         else if Qltb d2 d1 then pick c2
         else if Z.even c1 then pick c1 else pick c2)
      else if ok1 then pick c1
      else if ok2 then pick c2
      else shortest fuel' (k + 1) x xq n
  end.

Definition zeros (n : Z) : string := String.concat "" (List.repeat "0" (Z.to_nat n)).

(** The four layouts of Number::toString for the digits [s] and exponent [n]. *)
Definition format_number (s n : Z) : string :=
  let digits := string_of_Z s in
  let k := Z.of_nat (String.length digits) in
  if (k <=? n)%Z && (n <=? 21)%Z then digits +:+ zeros (n - k)
  else if (0 <? n)%Z && (n <=? 21)%Z then
    substring 0 (Z.to_nat n) digits +:+ "." +:+
    substring (Z.to_nat n) (Z.to_nat (k - n)) digits
  else if (-6 <? n)%Z && (n <=? 0)%Z then "0." +:+ zeros (- n) +:+ digits
  else
    let e := n - 1 in
    let es := (if (e <? 0)%Z then "-" else "+") +:+ string_of_Z (Z.abs e) in
    if (k =? 1)%Z then digits +:+ "e" +:+ es
    else substring 0 1 digits +:+ "." +:+
         substring 1 (Z.to_nat (k - 1)) digits +:+ "e" +:+ es.

Definition Number_toString (x : float) : string :=
  match Prim2SF x with
  | S754_nan => "NaN"
  | S754_zero _ => "0"
  | S754_infinity false => "Infinity"
  | S754_infinity true => "-Infinity"
  | S754_finite sgn _ _ =>
      let ax := PrimFloat.abs x in
      match Q_of_float ax with
      | Some xq =>
          let '(s, n) := shortest 17 1 ax xq (decimal_exponent xq) in
          (if sgn then "-" else "") +:+ format_number s n
      | None => "NaN"
      end
  end.

(** *** Reading numbers *)

Definition is_space (c : ascii) : bool :=
  let n := nat_of_ascii c in
  ((9 <=? n) && (n <=? 13))%nat || (n =? 32)%nat.

Fixpoint trim_left (s : string) : string :=
  match s with
  | String c s' => if is_space c then trim_left s' else s
  | EmptyString => s
  end.

Definition trim (s : string) : string :=
  String.rev (trim_left (String.rev (trim_left s))).

Definition digit_of (radix : Z) (c : ascii) : option Z :=
  let n := Z.of_nat (nat_of_ascii c) in
  let d := if (48 <=? n)%Z && (n <=? 57)%Z then n - 48
           else if (97 <=? n)%Z && (n <=? 122)%Z then n - 87
           else if (65 <=? n)%Z && (n <=? 90)%Z then n - 55
           else radix in
  if (d <? radix)%Z then Some d else None.

(** The longest prefix of digits: its value, its length and what follows. *)
Fixpoint scan_digits (radix : Z) (s : string) (acc count : Z) : Z * Z * string :=
  match s with
  | String c s' =>
      match digit_of radix c with
      | Some d => scan_digits radix s' (radix * acc + d) (count + 1)
      | None => (acc, count, s)
      end
  | EmptyString => (acc, count, s)
  end.

Definition scan_sign (s : string) : bool * string :=
  match s with
  | String "-" s' => (true, s')
  | String "+" s' => (false, s')
  | _ => (false, s)
  end.

(** The Number of [m * 10^e10]. *)
Definition float_of_decimal (neg : bool) (m e10 : Z) : float :=
  let size := Z.of_nat (String.length (string_of_Z m)) + e10 in
  if (m =? 0)%Z then (if neg then PrimFloat.neg_zero else PrimFloat.zero)
  else if (310 <? size)%Z then (if neg then PrimFloat.neg_infinity else PrimFloat.infinity)
  else if (size <? -330)%Z then (if neg then PrimFloat.neg_zero else PrimFloat.zero)
  else float_of_Q neg (Qred (inject_Z m * Qpower 10 e10)%Q).

(** The longest prefix that is an unsigned decimal literal,
    [digits [. digits] [e [sign] digits]] or [. digits [e ...]]. *)
Definition scan_decimal (s : string) : option (Z * Z * string) :=
  let '(ip, ni, s1) := scan_digits 10 s 0 0 in
  let '(fp, nf, s2) :=
    match s1 with
    | String "." s1' =>
        let '(f, n, r) := scan_digits 10 s1' ip 0 in
        if (ni + n =? 0)%Z then (ip, 0, s1) else (f, n, r)
    | _ => (ip, 0, s1)
    end in
  if (ni + nf =? 0)%Z then None
  else
    let '(e, s3) :=
      match s2 with
      | String c s2' =>
          if Ascii.eqb c "e" || Ascii.eqb c "E" then
            let '(eneg, s2'') := scan_sign s2' in
            let '(ev, en, r) := scan_digits 10 s2'' 0 0 in
            if (en =? 0)%Z then (0, s2) else (if eneg then - ev else ev, r)
          else (0, s2)
      | EmptyString => (0, s2)
      end in
    Some (fp, e - nf, s3).

(** [parseFloat(s)]. *)
Definition parseFloat_string (s : string) : float :=
  let '(neg, s1) := scan_sign (trim_left s) in
  if String.prefix "Infinity" s1
  then (if neg then PrimFloat.neg_infinity else PrimFloat.infinity)
  else match scan_decimal s1 with
       | Some (m, e10, _) => float_of_decimal neg m e10
       | None => PrimFloat.nan
       end.

Definition radix_literal (radix : Z) (digits : string) : float :=
  match scan_digits radix digits 0 0 with
  | (v, n, EmptyString) =>
      if (n =? 0)%Z then PrimFloat.nan else float_of_Q false (inject_Z v)
  | _ => PrimFloat.nan
  end.

(** StringToNumber. *)
Definition StringToNumber (s : string) : float :=
  let t := trim s in
  match t with
  | EmptyString => PrimFloat.zero
  | String "0" (String "x" r) | String "0" (String "X" r) => radix_literal 16 r
  | String "0" (String "o" r) | String "0" (String "O" r) => radix_literal 8 r
  | String "0" (String "b" r) | String "0" (String "B" r) => radix_literal 2 r
  | _ =>
      let '(neg, s1) := scan_sign t in
      if String.eqb s1 "Infinity"
      then (if neg then PrimFloat.neg_infinity else PrimFloat.infinity)
      else match scan_decimal s1 with
           | Some (m, e10, EmptyString) => float_of_decimal neg m e10
           | _ => PrimFloat.nan
           end
  end.

(** [parseInt(s)] without a radix: radix 16 after [0x], 10 otherwise. *)
Definition parseInt_string (s : string) : float :=
  let '(neg, s1) := scan_sign (trim_left s) in
  let '(radix, s2) :=
    match s1 with
    | String "0" (String "x" r) | String "0" (String "X" r) => (16, r)
    | _ => (10, s1)
    end in
  match scan_digits radix s2 0 0 with
  | (v, n, _) =>
      if (n =? 0)%Z then PrimFloat.nan
      else if (v =? 0)%Z then (if neg then PrimFloat.neg_zero else PrimFloat.zero)
      else float_of_Q neg (inject_Z v)
  end.

(** *** Strings *)

Definition lower_ascii (c : ascii) : ascii :=
  let n := nat_of_ascii c in
  if ((65 <=? n) && (n <=? 90))%nat then ascii_of_nat (n + 32) else c.

Fixpoint String_toLowerCase (s : string) : string :=
  match s with
  | EmptyString => EmptyString
  | String c s' => String (lower_ascii c) (String_toLowerCase s')
  end.

(** *** Dates *)

(** The civil date (year, month, day) of a day number counted from
    1970-01-01, and back. *)
Definition civil_from_days (z0 : Z) : Z * Z * Z :=
  let z := z0 + 719468 in
  let era := z / 146097 in
  let doe := z - era * 146097 in
  let yoe := (doe - doe / 1460 + doe / 36524 - doe / 146096) / 365 in
  let doy := doe - (365 * yoe + yoe / 4 - yoe / 100) in
  let mp := (5 * doy + 2) / 153 in
  let d := doy - (153 * mp + 2) / 5 + 1 in
  let m := if (mp <? 10)%Z then mp + 3 else mp - 9 in
  let y := yoe + era * 400 in
  ((if (m <=? 2)%Z then y + 1 else y), m, d).

Definition days_from_civil (y m d : Z) : Z :=
  let y := if (m <=? 2)%Z then y - 1 else y in
  let era := y / 400 in
  let yoe := y - era * 400 in
  let doy := (153 * (if (2 <? m)%Z then m - 3 else m + 9) + 2) / 5 + d - 1 in
  let doe := yoe * 365 + yoe / 4 - yoe / 100 + doy in
  era * 146097 + doe - 719468.

Definition pad (width : nat) (z : Z) : string :=
  let digits := string_of_Z z in
  String.concat "" (List.repeat "0" (width - String.length digits)) +:+ digits.

Definition Date_toISOString (t : float) : string :=
  match ToIntegerOrInfinity t with
  | Fin ms =>
      let day := ms / 86400000 in
      let rest := ms mod 86400000 in
      let '(y, m, d) := civil_from_days day in
      let year := if (0 <=? y)%Z && (y <=? 9999)%Z then pad 4 y
                  else (if (y <? 0)%Z then "-" else "+") +:+ pad 6 (Z.abs y) in
      year +:+ "-" +:+ pad 2 m +:+ "-" +:+ pad 2 d +:+ "T" +:+
      pad 2 (rest / 3600000) +:+ ":" +:+ pad 2 (rest / 60000 mod 60) +:+ ":" +:+
      pad 2 (rest / 1000 mod 60) +:+ "." +:+ pad 3 (rest mod 1000) +:+ "Z"
  | _ => "Invalid Date"
  end.

(** A field of exactly [width] digits followed by the separator [sep]. *)
Definition scan_field (width : Z) (sep : string) (s : string) : option (Z * string) :=
  match scan_digits 10 s 0 0 with
  | (v, n, r) =>
      if (n =? width)%Z && String.prefix sep r
      then Some (v, substring (String.length sep) (String.length r) r)
      else None
  end.

Definition Date_parse (s : string) : float :=
  match scan_field 4 "-" s with
  | Some (y, s) =>
  match scan_field 2 "-" s with
  | Some (m, s) =>
  match scan_field 2 "T" s with
  | Some (d, s) =>
  match scan_field 2 ":" s with
  | Some (hh, s) =>
  match scan_field 2 ":" s with
  | Some (mm, s) =>
  match scan_field 2 "." s with
  | Some (ss, s) =>
  match scan_field 3 "Z" s with
  | Some (ms, EmptyString) =>
      if (1 <=? m)%Z && (m <=? 12)%Z && (1 <=? d)%Z
         && (d <=? days_from_civil (if (m =? 12)%Z then y + 1 else y)
                                   (if (m =? 12)%Z then 1 else m + 1) 1
                   - days_from_civil y m 1)%Z
         && (hh <=? 23)%Z && (mm <=? 59)%Z && (ss <=? 59)%Z
      then of_Z (days_from_civil y m d * 86400000
                 + hh * 3600000 + mm * 60000 + ss * 1000 + ms)
      else PrimFloat.nan
  | _ => PrimFloat.nan end
  | None => PrimFloat.nan end
  | None => PrimFloat.nan end
  | None => PrimFloat.nan end
  | None => PrimFloat.nan end
  | None => PrimFloat.nan end
  | None => PrimFloat.nan end.

#[export] Instance runtime : Runtime := {|
  JS.Number_toString := Number_toString;
  JS.StringToNumber := StringToNumber;
  JS.parseInt_string := parseInt_string;
  JS.parseFloat_string := parseFloat_string;
  JS.String_toLowerCase := String_toLowerCase;
  JS.Date_parse := Date_parse;
  JS.Date_toISOString := Date_toISOString
|}.

End Node.


(** ** Sample data *)

Module Sample.
Import JS Http Store.

Definition widget : value :=
  VObj [("id", VNum 1); ("name", VStr "Widget"); ("price", VNum 9.99);
        ("category", VStr "Tools"); ("description", VStr "A widget");
        ("image", VStr "/img/widget.png"); ("featured", VBool true);
        ("createdAt", VStr "2023-11-14T22:13:20.000Z");
        ("updatedAt", VStr "2023-11-14T22:13:20.000Z")].

Definition gadget : value :=
  VObj [("id", VNum 2); ("name", VStr "Gadget"); ("price", VNum 0.005);
        ("category", VStr "Toys"); ("description", VStr "A gadget");
        ("image", VStr "/img/gadget.png"); ("featured", VBool false);
        ("createdAt", VStr "2023-11-14T22:13:20.000Z");
        ("updatedAt", VStr "2023-11-14T22:13:20.000Z")].

Definition catalog : list value := [widget; gadget].

(** A clock that advances by one millisecond between its third and its
    fourth reading. *)
Definition ticking (n : nat) : float :=
  if (n <? 3)%nat then 1700000000000%float else 1700000000001%float.

Definition steady (n : nat) : float := 1700000000000%float.

(** A data directory holding the catalog and no orders file yet. *)
Definition shop : disk := Disk true false {[ "products" := Records catalog ]}.

(** A products file in which a price is written [1e999], which [JSON.parse]
    reads as [Infinity] and [JSON.stringify] writes as [null]. *)
Definition overflowing : disk :=
  Disk true false
    {[ "products" := Records [VObj [("id", VNum 1); ("name", VStr "Widget");
                                    ("price", VNum PrimFloat.infinity)]] ]}.

Definition world_of (d : disk) (c : nat -> float) : world := World d c 0 [].

Definition item (id quantity : float) : value :=
  VObj [("id", VNum id); ("quantity", VNum quantity)].

(** An order-creation body with every billing field. *)
Definition order_body (items : list value) (total : value) : value :=
  VObj [("email", VStr "ada@example.org"); ("firstName", VStr "Ada");
        ("lastName", VStr "Lovelace"); ("address", VStr "12 St James Square");
        ("city", VStr "London"); ("zipCode", VStr "SW1Y"); 
        ("paymentMethod", VStr "card"); ("items", VArr items);
        ("total", total); ("userId", VNum 7)].

Definition post (b : value) : request := Request b (VObj []) (VObj []) VUndefined.

(** Stored orders of two customers, oldest first. *)
Definition order_of (id userId total : float) (status created : string) : value :=
  VObj [("id", VNum id); ("userId", VNum userId); ("items", VArr []);
        ("total", VNum total); ("status", VStr status);
        ("createdAt", VStr created); ("updatedAt", VStr created)].

Definition first_order : value :=
  order_of 101 7 19.98 "completed" "2024-01-01T10:00:00.000Z".
Definition second_order : value :=
  order_of 102 8 5 "pending" "2024-01-02T10:00:00.000Z".
Definition third_order : value :=
  order_of 103 7 0.02 "cancelled" "2024-01-03T10:00:00.000Z".

(** The shop with its three orders. *)
Definition trading : disk :=
  Disk true false
    {[ "products" := Records catalog;
       "orders" := Records [first_order; second_order; third_order] ]}.

(** An empty data directory. *)
Definition empty_shop : disk := Disk true false ∅.

(** Requests of an authenticated caller. *)
Definition get_as (user : value) (query : list (string * value)) : request :=
  Request VUndefined (VObj query) (VObj []) user.

Definition post_as (user b : value) : request :=
  Request b (VObj []) (VObj []) user.

Definition put_as (user : value) (id : string) (b : value) : request :=
  Request b (VObj []) (VObj [("id", VStr id)]) user.

(** A product-creation body. *)
Definition product_body (name : string) (price : float) : value :=
  VObj [("name", VStr name); ("price", VNum price); ("category", VStr "Tools");
        ("description", VStr "As described")].

(** A request for the record with the id [id] in its path. *)
Definition one_as (user : value) (id : string) : request :=
  Request VUndefined (VObj []) (VObj [("id", VStr id)]) user.

Definition customer : value :=
  VObj [("userId", VNum 7); ("email", VStr "ada@example.org"); ("role", VStr "customer")].

Definition admin : value :=
  VObj [("userId", VNum 1); ("email", VStr "root@example.org"); ("role", VStr "admin")].

(** Stored users, with the hashes of their passwords. *)
Definition user_of (id : float) (name email hash role : string) : value :=
  VObj [("id", VNum id); ("name", VStr name); ("email", VStr email);
        ("password", VStr hash); ("role", VStr role);
        ("createdAt", VStr "2023-11-14T22:13:20.000Z")].

Definition ada : value :=
  user_of 7 "Ada" "ada@example.org" "$2a$10$N9qo8uLOickgx2ZMRZoMye" "customer".

Definition root : value :=
  user_of 1 "Root" "root@example.org" "$2a$10$7EqJtq98hPqEX7fNZaFWoO" "admin".

Definition members : disk := Disk true false {[ "users" := Records [root; ada] ]}.

End Sample.

(** * Properties *)

(** ** Numbers *)

Module NumberFacts.
Import JS.

Lemma SFcompare_antisym (x y : spec_float) :
  SFcompare y x = option_map CompOpp (SFcompare x y).
Proof.
  destruct x as [sx|sx| |sx mx ex], y as [sy|sy| |sy my ey]; simpl;
    try reflexivity;
    try (destruct sx; reflexivity); try (destruct sy; reflexivity);
    try (destruct sx, sy; reflexivity).
  destruct sx, sy; simpl; try reflexivity;
    rewrite (Z.compare_antisym ex ey);
    destruct (ex ?= ey)%Z; simpl; try reflexivity;
    change (Pos.compare_cont Eq my mx) with (Pos.compare my mx);
    change (Pos.compare_cont Eq mx my) with (Pos.compare mx my);
    rewrite (Pos.compare_antisym mx my);
    destruct (Pos.compare mx my); reflexivity.
Qed.

(** [x <= y] excludes [y < x]. *)
Lemma leb_not_ltb (x y : float) :
  PrimFloat.leb x y = true -> PrimFloat.ltb y x = false.
Proof.
  rewrite leb_spec, ltb_spec. unfold SFleb, SFltb.
  rewrite (SFcompare_antisym (Prim2SF x) (Prim2SF y)).
  destruct (SFcompare (Prim2SF x) (Prim2SF y)) as [[| |]|]; simpl; congruence.
Qed.

(** A Number equal to 0 is one of the two zeros. *)
Lemma eqb_zero (p : float) :
  PrimFloat.eqb p 0 = true -> exists s, Prim2SF p = S754_zero s.
Proof.
  rewrite FloatAxioms.eqb_spec. change (Prim2SF 0) with (S754_zero false).
  destruct (Prim2SF p) as [s|s| |s m e]; simpl; try discriminate; eauto.
  - destruct s; discriminate.
  - destruct s; discriminate.
Qed.

(** Dividing by a zero gives an infinity or NaN. *)
Lemma div_zero (x p : float) (s : bool) :
  Prim2SF p = S754_zero s -> Number_isFinite (PrimFloat.div x p) = false.
Proof.
  intros Hp. unfold Number_isFinite. rewrite div_spec, Hp.
  unfold SF64div, SFdiv.
  destruct (Prim2SF x); reflexivity.
Qed.

(** [Math.ceil] and the JSON text of a Number that is not finite. *)
Lemma Math_ceil_not_finite (x : float) :
  Number_isFinite x = false -> Math_ceil x = x.
Proof.
  unfold Number_isFinite, Math_ceil.
  destruct (Prim2SF x); try discriminate; reflexivity.
Qed.

(** Multiplying by a zero, and then adding one, gives a zero or NaN, which
    as an index is 0. *)
Lemma mul_zero (x p : float) (s : bool) :
  Prim2SF p = S754_zero s -> zero_or_nan (PrimFloat.mul x p).
Proof.
  intros Hp. unfold zero_or_nan. rewrite mul_spec, Hp.
  unfold SF64mul, SFmul.
  destruct (Prim2SF x); eauto.
Qed.

Lemma add_zero (x p : float) (s : bool) :
  zero_or_nan x -> Prim2SF p = S754_zero s -> zero_or_nan (PrimFloat.add x p).
Proof.
  intros Hx Hp. unfold zero_or_nan. rewrite add_spec, Hp.
  unfold SF64add, SFadd.
  destruct Hx as [-> | [s' ->]]; auto.
  destruct s', s; eauto.
Qed.

Lemma index_zero_or_nan (x : float) :
  zero_or_nan x -> ToIntegerOrInfinity x = Fin 0.
Proof.
  unfold ToIntegerOrInfinity. intros [-> | [s ->]]; reflexivity.
Qed.

(** A slice between two such indices is empty. *)
Lemma slice_zero {A : Type} (xs : list A) (a b : float) :
  zero_or_nan a -> zero_or_nan b -> slice xs a b = [].
Proof.
  intros Ha Hb. unfold slice.
  rewrite (index_zero_or_nan a Ha), (index_zero_or_nan b Hb).
  unfold relative_index. simpl.
  replace (Z.to_nat (Z.min 0 (Z.of_nat (length xs)) - Z.min 0 (Z.of_nat (length xs))))
    with O by lia.
  reflexivity.
Qed.

(** [===] on Numbers: two Numbers equal to a third are equal. *)
Lemma SFcompare_Eq (x y : spec_float) :
  SFcompare x y = Some Eq ->
  x = y \/ (exists s t, x = S754_zero s /\ y = S754_zero t).
Proof.
  destruct x as [sx|sx| |sx mx ex], y as [sy|sy| |sy my ey]; simpl;
    intros H; try discriminate;
    try (right; eauto; fail);
    try (destruct sx; discriminate); try (destruct sy; discriminate);
    try (destruct sx, sy; try discriminate; auto; fail).
  left.
  destruct sx, sy; try discriminate;
    destruct (ex ?= ey)%Z eqn:He; try discriminate;
    apply Z.compare_eq in He; subst;
    change (Pos.compare_cont Eq mx my) with (Pos.compare mx my) in H;
    destruct (Pos.compare mx my) eqn:Hm; try discriminate;
    apply Pos.compare_eq in Hm; subst; reflexivity.
Qed.

Lemma SFcompare_refl (x : spec_float) :
  x <> S754_nan -> SFcompare x x = Some Eq.
Proof.
  destruct x as [s|s| |s m e]; simpl; intros H; try congruence.
  - destruct s; reflexivity.
  - destruct s; rewrite Z.compare_refl;
      change (Pos.compare_cont Eq m m) with (Pos.compare m m);
      rewrite Pos.compare_refl; reflexivity.
Qed.

Lemma eqb_common (x y z : float) :
  PrimFloat.eqb x z = true -> PrimFloat.eqb y z = true -> PrimFloat.eqb x y = true.
Proof.
  rewrite !FloatAxioms.eqb_spec. unfold SFeqb.
  destruct (SFcompare (Prim2SF x) (Prim2SF z)) as [[| |]|] eqn:Hx; try discriminate.
  destruct (SFcompare (Prim2SF y) (Prim2SF z)) as [[| |]|] eqn:Hy; try discriminate.
  intros _ _.
  destruct (SFcompare_Eq _ _ Hx) as [Ex|(s1 & t1 & Ex & Ez)];
    destruct (SFcompare_Eq _ _ Hy) as [Ey|(s2 & t2 & Ey & Ez')].
  - rewrite Ex, Ey, SFcompare_refl; auto.
    intros Hn. rewrite Hn in Hy. destruct (Prim2SF y); discriminate.
  - rewrite Ex, Ey, Ez'. reflexivity.
  - rewrite Ex, Ey, Ez. reflexivity.
  - rewrite Ex, Ey. reflexivity.
Qed.

Lemma eqb_sym (x y : float) : PrimFloat.eqb x y = PrimFloat.eqb y x.
Proof.
  rewrite !FloatAxioms.eqb_spec. unfold SFeqb.
  rewrite (SFcompare_antisym (Prim2SF y) (Prim2SF x)).
  destruct (SFcompare (Prim2SF y) (Prim2SF x)) as [[| |]|]; reflexivity.
Qed.

Lemma strict_eq_sym (a b : value) : strict_eq a b = strict_eq b a.
Proof.
  destruct a, b; simpl; auto.
  - destruct b0, b; reflexivity.
  - apply eqb_sym.
  - apply String.eqb_sym.
Qed.

Lemma strict_eq_common (a b c : value) :
  strict_eq a c = true -> strict_eq b c = true -> strict_eq a b = true.
Proof.
  destruct a, b, c; simpl; try discriminate; auto.
  - destruct b0, b1, b; simpl; auto.
  - apply eqb_common.
  - intros H1 H2. apply String.eqb_eq in H1, H2. subst. apply String.eqb_refl.
Qed.

(** A Number greater than 0 is truthy and is not <= 0. *)
Lemma positive_number (x : float) :
  PrimFloat.ltb 0 x = true ->
  truthy (VNum x) = true /\ PrimFloat.leb x 0 = false.
Proof.
  intros Hpos.
  assert (Hle : PrimFloat.leb x 0 = false).
  { destruct (PrimFloat.leb x 0) eqn:Hle; [|reflexivity].
    apply leb_not_ltb in Hle. congruence. }
  split; [|exact Hle].
  cbn [truthy]. unfold PrimFloat.is_zero, PrimFloat.is_nan.
  destruct (PrimFloat.eqb x PrimFloat.zero) eqn:Hz.
  - change PrimFloat.zero with 0%float in Hz.
    destruct (eqb_zero x Hz) as [s Hs].
    rewrite ltb_spec, Hs in Hpos. destruct s; discriminate.
  - cbn [orb].
    assert (Hx : PrimFloat.eqb x x = true).
    { rewrite FloatAxioms.eqb_spec. unfold SFeqb.
      rewrite SFcompare_refl; [reflexivity|].
      intros Hn. rewrite ltb_spec, Hn in Hpos. discriminate. }
    rewrite Hx. reflexivity.
Qed.

End NumberFacts.

(** ** The record store *)

Module StoreFacts.
Import JS Http Store.

(** [readData] never throws and never answers early. *)
Lemma readData_next (filename : string) (w : world) :
  exists rs, fst (readData filename w) = Next rs.
Proof.
  unfold readData.
  destruct (negb (existsSync filename (fs w))).
  - destruct (writeFileSync filename [] (fs w)); eexists; reflexivity.
  - destruct (files (fs w) !! filename) as [[rs|]|]; eexists; reflexivity.
Qed.

Lemma readData_loaded (filename : string) (w : world) :
  readData filename w = (Next (loaded filename w), snd (readData filename w)).
Proof.
  unfold loaded.
  destruct (readData_next filename w) as [rs H].
  destruct (readData filename w) as [r w']; simpl in *; subst; reflexivity.
Qed.

(** Reading a collection leaves the clock alone, and changes the data
    directory at most by creating the collection's own file, empty. *)
Lemma readData_clock (filename : string) (w : world) :
  clock (snd (readData filename w)) = clock w
  /\ reads (snd (readData filename w)) = reads w
  /\ written (snd (readData filename w)) = written w.
Proof.
  unfold readData.
  destruct (negb (existsSync filename (fs w))).
  - destruct (writeFileSync filename [] (fs w)); simpl; auto.
  - destruct (files (fs w) !! filename) as [[rs|]|]; simpl; auto.
Qed.

Lemma readData_flags (filename : string) (w : world) :
  data_dir (fs (snd (readData filename w))) = data_dir (fs w)
  /\ read_only (fs (snd (readData filename w))) = read_only (fs w).
Proof.
  unfold readData.
  destruct (negb (existsSync filename (fs w))).
  - unfold writeFileSync.
    destruct (read_only (fs w)) eqn:Hro; simpl; auto.
    destruct (data_dir (fs w)) eqn:Hd; simpl; auto.
  - destruct (files (fs w) !! filename) as [[rs|]|]; simpl; auto.
Qed.

Lemma readData_other (filename other : string) (w : world) :
  other <> filename ->
  files (fs (snd (readData filename w))) !! other = files (fs w) !! other.
Proof.
  intros Hne. unfold readData.
  destruct (negb (existsSync filename (fs w))).
  - unfold writeFileSync.
    destruct (read_only (fs w) || negb (data_dir (fs w))); simpl; auto.
    rewrite lookup_insert_ne; auto.
  - destruct (files (fs w) !! filename) as [[rs|]|]; simpl; auto.
Qed.

Lemma readData_stored_other (filename other : string) (w : world) :
  other <> filename ->
  stored other (snd (readData filename w)) = stored other w.
Proof.
  intros Hne. unfold stored.
  destruct (readData_flags filename w) as [-> _].
  rewrite readData_other; auto.
Qed.

(** [writeData] never throws: it answers [true] or [false]. *)
Lemma writeData_next (filename : string) (data : list value) (w : world) :
  exists ok, fst (writeData filename data w) = Next ok.
Proof.
  unfold writeData. cbn [fs record_write].
  destruct (if data_dir (fs w) then Some (fs w) else mkdirSync (fs w)) as [d1|].
  - destruct (writeFileSync filename data d1); eexists; reflexivity.
  - eexists; reflexivity.
Qed.

(** What [readData] returns is read off the stored file. *)
Lemma loaded_stored (filename : string) (w : world) :
  loaded filename w = match stored filename w with
                      | Some (Records rs) => rs
                      | _ => []
                      end.
Proof.
  unfold loaded, stored, readData, existsSync.
  destruct (data_dir (fs w)); cbn [andb negb].
  - destruct (files (fs w) !! filename) as [[rs|]|] eqn:Hf.
    + rewrite bool_decide_eq_true_2 by eauto. reflexivity.
    + rewrite bool_decide_eq_true_2 by eauto. reflexivity.
    + rewrite bool_decide_eq_false_2 by (intros [? ?]; discriminate). cbn [negb].
      destruct (writeFileSync filename [] (fs w)); reflexivity.
  - destruct (writeFileSync filename [] (fs w)); reflexivity.
Qed.

(** Reading a collection whose file exists changes nothing. *)
Lemma readData_existing (filename : string) (w : world) :
  is_Some (stored filename w) -> snd (readData filename w) = w.
Proof.
  unfold stored, readData, existsSync. intros Hs.
  destruct (data_dir (fs w)); [|destruct Hs; discriminate].
  rewrite bool_decide_eq_true_2 by assumption. cbn [andb negb].
  destruct (files (fs w) !! filename) as [[rs|]|]; reflexivity.
Qed.

(** Reading a collection creates at most its own file, empty: what a later
    read returns is the same. *)
Lemma readData_loaded_same (filename : string) (w : world) :
  loaded filename (snd (readData filename w)) = loaded filename w.
Proof.
  destruct (stored filename w) as [f|] eqn:Hs.
  - rewrite readData_existing by (rewrite Hs; eauto). reflexivity.
  - rewrite !loaded_stored, Hs.
    unfold stored in *. unfold readData, existsSync, writeFileSync.
    destruct (data_dir (fs w)) eqn:Hd; cbn [andb negb orb].
    + rewrite Hs.
      rewrite bool_decide_eq_false_2 by (intros [? ?]; discriminate).
      cbn [negb].
      destruct (read_only (fs w)); cbn.
      * rewrite Hd, Hs. reflexivity.
      * rewrite lookup_insert_eq. reflexivity.
    + rewrite orb_true_r. cbn. rewrite Hd. reflexivity.
Qed.

Lemma readData_loaded_other (filename other : string) (w : world) :
  other <> filename ->
  loaded other (snd (readData filename w)) = loaded other w.
Proof.
  intros Hne. rewrite !loaded_stored, readData_stored_other by assumption.
  reflexivity.
Qed.

(** A call of [writeData] is recorded; on a disk that accepts writes the file
    then holds the stored form of the data, on one that does not the data
    directory is as before. *)
Lemma writeData_written (filename : string) (data : list value) (w : world) :
  written (snd (writeData filename data w)) = written w ++ [(filename, data)].
Proof.
  unfold writeData. cbn [fs record_write].
  destruct (if data_dir (fs w) then Some (fs w) else mkdirSync (fs w)) as [d1|].
  - destruct (writeFileSync filename data d1); reflexivity.
  - reflexivity.
Qed.

Lemma writeData_stored (filename : string) (data : list value) (w : world) :
  read_only (fs w) = false ->
  stored filename (snd (writeData filename data w))
  = Some (Records (stored_form data)).
Proof.
  intros Hro. unfold writeData, mkdirSync, writeFileSync, stored.
  cbn [fs record_write]. rewrite Hro.
  destruct (data_dir (fs w)) eqn:Hd; cbn; rewrite ?Hro, ?Hd; cbn;
    rewrite lookup_insert_eq; reflexivity.
Qed.

Lemma writeData_read_only (filename : string) (data : list value) (w : world) :
  read_only (fs w) = true ->
  fs (snd (writeData filename data w)) = fs w.
Proof.
  intros Hro. unfold writeData, mkdirSync, writeFileSync.
  cbn [fs record_write]. rewrite Hro.
  destruct (data_dir (fs w)) eqn:Hd; cbn; rewrite ?Hro; reflexivity.
Qed.

End StoreFacts.

(** ** Creating an order *)

Module CreateFacts.
Import JS Http Store Orders.
Local Open Scope js_scope.

Section Loop.
Context {rt : Runtime}.

Lemma prop_defined (v : value) (k k' : string) (x : value) :
  prop v k = Next x -> prop v k' = Next (get v k').
Proof.
  unfold get. destruct v; simpl; intros H; try discriminate; reflexivity.
Qed.

Lemma prop_truthy (v : value) (k : string) :
  truthy v = true -> prop v k = Next (get v k).
Proof.
  unfold get. destruct v; simpl; intros H; try discriminate; reflexivity.
Qed.

(** An element that [find] returns satisfied the callback. *)
Lemma array_find_found (pred : value -> flow bool) (xs : list value) (x : value) :
  array_find pred xs = Next x ->
  (x = VUndefined /\ Forall (fun y => pred y = Next false) xs)
  \/ (In x xs /\ pred x = Next true).
Proof.
  induction xs as [|y ys IH]; simpl; intros H.
  - left. inversion H. split; auto.
  - destruct (pred y) as [[|]| |] eqn:Hy; simpl in H; try discriminate.
    + inversion H; subst. right. split; auto.
    + destruct (IH H) as [[-> Hall]|[Hin Hp]].
      * left. split; auto.
      * right. split; auto.
Qed.

(** When the lookup of an item finds a product, reading the item's
    properties does not throw. *)
Lemma findById_item (products : list value) (item product : value) (k : string) :
  findById products item = Next product -> truthy product = true ->
  prop item k = Next (get item k).
Proof.
  intros Hfind Ht.
  destruct (array_find_found _ _ _ Hfind) as [[-> _]|[_ Hp]].
  - discriminate Ht.
  - unfold same_id in Hp.
    destruct (prop product "id"); simpl in Hp; try discriminate.
    destruct (prop item "id") eqn:Hi; simpl in Hp; try discriminate.
    eapply prop_defined; eauto.
Qed.

(** One turn of the loop on an item that resolves with a valid quantity. *)
Lemma validate_items_step (products rest : list value) (item : value)
    (sum : float) (lines : list value) :
  resolves_positive products item = true ->
  validate_items products (item :: rest) sum lines
  = validate_items products rest
      (PrimFloat.add sum (line_total products item))
      (lines ++ [line_snapshot products item]).
Proof.
  unfold resolves_positive, line_total, line_snapshot, product_of.
  intros H. simpl.
  destruct (findById products item) as [product| |] eqn:Hfind; try discriminate.
  apply andb_true_iff in H as [Ht Hq].
  apply negb_true_iff in Hq.
  simpl. rewrite Ht. simpl.
  rewrite (findById_item _ _ _ "quantity" Hfind Ht). simpl.
  rewrite Hq.
  unfold validated_item.
  rewrite !(prop_truthy product) by assumption. simpl.
  rewrite (findById_item _ _ _ "quantity" Hfind Ht). simpl.
  unfold line_total, product_of. rewrite Hfind. reflexivity.
Qed.

(** The loop over a run of valid items adds their line totals to the sum and
    their snapshots to the validated items. *)
Lemma validate_items_app (products pre rest : list value) :
  Forall (fun item => resolves_positive products item = true) pre ->
  forall (sum : float) (lines : list value),
  validate_items products (pre ++ rest) sum lines
  = validate_items products rest
      (fold_left (fun s item => PrimFloat.add s (line_total products item)) pre sum)
      (lines ++ List.map (line_snapshot products) pre).
Proof.
  induction 1 as [|item pre Hitem Hpre IH]; intros sum lines.
  - simpl. rewrite app_nil_r. reflexivity.
  - change ((item :: pre) ++ rest)%list with (item :: (pre ++ rest))%list.
    rewrite validate_items_step by assumption.
    rewrite IH. simpl. rewrite <- app_assoc. reflexivity.
Qed.

Lemma validate_items_all (products items : list value) :
  Forall (fun item => resolves_positive products item = true) items ->
  validate_items products items 0 []
  = Next (computedTotal products items, List.map (line_snapshot products) items).
Proof.
  intros H.
  rewrite <- (app_nil_r items) at 1.
  rewrite validate_items_app by assumption.
  reflexivity.
Qed.

(** The whole handler, once the body's fields passed the three checks that
    come before the loop. *)
Lemma create_order_run (req : request) (w : world) (b : string -> value) :
  fields_of (req_body req) = Next b ->
  billing_missing b = false ->
  items_missing (b "items") = false ->
  total_invalid (b "total") = false ->
  create_order req w =
    let w1 := snd (readData "products" w) in
    match validate_items (loaded "products" w) (items_of (b "items")) 0 [] with
    | Return r => (r, w1)
    | Throw => (Response 500 (message "Error creating order"), w1)
    | Next (calculatedTotal, lines) =>
        if total_mismatch calculatedTotal (b "total")
        then (TotalMismatchError calculatedTotal (b "total"), w1)
        else
          let w2 := snd (readData "orders" w1) in
          let order := newOrder b lines calculatedTotal
                         (clock w (reads w)) (clock w (S (reads w)))
                         (clock w (S (S (reads w)))) (clock w (S (S (S (reads w))))) in
          (Response 201 (VObj [("message", VStr "Order created successfully");
                               ("order", order)]),
           snd (writeData "orders" (loaded "orders" w1 ++ [order])
                  (World (fs w2) (clock w) (S (S (S (S (reads w))))) (written w))))
    end.
Proof.
  intros Hb Hbill Hitems Htotal.
  unfold create_order, handler, create_order_body, bind, pure, respond, ret.
  rewrite Hb, Hbill, Hitems, Htotal.
  rewrite (StoreFacts.readData_loaded "products" w).
  cbn [fst snd].
  destruct (validate_items _ _ _ _) as [[calculatedTotal lines]| |]; try reflexivity.
  cbn [fst snd].
  destruct (total_mismatch calculatedTotal (b "total")); try reflexivity.
  set (w1 := snd (readData "products" w)).
  rewrite (StoreFacts.readData_loaded "orders" w1).
  destruct (StoreFacts.readData_clock "products" w) as (Hc1 & Hr1 & Hl1).
  destruct (StoreFacts.readData_clock "orders" w1) as (Hc2 & Hr2 & Hl2).
  fold w1 in Hc1, Hr1, Hl1.
  unfold Date_now. cbn [fs clock reads written].
  rewrite !Hc2, !Hr2, !Hl2, !Hc1, !Hr1, !Hl1.
  destruct (StoreFacts.writeData_next "orders"
              (loaded "orders" w1 ++
               [newOrder b lines calculatedTotal (clock w (reads w))
                  (clock w (S (reads w))) (clock w (S (S (reads w))))
                  (clock w (S (S (S (reads w)))))])
              (World (fs (snd (readData "orders" w1))) (clock w)
                 (S (S (S (S (reads w))))) (written w))) as [ok Hok].
  destruct (writeData _ _ _) as [r w3]. cbn [fst] in Hok. subst r.
  reflexivity.
Qed.

(** The lookup only finds, misses or throws. *)
Lemma same_id_flow (item p : value) :
  (exists b, same_id item p = Next b) \/ same_id item p = Throw.
Proof.
  unfold same_id.
  destruct (prop p "id") eqn:Hp; simpl.
  - destruct (prop item "id") eqn:Hi; simpl; eauto.
    destruct item; discriminate.
  - destruct p; discriminate.
  - auto.
Qed.

Lemma findById_flow (products : list value) (item : value) :
  (exists p, findById products item = Next p) \/ findById products item = Throw.
Proof.
  unfold findById.
  induction products as [|p ps IH]; simpl.
  - left. eauto.
  - destruct (same_id_flow item p) as [[[|] ->]| ->]; simpl; eauto.
Qed.

(** An item whose id is in no product is not found. *)
Lemma findById_unknown (products : list value) (item product : value) :
  in_catalog products item = false ->
  findById products item = Next product -> product = VUndefined.
Proof.
  intros Hcat Hfind.
  destruct (array_find_found _ _ _ Hfind) as [[-> _]|[Hin Hp]]; auto.
  exfalso.
  assert (Hex : in_catalog products item = true).
  { unfold in_catalog. apply existsb_exists. exists product.
    split; auto. rewrite Hp. reflexivity. }
  congruence.
Qed.

Lemma findById_found (products : list value) (item product : value) :
  findById products item = Next product -> truthy product = true ->
  in_catalog products item = true.
Proof.
  intros Hfind Ht.
  destruct (in_catalog products item) eqn:Hcat; auto.
  rewrite (findById_unknown _ _ _ Hcat Hfind) in Ht. discriminate.
Qed.

(** The loop falls through only when every item resolved with a valid
    quantity. *)
Lemma validate_items_next (products items : list value) :
  forall (sum : float) (lines : list value) (result : float * list value),
  validate_items products items sum lines = Next result ->
  Forall (fun item => resolves_positive products item = true) items.
Proof.
  induction items as [|item rest IH]; intros sum lines result H.
  - constructor.
  - simpl in H.
    destruct (findById products item) as [product| |] eqn:Hfind; simpl in H;
      try discriminate.
    destruct (truthy product) eqn:Ht; simpl in H.
    2:{ destruct (prop item "id"); simpl in H; discriminate. }
    rewrite (findById_item _ _ _ "quantity" Hfind Ht) in H. simpl in H.
    destruct (invalid_quantity (get item "quantity")) eqn:Hq.
    { destruct (prop product "name"); simpl in H; discriminate. }
    destruct (prop product "price"); simpl in H; try discriminate.
    destruct (validated_item product item _); simpl in H; try discriminate.
    constructor.
    + unfold resolves_positive. rewrite Hfind, Ht, Hq. reflexivity.
    + eapply IH; eauto.
Qed.

Lemma validate_items_result (products items : list value)
    (result : float * list value) :
  validate_items products items 0 [] = Next result ->
  result = (computedTotal products items, List.map (line_snapshot products) items).
Proof.
  intros H.
  pose proof (validate_items_next _ _ _ _ _ H) as Hall.
  rewrite (validate_items_all _ _ Hall) in H. congruence.
Qed.

(** The loop only ever answers 400. *)
Lemma validate_items_return (products items : list value) (r : response) :
  forall (sum : float) (lines : list value),
  validate_items products items sum lines = Return r -> status r = 400%nat.
Proof.
  induction items as [|item rest IH]; intros sum lines H; simpl in H.
  - discriminate.
  - destruct (findById_flow products item) as [[product Hfind]|Hfind];
      rewrite Hfind in H; simpl in H; try discriminate.
    destruct (truthy product) eqn:Ht; simpl in H.
    2:{ destruct item; simpl in H; try discriminate; inversion H; reflexivity. }
    rewrite (findById_item _ _ _ "quantity" Hfind Ht) in H. simpl in H.
    rewrite (prop_truthy product "name" Ht), (prop_truthy product "price" Ht) in H.
    simpl in H.
    destruct (invalid_quantity (get item "quantity")).
    { inversion H. reflexivity. }
    destruct (validated_item product item _) eqn:Hv; simpl in H.
    + eapply IH; eauto.
    + unfold validated_item in Hv.
      rewrite !(prop_truthy product) in Hv by assumption. simpl in Hv.
      rewrite (findById_item _ _ _ "quantity" Hfind Ht) in Hv. discriminate.
    + discriminate.
Qed.

(** With an item whose id is in no product, the loop answers 400 or throws. *)
Lemma validate_items_unknown (products items : list value) :
  Exists (fun item => in_catalog products item = false) items ->
  forall (sum : float) (lines : list value),
  (exists r, validate_items products items sum lines = Return r /\ status r = 400%nat)
  \/ validate_items products items sum lines = Throw.
Proof.
  intros Hex sum lines.
  destruct (validate_items products items sum lines) as [result|r|] eqn:H; auto.
  - exfalso.
    pose proof (validate_items_next _ _ _ _ _ H) as Hall.
    apply Exists_exists in Hex as (item & Hin & Hcat).
    rewrite Forall_forall in Hall. specialize (Hall item Hin).
    unfold resolves_positive in Hall.
    destruct (findById products item) as [product| |] eqn:Hfind; try discriminate.
    apply andb_true_iff in Hall as [Ht _].
    rewrite (findById_found _ _ _ Hfind Ht) in Hcat. discriminate.
  - left. exists r. split; auto.
    eapply validate_items_return; eauto.
Qed.

(** A request stopped by one of the checks before the loop: the answer is a
    400 or a 500 and the world is untouched. *)
Lemma create_order_early (req : request) (w : world) :
  (exists r, create_order req w = (r, w) /\ (status r = 400%nat \/ status r = 500%nat))
  \/ (exists b, fields_of (req_body req) = Next b
               /\ billing_missing b = false
               /\ items_missing (b "items") = false
               /\ total_invalid (b "total") = false).
Proof.
  unfold create_order, handler, create_order_body, bind, pure, respond.
  destruct (fields_of (req_body req)) as [b|r|] eqn:Hb.
  - destruct (billing_missing b) eqn:H1; [left; eexists; split; [reflexivity|auto]|].
    destruct (items_missing (b "items")) eqn:H2; [left; eexists; split; [reflexivity|auto]|].
    destruct (total_invalid (b "total")) eqn:H3; [left; eexists; split; [reflexivity|auto]|].
    right. exists b. auto.
  - destruct (req_body req); discriminate.
  - left. eexists; split; [reflexivity|auto].
Qed.

(** The worlds a request can end in when no order is created: the world it
    started in, or that world after the products were read. *)
Lemma create_order_world (req : request) (w : world) :
  status (fst (create_order req w)) <> 201%nat ->
  snd (create_order req w) = w
  \/ snd (create_order req w) = snd (readData "products" w).
Proof.
  intros Hst.
  destruct (create_order_early req w) as [(r & Hr & _)|(b & Hb & H1 & H2 & H3)].
  - left. rewrite Hr. reflexivity.
  - right. revert Hst. rewrite (create_order_run req w b) by assumption.
    cbv zeta.
    destruct (validate_items _ _ _ _) as [[c l]| |]; try reflexivity.
    destruct (total_mismatch c (b "total")); try reflexivity.
    cbn [fst status]. congruence.
Qed.

(** When no order is created, [writeData] is not called, the orders file is
    as before, and so is the whole world if the products file exists. *)
Lemma create_order_untouched (req : request) (w : world) :
  status (fst (create_order req w)) <> 201%nat ->
  written (snd (create_order req w)) = written w
  /\ stored "orders" (snd (create_order req w)) = stored "orders" w
  /\ (is_Some (stored "products" w) -> snd (create_order req w) = w).
Proof.
  intros Hst.
  destruct (create_order_world req w Hst) as [-> | ->]; auto.
  split; [apply StoreFacts.readData_clock|].
  split; [apply StoreFacts.readData_stored_other; discriminate|].
  apply StoreFacts.readData_existing.
Qed.

End Loop.
End CreateFacts.

Section CreateOrderClaims.
Import JS Http Store Orders CreateFacts.
Context {rt : Runtime}.

Lemma fields_of_get (v : value) (b : string -> value) (k : string) :
  fields_of v = Next b -> b k = get v k.
Proof.
  unfold get. destruct v; simpl; intros H; inversion H; reflexivity.
Qed.

(** The answer and the effects of a request that passes every check. *)
Lemma create_order_created (req : request) (w : world) (b : string -> value)
    (calculatedTotal : float) (lines : list value) :
  fields_of (req_body req) = Next b ->
  billing_missing b = false ->
  items_missing (b "items") = false ->
  total_invalid (b "total") = false ->
  validate_items (loaded "products" w) (items_of (b "items")) 0 []
    = Next (calculatedTotal, lines) ->
  total_mismatch calculatedTotal (b "total") = false ->
  let order := newOrder b lines calculatedTotal
                 (clock w (reads w)) (clock w (S (reads w)))
                 (clock w (S (S (reads w)))) (clock w (S (S (S (reads w))))) in
  fst (create_order req w)
    = Response 201 (VObj [("message", VStr "Order created successfully");
                          ("order", order)])
  /\ written (snd (create_order req w))
     = written w ++ [("orders", loaded "orders" w ++ [order])]
  /\ (read_only (fs w) = false ->
      stored "orders" (snd (create_order req w))
      = Some (Records (stored_form (loaded "orders" w ++ [order])))).
Proof.
  intros Hb H1 H2 H3 Hloop Hmatch order.
  rewrite (create_order_run req w b) by assumption.
  cbv zeta. rewrite Hloop, Hmatch.
  rewrite (StoreFacts.readData_loaded_other "products" "orders") by discriminate.
  fold order.
  split; [reflexivity|]. cbn [snd].
  split.
  - rewrite StoreFacts.writeData_written. reflexivity.
  - intros Hro. apply StoreFacts.writeData_stored. cbn [fs].
    destruct (StoreFacts.readData_flags "orders" (snd (readData "products" w))) as [_ ->].
    destruct (StoreFacts.readData_flags "products" w) as [_ ->].
    assumption.
Qed.

(** An item that resolves with a quantity that is a Number greater than 0
    passes the checks of the loop. *)
Lemma resolves_with_positive_quantity_passes (products : list value) (item : value) :
  resolves_with_positive_quantity products item = true ->
  resolves_positive products item = true.
Proof.
  unfold resolves_with_positive_quantity, resolves_positive.
  destruct (findById products item) as [product|r|]; try discriminate.
  destruct (get item "quantity") as [| |c|quantity|s|l|l]; try discriminate.
  intros H. apply andb_true_iff in H as [Hp Hq]. rewrite Hp.
  destruct (NumberFacts.positive_number _ Hq) as [Ht Hle].
  unfold invalid_quantity, js_le. cbn [ToNumber]. rewrite Ht, Hle. reflexivity.
Qed.

(** C1 (amended).  For a request whose billing fields are present, whose item
    list is not empty, whose declared total is a Number greater than 0 and
    whose items all resolve in the catalog with a quantity that is a Number
    greater than 0: the answer is [TotalMismatchError], carrying the computed
    and the declared total, if and only if
    [Math.abs(computedTotal - total) > 0.01], where [computedTotal] is the sum
    of catalog price times quantity; on that answer [writeData] is not called
    and the orders file is what it was; and when the difference is <= 0.01
    the order is created: the answer is 201, the order carries the computed
    total and [writeData] is called with the orders followed by the new
    order.  The sum, the difference and the two comparisons are those of
    binary64 Numbers, so that a declared total one cent away from the
    computed one can be refused. *)
Theorem create_order_total_check (req : request) (w : world) (b : string -> value)
    (declared : float) :
  fields_of (req_body req) = Next b ->
  billing_missing b = false ->
  items_missing (b "items") = false ->
  b "total" = VNum declared ->
  PrimFloat.ltb 0 declared = true ->
  Forall (fun item => resolves_with_positive_quantity (loaded "products" w) item = true)
         (items_of (b "items")) ->
  let total := computedTotal (loaded "products" w) (items_of (b "items")) in
  let difference := Math_abs (PrimFloat.sub total declared) in
  (fst (create_order req w) = TotalMismatchError total (VNum declared)
   <-> PrimFloat.ltb 0.01 difference = true)
  /\ (PrimFloat.ltb 0.01 difference = true ->
      written (snd (create_order req w)) = written w
      /\ stored "orders" (snd (create_order req w)) = stored "orders" w)
  /\ (PrimFloat.leb difference 0.01 = true ->
      exists order,
        fst (create_order req w)
        = Response 201 (VObj [("message", VStr "Order created successfully");
                              ("order", order)])
        /\ get order "total" = VNum total
        /\ written (snd (create_order req w))
           = written w ++ [("orders", loaded "orders" w ++ [order])]
        /\ (read_only (fs w) = false ->
            stored "orders" (snd (create_order req w))
            = Some (Records (stored_form (loaded "orders" w ++ [order]))))).
Proof.
  intros Hb H1 H2 Ht Hpos Hall total difference.
  assert (H3 : total_invalid (b "total") = false).
  { rewrite Ht. destruct (NumberFacts.positive_number _ Hpos) as [Htr Hle].
    unfold total_invalid, js_le. cbn [ToNumber]. rewrite Htr, Hle. reflexivity. }
  assert (Hmis : total_mismatch total (b "total") = PrimFloat.ltb 0.01 difference).
  { rewrite Ht. reflexivity. }
  assert (Hloop : validate_items (loaded "products" w) (items_of (b "items")) 0 []
                  = Next (total, List.map (line_snapshot (loaded "products" w))
                                   (items_of (b "items")))).
  { apply validate_items_all. revert Hall. apply List.Forall_impl.
    intros item. apply resolves_with_positive_quantity_passes. }
  assert (Hcases : PrimFloat.ltb 0.01 difference = true ->
                   fst (create_order req w) = TotalMismatchError total (VNum declared)).
  { intros Hm. rewrite (create_order_run req w b) by assumption.
    cbv zeta. rewrite Hloop, Hmis, Hm, Ht. reflexivity. }
  assert (Hok : PrimFloat.ltb 0.01 difference = false ->
                exists order,
                  fst (create_order req w)
                  = Response 201 (VObj [("message", VStr "Order created successfully");
                                        ("order", order)])
                  /\ get order "total" = VNum total
                  /\ written (snd (create_order req w))
                     = written w ++ [("orders", loaded "orders" w ++ [order])]
                  /\ (read_only (fs w) = false ->
                      stored "orders" (snd (create_order req w))
                      = Some (Records (stored_form (loaded "orders" w ++ [order]))))).
  { intros Hm. rewrite <- Hmis in Hm.
    destruct (create_order_created req w b total _ Hb H1 H2 H3 Hloop Hm)
      as (Hr & Hw & Hs).
    eexists. split; [exact Hr|]. split; [reflexivity|]. split; assumption. }
  split; [|split].
  - split; auto.
    intros Hr. destruct (PrimFloat.ltb 0.01 difference) eqn:Hm; auto.
    destruct (Hok eq_refl) as (order & Hr' & _).
    rewrite Hr' in Hr. discriminate.
  - intros Hm.
    destruct (create_order_untouched req w) as (Hw & Hs & _); [|split; assumption].
    rewrite (Hcases Hm). discriminate.
  - intros Hle. apply Hok. apply NumberFacts.leb_not_ltb. exact Hle.
Qed.

(** C3 (amended).  When the id of some item is the id of no product of the
    catalog, create fails -- the answer is a 400 or a 500 --, [writeData] is
    not called and the orders file is what it was; the world is wholly
    unchanged when the products file exists.  The answer is
    [UnknownProductError] naming the id when the request passes the checks
    made before the items are examined, every item before this one resolves
    with a valid quantity, and the lookup of this one ends without a product. *)
Theorem create_order_unknown_product (req : request) (w : world) :
  let products := loaded "products" w in
  let items := items_of (get (req_body req) "items") in
  Exists (fun item => in_catalog products item = false) items ->
  (status (fst (create_order req w)) = 400%nat
   \/ status (fst (create_order req w)) = 500%nat)
  /\ written (snd (create_order req w)) = written w
  /\ stored "orders" (snd (create_order req w)) = stored "orders" w
  /\ (is_Some (stored "products" w) -> snd (create_order req w) = w)
  /\ (forall (b : string -> value) (pre rest : list value) (item id : value),
        fields_of (req_body req) = Next b ->
        billing_missing b = false ->
        total_invalid (b "total") = false ->
        items = pre ++ item :: rest ->
        Forall (fun i => resolves_positive products i = true) pre ->
        findById products item = Next VUndefined ->
        prop item "id" = Next id ->
        fst (create_order req w) = UnknownProductError id).
Proof.
  intros products items Hex.
  assert (Hst : status (fst (create_order req w)) = 400%nat
                \/ status (fst (create_order req w)) = 500%nat).
  { destruct (create_order_early req w) as [(r & Hr & Hs)|(b & Hb & H1 & H2 & H3)].
    - rewrite Hr. exact Hs.
    - rewrite (create_order_run req w b) by assumption. cbv zeta.
      unfold items, products in Hex.
      rewrite <- (fields_of_get _ b "items" Hb) in Hex.
      destruct (validate_items_unknown _ _ Hex 0%float []) as [(r & -> & Hr)| ->];
        cbn [fst status]; auto. }
  assert (Hne : status (fst (create_order req w)) <> 201%nat)
    by (destruct Hst as [-> | ->]; discriminate).
  destruct (create_order_untouched req w Hne) as (Hw & Hs & Hp).
  repeat split; auto.
  intros b pre rest item id Hb H1 H3 Hitems Hpre Hfind Hid.
  unfold items in Hitems. rewrite <- (fields_of_get _ b "items" Hb) in Hitems.
  assert (H2 : items_missing (b "items") = false).
  { destruct (b "items") as [| | | | |xs|]; simpl in Hitems;
      try (destruct pre; discriminate).
    destruct xs; [destruct pre; discriminate|reflexivity]. }
  rewrite (create_order_run req w b) by assumption. cbv zeta.
  rewrite Hitems, (validate_items_app _ _ _ Hpre).
  simpl. fold products. rewrite Hfind. simpl. rewrite Hid. reflexivity.
Qed.

(** C4 (amended).  The quantity check is [!quantity || quantity <= 0]; it
    does not ask for an integer.  In a request that passes the checks made
    before the items are examined, the first item that fails it, when every
    item before it resolves with a valid quantity and it resolves itself,
    makes create answer [InvalidQuantityError] naming the product; no order
    is stored: [writeData] is not called and the orders file is what it was. *)
Theorem create_order_invalid_quantity (req : request) (w : world)
    (b : string -> value) (pre rest : list value) (item product : value) :
  fields_of (req_body req) = Next b ->
  billing_missing b = false ->
  total_invalid (b "total") = false ->
  items_of (b "items") = pre ++ item :: rest ->
  Forall (fun i => resolves_positive (loaded "products" w) i = true) pre ->
  findById (loaded "products" w) item = Next product ->
  truthy product = true ->
  invalid_quantity (get item "quantity") = true ->
  fst (create_order req w) = InvalidQuantityError (get product "name")
  /\ written (snd (create_order req w)) = written w
  /\ stored "orders" (snd (create_order req w)) = stored "orders" w.
Proof.
  intros Hb H1 H3 Hitems Hpre Hfind Ht Hq.
  assert (H2 : items_missing (b "items") = false).
  { destruct (b "items") as [| | | | |xs|]; simpl in Hitems;
      try (destruct pre; discriminate).
    destruct xs; [destruct pre; discriminate|reflexivity]. }
  assert (Hr : fst (create_order req w) = InvalidQuantityError (get product "name")).
  { rewrite (create_order_run req w b) by assumption. cbv zeta.
    rewrite Hitems, (validate_items_app _ _ _ Hpre).
    simpl. rewrite Hfind. simpl. rewrite Ht. simpl.
    rewrite (findById_item _ _ _ "quantity" Hfind Ht). simpl. rewrite Hq.
    rewrite (prop_truthy product "name" Ht). reflexivity. }
  split; [exact Hr|].
  assert (Hne : status (fst (create_order req w)) <> 201%nat)
    by (rewrite Hr; discriminate).
  destruct (create_order_untouched req w Hne) as (Hw & Hs & _). auto.
Qed.

(** The order a successful create builds, answers with and hands to
    [writeData]: the total is the computed total, the status "completed",
    the payment status "paid", each line carries the catalog's id, name and
    price; [createdAt] and [updatedAt] are the stamps of the third and of the
    fourth reading of the clock. *)
Lemma create_order_record (req : request) (w : world) :
  status (fst (create_order req w)) = 201%nat ->
  let products := loaded "products" w in
  let items := items_of (get (req_body req) "items") in
  let order := get (body (fst (create_order req w))) "order" in
  get order "total" = VNum (computedTotal products items)
  /\ get order "status" = VStr "completed"
  /\ get order "paymentStatus" = VStr "paid"
  /\ get order "items" = VArr (List.map (line_snapshot products) items)
  /\ get order "createdAt" = VStr (Date_toISOString (clock w (S (S (reads w)))))
  /\ get order "updatedAt" = VStr (Date_toISOString (clock w (S (S (S (reads w))))))
  /\ written (snd (create_order req w))
     = written w ++ [("orders", loaded "orders" w ++ [order])].
Proof.
  intros Hst products items order.
  destruct (create_order_early req w) as [(r & Hr & Hs)|(b & Hb & H1 & H2 & H3)].
  { rewrite Hr in Hst. cbn [fst] in Hst. destruct Hs; congruence. }
  assert (Hloop : exists result,
            validate_items products (items_of (b "items")) 0 [] = Next result
            /\ total_mismatch (fst result) (b "total") = false).
  { revert Hst. rewrite (create_order_run req w b) by assumption. cbv zeta.
    fold products.
    destruct (validate_items products (items_of (b "items")) 0 []) as [[c l]|r|] eqn:Hv.
    - destruct (total_mismatch c (b "total")) eqn:Hm.
      + cbn. discriminate.
      + intros _. exists (c, l). auto.
    - cbn [fst]. rewrite (validate_items_return _ _ _ _ _ Hv). discriminate.
    - cbn. discriminate. }
  destruct Hloop as (result & Hloop & Hm).
  pose proof (validate_items_result _ _ _ Hloop) as ->. cbn [fst] in Hm.
  destruct (create_order_created req w b _ _ Hb H1 H2 H3 Hloop Hm) as (Hr & Hw & _).
  unfold order. rewrite Hr, Hw. unfold items.
  rewrite <- (fields_of_get _ b "items" Hb).
  repeat split; reflexivity.
Qed.

(** The two stamps are equal whenever the clock does not advance between the
    handler's third and fourth reading of it. *)
Lemma create_order_stamps_equal (req : request) (w : world) :
  status (fst (create_order req w)) = 201%nat ->
  clock w (S (S (reads w))) = clock w (S (S (S (reads w)))) ->
  let order := get (body (fst (create_order req w))) "order" in
  get order "createdAt" = get order "updatedAt".
Proof.
  intros Hst Hclock.
  destruct (create_order_record req w Hst) as (_ & _ & _ & _ & Hc & Hu & _).
  cbv zeta. rewrite Hc, Hu, Hclock. reflexivity.
Qed.

End CreateOrderClaims.

(** *** Creating an order, on the sample shop *)

Section CreateOrderRuns.
Import JS Http Store Orders Sample.

(** Two widgets at 9.99.  Declared as 19.97, the difference of the binary64
    Numbers 19.98 and 19.97 is above 0.01: the answer is the mismatch and
    nothing is written.  Declared as 19.98, the order is created with the
    computed total. *)
Lemma create_order_total_check_witness :
  let w := world_of shop steady in
  let short := post (order_body [item 1 2] (VNum 19.97)) in
  let exact := post (order_body [item 1 2] (VNum 19.98)) in
  fst (create_order (rt := Node.runtime) short w) = TotalMismatchError 19.98 (VNum 19.97)
  /\ written (snd (create_order (rt := Node.runtime) short w)) = written w
  /\ exists order,
       fst (create_order (rt := Node.runtime) exact w)
       = Response 201 (VObj [("message", VStr "Order created successfully");
                             ("order", order)])
       /\ get order "total" = VNum 19.98.
Proof.
  cbv zeta.
  pose proof (@create_order_total_check Node.runtime
                (post (order_body [item 1 2] (VNum 19.97))) (world_of shop steady)
                (fun k => get (order_body [item 1 2] (VNum 19.97)) k) 19.97
                eq_refl eq_refl eq_refl eq_refl eq_refl
                ltac:(repeat constructor)) as Hshort.
  pose proof (@create_order_total_check Node.runtime
                (post (order_body [item 1 2] (VNum 19.98))) (world_of shop steady)
                (fun k => get (order_body [item 1 2] (VNum 19.98)) k) 19.98
                eq_refl eq_refl eq_refl eq_refl eq_refl
                ltac:(repeat constructor)) as Hexact.
  cbv zeta in Hshort, Hexact.
  destruct Hshort as (Hiff & Hkept & _). destruct Hexact as (_ & _ & Hmade).
  split; [apply Hiff; vm_compute; reflexivity|].
  split; [apply Hkept; vm_compute; reflexivity|].
  destruct Hmade as (order & Hr & Ht & _); [vm_compute; reflexivity|].
  exists order. split; [exact Hr|]. rewrite Ht. vm_compute. reflexivity.
Defined.

(** A declared total of -5 for two widgets: the difference exceeds 0.01 and
    every item resolves with a positive quantity, yet the answer is the
    validation error of the declared total, not [TotalMismatchError]. *)
Lemma create_order_total_check_counterexample :
  let req := post (order_body [item 1 2] (VNum (-5))) in
  let w := world_of shop steady in
  let total := computedTotal (rt := Node.runtime) (loaded "products" w) [item 1 2] in
  Forall (fun i => resolves_positive (rt := Node.runtime) (loaded "products" w) i = true)
         [item 1 2]
  /\ PrimFloat.ltb 0.01 (Math_abs (PrimFloat.sub total (-5))) = true
  /\ fst (create_order (rt := Node.runtime) req w)
     = Response 400 (message "Invalid order total")
  /\ fst (create_order (rt := Node.runtime) req w) <> TotalMismatchError total (VNum (-5)).
Proof.
  cbv zeta. split; [repeat constructor|].
  split; [vm_compute; reflexivity|].
  split; [vm_compute; reflexivity|].
  vm_compute. discriminate.
Qed.

(** A declared total that converts to no Number: "abc" is truthy and, as
    NaN, neither <= 0 nor more than 0.01 away from the computed total, so it
    passes both checks and the order is created, with the computed total,
    though the difference is not <= 0.01. *)
Example create_order_total_not_a_number :
  let req := post (order_body [item 1 2] (VStr "abc")) in
  let r := fst (create_order (rt := Node.runtime) req (world_of shop steady)) in
  total_invalid (rt := Node.runtime) (VStr "abc") = false
  /\ total_mismatch (rt := Node.runtime) 19.98 (VStr "abc") = false
  /\ PrimFloat.leb (Math_abs (PrimFloat.sub 19.98
                                (ToNumber (rt := Node.runtime) (VStr "abc")))) 0.01 = false
  /\ status r = 201%nat
  /\ get (get (body r) "order") "total" = VNum 19.98.
Proof.
  cbv zeta. repeat split; vm_compute; reflexivity.
Qed.

(** The specification's example of a creation: two widgets at 9.99 declared
    as 19.98, under a clock that does not advance. *)
Example create_order_sample :
  let w := world_of shop steady in
  let r := fst (create_order (rt := Node.runtime)
                  (post (order_body [item 1 2] (VNum 19.98))) w) in
  status r = 201%nat
  /\ get (get (body r) "order") "total" = VNum 19.98
  /\ get (get (body r) "order") "status" = VStr "completed"
  /\ get (get (body r) "order") "orderNumber" = VStr "ORD-1700000000000"
  /\ get (get (body r) "order") "createdAt" = get (get (body r) "order") "updatedAt"
  /\ stored "orders" (snd (create_order (rt := Node.runtime)
                             (post (order_body [item 1 2] (VNum 19.98))) w))
     = Some (Records [get (body r) "order"]).
Proof.
  cbv zeta. repeat split; vm_compute; reflexivity.
Qed.

(** Two widgets and one unit of a product the catalog does not have. *)
Lemma create_order_unknown_product_witness :
  let req := post (order_body [item 1 2; item 999 1] (VNum 29.97)) in
  let w := world_of shop steady in
  fst (create_order (rt := Node.runtime) req w)
  = Response 400 (message "Product with ID 999 not found")
  /\ snd (create_order (rt := Node.runtime) req w) = w.
Proof.
  cbv zeta.
  destruct (@create_order_unknown_product Node.runtime
              (post (order_body [item 1 2; item 999 1] (VNum 29.97)))
              (world_of shop steady)
              ltac:(apply Exists_cons_tl, Exists_cons_hd; vm_compute; reflexivity))
    as (_ & _ & _ & Hw & Hr).
  split.
  - apply (Hr (fun k => get (order_body [item 1 2; item 999 1] (VNum 29.97)) k)
              [item 1 2] [] (item 999 1) (VNum 999)); try reflexivity.
    repeat constructor.
  - apply Hw. vm_compute. eauto.
Defined.

(** A widget ordered zero times, then a product the catalog does not have:
    an item's id is in no product, yet the answer is [InvalidQuantityError]
    for the widget and not [UnknownProductError]. *)
Lemma create_order_unknown_product_counterexample :
  let req := post (order_body [item 1 0; item 999 1] (VNum 9.99)) in
  let w := world_of shop steady in
  in_catalog (loaded "products" w) (item 999 1) = false
  /\ fst (create_order (rt := Node.runtime) req w)
     = Response 400 (message "Invalid quantity for product: Widget")
  /\ fst (create_order (rt := Node.runtime) req w)
     <> UnknownProductError (rt := Node.runtime) (VNum 999).
Proof.
  cbv zeta. split; [vm_compute; reflexivity|].
  split; [vm_compute; reflexivity|].
  vm_compute. discriminate.
Qed.

(** Two widgets, then a gadget ordered zero times. *)
Lemma create_order_invalid_quantity_witness :
  let req := post (order_body [item 1 2; item 2 0] (VNum 19.98)) in
  let w := world_of shop steady in
  fst (create_order (rt := Node.runtime) req w)
  = Response 400 (message "Invalid quantity for product: Gadget")
  /\ written (snd (create_order (rt := Node.runtime) req w)) = []
  /\ stored "orders" (snd (create_order (rt := Node.runtime) req w)) = None.
Proof.
  cbv zeta.
  apply (@create_order_invalid_quantity Node.runtime
           (post (order_body [item 1 2; item 2 0] (VNum 19.98)))
           (world_of shop steady)
           (fun k => get (order_body [item 1 2; item 2 0] (VNum 19.98)) k)
           [item 1 2] [] (item 2 0) gadget);
    try reflexivity.
  repeat constructor.
Defined.

(** One and a half widgets, declared at 14.985: the quantity is not an
    integer, and the order is created with it. *)
Lemma create_order_invalid_quantity_counterexample :
  let req := post (order_body [item 1 1.5] (VNum 14.985)) in
  let w := world_of shop steady in
  let r := fst (create_order (rt := Node.runtime) req w) in
  status r = 201%nat
  /\ get (get (body r) "order") "items"
     = VArr [VObj [("id", VNum 1); ("name", VStr "Widget"); ("price", VNum 9.99);
                   ("quantity", VNum 1.5); ("subtotal", VNum 14.985)]]
  /\ stored "orders" (snd (create_order (rt := Node.runtime) req w))
     = Some (Records [get (body r) "order"]).
Proof.
  cbv zeta. repeat split; vm_compute; reflexivity.
Qed.

(** C6, at a request handled while the clock advances by one millisecond
    between the handler's third and fourth reading of it: the order is
    created with the computed total, "completed" and "paid", and its
    [createdAt] and [updatedAt] differ. *)
Theorem create_order_stamps_differ :
  let req := post (order_body [item 1 2] (VNum 19.98)) in
  let r := fst (create_order (rt := Node.runtime) req (world_of shop ticking)) in
  status r = 201%nat
  /\ get (get (body r) "order") "total" = VNum 19.98
  /\ get (get (body r) "order") "createdAt" = VStr "2023-11-14T22:13:20.000Z"
  /\ get (get (body r) "order") "updatedAt" = VStr "2023-11-14T22:13:20.001Z"
  /\ get (get (body r) "order") "createdAt" <> get (get (body r) "order") "updatedAt".
Proof.
  cbv zeta. repeat split; try (vm_compute; reflexivity).
  vm_compute. discriminate.
Qed.

End CreateOrderRuns.

(** ** Writing back what was read *)

Module RoundTripFacts.
Import JS Http Store.

Lemma jsonify_obj (fields : list (string * value)) :
  jsonify (VObj fields) = Some (VObj (stored_fields fields)).
Proof. reflexivity. Qed.

Lemma jsonify_arr (xs : list value) :
  jsonify (VArr xs) = Some (VArr (stored_form xs)).
Proof. reflexivity. Qed.

(** What was written once is written back unchanged. *)
Lemma jsonify_idempotent (v : value) :
  forall v', jsonify v = Some v' -> jsonify v' = Some v'.
Proof.
  induction v as [| |b|x|s|xs IH|fields IH] using value_ind; intros v' H.
  - discriminate.
  - inversion H; reflexivity.
  - inversion H; reflexivity.
  - simpl in H. inversion H; subst; clear H.
    destruct (Number_isFinite x) eqn:Hfin; [|reflexivity].
    destruct (PrimFloat.is_zero x) eqn:Hz.
    + reflexivity.
    + simpl. rewrite Hfin, Hz. reflexivity.
  - inversion H; reflexivity.
  - rewrite jsonify_arr in H. inversion H; subst; clear H.
    rewrite jsonify_arr. do 2 f_equal.
    unfold stored_form. rewrite List.map_map.
    apply List.map_ext_in. intros x Hx.
    rewrite List.Forall_forall in IH. specialize (IH x Hx).
    destruct (jsonify x) as [y|] eqn:Hy.
    + rewrite (IH y eq_refl). reflexivity.
    + reflexivity.
  - rewrite jsonify_obj in H. inversion H; subst; clear H.
    rewrite jsonify_obj. do 2 f_equal.
    induction fields as [|[k x] rest IHf]; simpl; auto.
    inversion IH as [|? ? Hx Hrest]; subst. simpl in Hx.
    destruct (jsonify x) as [y|] eqn:Hy.
    + simpl. rewrite (Hx y eq_refl). f_equal. auto.
    + auto.
Qed.

Lemma stored_form_idempotent (data : list value) :
  stored_form (stored_form data) = stored_form data.
Proof.
  unfold stored_form. rewrite List.map_map.
  apply List.map_ext. intros x.
  destruct (jsonify x) as [y|] eqn:Hy.
  - rewrite (jsonify_idempotent x y Hy). reflexivity.
  - reflexivity.
Qed.

End RoundTripFacts.

Section RoundTrip.
Import JS Http Store.

(** C9 (amended).  Writing back what was read, [writeData(name, readData(name))],
    leaves what a later [readData(name)] returns unchanged, and leaves the
    file's records themselves unchanged, for every collection whose stored
    records are in the form [writeData] writes them (every Number finite and
    not negative zero), and for every collection that has no readable file. *)
Theorem write_back_unchanged (filename : string) (w : world) :
  (forall rs, stored filename w = Some (Records rs) -> stored_form rs = rs) ->
  let data := loaded filename w in
  let w1 := snd (readData filename w) in
  let w2 := snd (writeData filename data w1) in
  loaded filename w2 = data
  /\ (forall rs, stored filename w = Some (Records rs) ->
                 stored filename w2 = Some (Records rs)).
Proof.
  intros Hform data w1 w2.
  assert (Hdata : stored_form data = data).
  { unfold data. rewrite StoreFacts.loaded_stored.
    destruct (stored filename w) as [[rs|]|] eqn:Hs; auto. }
  assert (H1 : loaded filename w1 = data) by apply StoreFacts.readData_loaded_same.
  destruct (read_only (fs w1)) eqn:Hro.
  - assert (Hfs : fs w2 = fs w1) by (apply StoreFacts.writeData_read_only; assumption).
    assert (Hst : stored filename w2 = stored filename w1)
      by (unfold stored; rewrite Hfs; reflexivity).
    split.
    + rewrite StoreFacts.loaded_stored, Hst, <- StoreFacts.loaded_stored. exact H1.
    + intros rs Hs. rewrite Hst. unfold w1.
      rewrite StoreFacts.readData_existing by (rewrite Hs; eauto). exact Hs.
  - assert (Hst : stored filename w2 = Some (Records (stored_form data)))
      by (apply StoreFacts.writeData_stored; assumption).
    split.
    + rewrite StoreFacts.loaded_stored, Hst. exact Hdata.
    + intros rs Hs. rewrite Hst, Hdata. unfold data.
      rewrite StoreFacts.loaded_stored, Hs. reflexivity.
Qed.

(** Every file [writeData] wrote is in that form. *)
Lemma writeData_form (filename : string) (data : list value) (w : world) (rs : list value) :
  read_only (fs w) = false ->
  stored filename (snd (writeData filename data w)) = Some (Records rs) ->
  stored_form rs = rs.
Proof.
  intros Hro Hs. rewrite StoreFacts.writeData_stored in Hs by assumption.
  inversion Hs. apply RoundTripFacts.stored_form_idempotent.
Qed.

End RoundTrip.

Section RoundTripRuns.
Import JS Http Store Sample.

Lemma write_back_unchanged_witness :
  let w := world_of shop steady in
  loaded "products" (snd (writeData "products" (loaded "products" w)
                            (snd (readData "products" w))))
  = catalog.
Proof.
  cbv zeta.
  apply (write_back_unchanged "products" (world_of shop steady)).
  intros rs Hs. vm_compute in Hs. inversion Hs. vm_compute. reflexivity.
Defined.

(** The products file of [overflowing] holds a price written [1e999]. *)
Lemma write_back_unchanged_counterexample :
  let w := world_of overflowing steady in
  let w2 := snd (writeData "products" (loaded "products" w)
                   (snd (readData "products" w))) in
  loaded "products" w
  = [VObj [("id", VNum 1); ("name", VStr "Widget"); ("price", VNum PrimFloat.infinity)]]
  /\ loaded "products" w2
     = [VObj [("id", VNum 1); ("name", VStr "Widget"); ("price", VNull)]].
Proof.
  cbv zeta. split; vm_compute; reflexivity.
Qed.

End RoundTripRuns.

(** ** Listing orders *)

Module ListFacts.
Import JS Http Store Orders.
Local Open Scope js_scope.

(** What [filter] keeps was in the array and satisfied the callback. *)
Lemma array_filter_In (pred : value -> flow bool) (xs : list value) :
  forall ys, array_filter pred xs = Next ys ->
  forall y, In y ys -> In y xs /\ pred y = Next true.
Proof.
  induction xs as [|x rest IH]; simpl; intros ys H y Hy.
  - inversion H; subst. destruct Hy.
  - destruct (pred x) as [b| |] eqn:Hx; simpl in H; try discriminate.
    destruct (array_filter pred rest) as [zs| |]; simpl in H; try discriminate.
    inversion H; subst; clear H.
    destruct b.
    + destruct Hy as [<-|Hy]; auto.
      destruct (IH zs eq_refl y Hy). auto.
    + destruct (IH zs eq_refl y Hy). auto.
Qed.

(** Callbacks do not answer the request, so neither do the array methods. *)
Lemma prop_no_return (v : value) (k : string) (r : response) :
  prop v k <> Return r.
Proof. destruct v; discriminate. Qed.

Lemma array_filter_no_return (pred : value -> flow bool) (xs : list value) :
  (forall x r, pred x <> Return r) ->
  forall r, array_filter pred xs <> Return r.
Proof.
  intros Hp. induction xs as [|x rest IH]; simpl; intros r H.
  - discriminate.
  - destruct (pred x) as [b|r'|] eqn:Hx; simpl in H; try discriminate.
    + destruct (array_filter pred rest) as [ys|r'|] eqn:Hr; simpl in H;
        try discriminate.
      eapply IH; eauto.
    + eapply Hp; eauto.
Qed.

Lemma array_mapM_no_return {A : Type} (f : value -> flow A) (xs : list value) :
  (forall x r, f x <> Return r) ->
  forall r, array_mapM f xs <> Return r.
Proof.
  intros Hf. induction xs as [|x rest IH]; simpl; intros r H.
  - discriminate.
  - destruct (f x) as [y|r'|] eqn:Hx; simpl in H; try discriminate.
    + destruct (array_mapM f rest) as [ys|r'|] eqn:Hr; simpl in H;
        try discriminate.
      eapply IH; eauto.
    + eapply Hf; eauto.
Qed.

Lemma array_mapM_fst {A : Type} (f : value -> flow (value * A)) (xs : list value) :
  (forall x y, f x = Next y -> fst y = x) ->
  forall ys, array_mapM f xs = Next ys -> List.map fst ys = xs.
Proof.
  intros Hf. induction xs as [|x rest IH]; simpl; intros ys H.
  - inversion H. reflexivity.
  - destruct (f x) as [y| |] eqn:Hx; simpl in H; try discriminate.
    destruct (array_mapM f rest) as [zs| |]; simpl in H; try discriminate.
    inversion H; subst. simpl. rewrite (Hf x y Hx), (IH zs eq_refl). reflexivity.
Qed.

(** Sorting keeps the elements. *)
Lemma sort_insert_In {A : Type} (cmp : A -> A -> float) (a x : A) (l : list A) :
  In x (sort_insert cmp a l) <-> x = a \/ In x l.
Proof.
  induction l as [|y l IH]; simpl.
  - intuition.
  - destruct (PrimFloat.ltb 0 (cmp a y)); simpl; rewrite ?IH; intuition.
Qed.

Lemma sort_In {A : Type} (cmp : A -> A -> float) (x : A) (l : list A) :
  In x (sort cmp l) <-> In x l.
Proof.
  unfold sort. induction l as [|y l IH]; simpl.
  - tauto.
  - rewrite sort_insert_In, IH. intuition.
Qed.

Lemma sort_length {A : Type} (cmp : A -> A -> float) (l : list A) :
  length (sort cmp l) = length l.
Proof.
  unfold sort. induction l as [|y l IH]; simpl; auto.
  rewrite <- IH. generalize (foldr (sort_insert cmp) [] l). intros s.
  induction s as [|z s IHs]; simpl; auto.
  destruct (PrimFloat.ltb 0 (cmp y z)); simpl; auto.
Qed.

Section Dates.
Context {rt : Runtime}.

Lemma sort_newest_first_In (orders sorted : list value) :
  sort_newest_first orders = Next sorted ->
  forall o, In o sorted <-> In o orders.
Proof.
  unfold sort_newest_first.
  destruct orders as [|o1 [|o2 rest]]; intros H o.
  - inversion H. tauto.
  - inversion H. tauto.
  - destruct (array_mapM created_key (o1 :: o2 :: rest)) as [keyed| |] eqn:Hk;
      simpl in H; try discriminate.
    inversion H; subst; clear H.
    assert (Hfst : List.map fst keyed = o1 :: o2 :: rest).
    { apply (array_mapM_fst created_key); auto.
      intros x y Hy. unfold created_key in Hy.
      destruct (prop x "createdAt"); simpl in Hy; inversion Hy. reflexivity. }
    rewrite <- Hfst.
    rewrite !in_map_iff.
    split; intros (k & Hk1 & Hk2); exists k; split; auto;
      eapply sort_In; eassumption.
Qed.

Lemma created_key_no_return (order : value) (r : response) :
  created_key order <> Return r.
Proof.
  unfold created_key. destruct order; discriminate.
Qed.

Lemma sort_newest_first_no_return (orders : list value) (r : response) :
  sort_newest_first orders <> Return r.
Proof.
  unfold sort_newest_first.
  destruct orders as [|o1 [|o2 rest]]; try discriminate.
  destruct (array_mapM created_key (o1 :: o2 :: rest)) as [keyed|r'|] eqn:Hk;
    simpl; try discriminate.
  exfalso. eapply array_mapM_no_return; eauto using created_key_no_return.
Qed.

Lemma sort_newest_first_length (orders sorted : list value) :
  sort_newest_first orders = Next sorted -> length sorted = length orders.
Proof.
  unfold sort_newest_first.
  destruct orders as [|o1 [|o2 rest]]; intros H.
  - inversion H. reflexivity.
  - inversion H. reflexivity.
  - destruct (array_mapM created_key (o1 :: o2 :: rest)) as [keyed| |] eqn:Hk;
      simpl in H; try discriminate.
    inversion H; subst; clear H.
    rewrite length_map, sort_length.
    rewrite <- (length_map fst keyed).
    f_equal. apply (array_mapM_fst created_key); auto.
    intros x y Hy. unfold created_key in Hy.
    destruct (prop x "createdAt"); simpl in Hy; inversion Hy. reflexivity.
Qed.

End Dates.

(** A slice holds elements of the array. *)
Lemma slice_In {A : Type} (xs : list A) (a b : float) (x : A) :
  In x (slice xs a b) -> In x xs.
Proof.
  unfold slice. intros H.
  apply list_elem_of_In in H. apply list_elem_of_In.
  apply elem_of_take in H as (i & H & _).
  rewrite lookup_drop in H.
  eapply list_elem_of_lookup_2; eauto.
Qed.

End ListFacts.

Section ListOrdersClaims.
Import JS Http Store Orders CreateFacts ListFacts.
Context {rt : Runtime}.

(** The listing of the caller's orders, by the outcome of its steps. *)
Lemma my_orders_run (req : request) (w : world) :
  fst (my_orders req w) =
    match fields_of (req_query req) with
    | Next q =>
        match array_filter (owned_by req) (loaded "orders" w) with
        | Next userOrders =>
            match sort_newest_first userOrders with
            | Next sorted =>
                Response 200
                  (page_of_orders sorted (or_default (q "page") (VNum 1))
                                         (or_default (q "limit") (VNum 10)))
            | _ => Response 500 (message "Error fetching orders")
            end
        | _ => Response 500 (message "Error fetching orders")
        end
    | _ => Response 500 (message "Error fetching orders")
    end.
Proof.
  unfold my_orders, handler, my_orders_body, bind, pure, ret.
  destruct (fields_of (req_query req)) as [q|r|] eqn:Hq; try reflexivity.
  2:{ exfalso. revert Hq. destruct (req_query req); simpl; intros Hq; discriminate Hq. }
  rewrite (StoreFacts.readData_loaded "orders" w).
  destruct (array_filter (owned_by req) (loaded "orders" w)) as [us|r|] eqn:Hf;
    try reflexivity.
  - destruct (sort_newest_first us) as [sorted|r|] eqn:Hs; try reflexivity.
    exfalso. eapply sort_newest_first_no_return; eauto.
  - exfalso. eapply array_filter_no_return; eauto.
    intros x r'. unfold owned_by.
    destruct x; try discriminate; destruct (req_user req); discriminate.
Qed.

(** The listing of all orders refuses a caller whose role is not admin. *)
Lemma list_orders_forbidden (req : request) (w : world) :
  not_admin req = Next true ->
  list_orders req w = (Response 403 (message "Access denied. Admin only."), w).
Proof.
  intros H. unfold list_orders, handler, list_orders_body, bind, pure, respond.
  rewrite H. reflexivity.
Qed.

(** C2.  Every order the listing of the caller's orders answers with has the
    caller's [userId], whatever the query parameters and the stored orders;
    the listing of all orders answers a caller whose role is not admin with
    403 and leaves the world alone. *)
Theorem my_orders_scoped (req : request) (w : world) :
  (forall order, In order (returned_orders (fst (my_orders req w))) ->
     strict_eq (get order "userId") (get (req_user req) "userId") = true)
  /\ (not_admin req = Next true ->
      list_orders req w = (Response 403 (message "Access denied. Admin only."), w)).
Proof.
  split; [|apply list_orders_forbidden].
  intros order. rewrite my_orders_run.
  destruct (fields_of (req_query req)) as [q| |]; try (simpl; tauto).
  destruct (array_filter (owned_by req) (loaded "orders" w)) as [us| |] eqn:Hf;
    try (simpl; tauto).
  destruct (sort_newest_first us) as [sorted| |] eqn:Hs; try (simpl; tauto).
  unfold returned_orders, page_of_orders. cbn [body get prop lookup_field items_of String.eqb Ascii.eqb Bool.eqb].
  intros Hin. apply slice_In in Hin.
  apply (sort_newest_first_In _ _ Hs) in Hin.
  destruct (array_filter_In _ _ _ Hf _ Hin) as [_ Hown].
  unfold owned_by in Hown. unfold get.
  destruct (prop order "userId"); simpl in Hown; try discriminate.
  destruct (prop (req_user req) "userId"); simpl in Hown; try discriminate.
  inversion Hown. reflexivity.
Qed.

(** The statistics an admin gets, when no stored order makes the sums throw. *)
Lemma stats_summary_run (req : request) (w : world) :
  not_admin req = Next false ->
  let orders := loaded "orders" w in
  fst (stats_summary req w) =
    match sum_totals (VNum 0) orders, count_status "completed" orders,
          count_status "pending" orders, count_status "cancelled" orders with
    | Next totalRevenue, Next completedOrders, Next pendingOrders, Next cancelledOrders =>
        Response 200
          (VObj [("totalOrders", VNum (of_nat (length orders)));
                 ("totalRevenue", totalRevenue);
                 ("completedOrders", completedOrders);
                 ("pendingOrders", pendingOrders);
                 ("cancelledOrders", cancelledOrders);
                 ("averageOrderValue",
                    if PrimFloat.ltb 0 (of_nat (length orders))
                    then VNum (js_div totalRevenue (VNum (of_nat (length orders))))
                    else VNum 0)])
    | Return r, _, _, _ => r
    | Next _, Return r, _, _ => r
    | Next _, Next _, Return r, _ => r
    | Next _, Next _, Next _, Return r => r
    | _, _, _, _ => Response 500 (message "Error fetching order statistics")
    end.
Proof.
  intros Hadmin orders.
  unfold stats_summary, handler, stats_summary_body, bind, pure, respond, ret.
  rewrite Hadmin.
  rewrite (StoreFacts.readData_loaded "orders" w). fold orders.
  destruct (sum_totals (VNum 0) orders) as [totalRevenue| |]; try reflexivity.
  destruct (count_status "completed" orders); try reflexivity.
  destruct (count_status "pending" orders); try reflexivity.
  destruct (count_status "cancelled" orders); try reflexivity.
  destruct (PrimFloat.ltb 0 (of_nat (length orders))); reflexivity.
Qed.

Lemma sum_totals_no_return (orders : list value) :
  forall sum r, sum_totals sum orders <> Return r.
Proof.
  induction orders as [|o os IH]; simpl; intros sum r.
  - discriminate.
  - destruct (prop o "total") eqn:Ho; simpl.
    + apply IH.
    + exfalso. eapply prop_no_return; eauto.
    + discriminate.
Qed.

Lemma count_status_no_return (s : string) (orders : list value) (r : response) :
  count_status s orders <> Return r.
Proof.
  unfold count_status.
  destruct (array_filter _ orders) as [hits|r'|] eqn:Hf; simpl; try discriminate.
  exfalso. eapply array_filter_no_return; eauto.
  intros x r''. destruct x; discriminate.
Qed.

(** C8.  For an admin caller, the statistics over an empty orders collection
    are all 0, the average included, and the answer is a 200: nothing is
    divided.  Whenever the statistics are answered with [totalOrders > 0],
    [averageOrderValue] is [totalRevenue / totalOrders]. *)
Theorem stats_summary_average (req : request) (w : world) :
  not_admin req = Next false ->
  (loaded "orders" w = [] ->
   fst (stats_summary req w)
   = Response 200 (VObj [("totalOrders", VNum 0); ("totalRevenue", VNum 0);
                         ("completedOrders", VNum 0); ("pendingOrders", VNum 0);
                         ("cancelledOrders", VNum 0); ("averageOrderValue", VNum 0)]))
  /\ (let stats := body (fst (stats_summary req w)) in
      status (fst (stats_summary req w)) = 200%nat ->
      js_gt (get stats "totalOrders") 0 = true ->
      get stats "averageOrderValue"
      = VNum (js_div (get stats "totalRevenue") (get stats "totalOrders"))).
Proof.
  intros Hadmin. split.
  - intros Hempty. rewrite (stats_summary_run req w Hadmin). cbv zeta.
    rewrite Hempty. reflexivity.
  - cbv zeta. rewrite (stats_summary_run req w Hadmin). cbv zeta.
    destruct (sum_totals (VNum 0) (loaded "orders" w)) as [totalRevenue|r|] eqn:Hsum.
    2:{ exfalso. eapply sum_totals_no_return; eauto. }
    2:{ cbn. discriminate. }
    destruct (count_status "completed" (loaded "orders" w)) as [c|r|] eqn:Hc.
    2:{ exfalso. eapply count_status_no_return; eauto. }
    2:{ cbn. discriminate. }
    destruct (count_status "pending" (loaded "orders" w)) as [p|r|] eqn:Hp.
    2:{ exfalso. eapply count_status_no_return; eauto. }
    2:{ cbn. discriminate. }
    destruct (count_status "cancelled" (loaded "orders" w)) as [x|r|] eqn:Hx.
    2:{ exfalso. eapply count_status_no_return; eauto. }
    2:{ cbn. discriminate. }
    intros _. unfold get, js_gt. cbn [body prop lookup_field String.eqb Ascii.eqb Bool.eqb ToNumber].
    intros Hpos. rewrite Hpos. reflexivity.
Qed.

End ListOrdersClaims.

(** ** Listing with a page size of zero *)

Section LimitZero.
Import JS Http Store Orders CreateFacts ListFacts NumberFacts.
Context {rt : Runtime}.

(** The envelope of the order listings for a zero page size. *)
Lemma page_of_orders_zero (orders : list value) (page limit : value) :
  PrimFloat.eqb (parseInt limit) 0 = true ->
  zero_page (page_of_orders orders page limit) "orders".
Proof.
  intros Hz. destruct (eqb_zero _ Hz) as [s Hs].
  unfold zero_page, page_of_orders, get.
  cbn [prop lookup_field String.eqb Ascii.eqb Bool.eqb].
  split; [|split].
  - f_equal. apply slice_zero.
    + eapply mul_zero; eauto.
    + eapply add_zero; eauto. eapply mul_zero; eauto.
  - eauto.
  - eexists. split; [reflexivity|].
    rewrite Math_ceil_not_finite; eapply div_zero; eauto.
Qed.

(** The listing of all orders for an admin, by the outcome of its steps. *)
Lemma list_orders_run (req : request) (w : world) (q : string -> value) :
  not_admin req = Next false ->
  fields_of (req_query req) = Next q ->
  fst (list_orders req w) =
    match (if truthy (q "status")
           then array_filter (fun order =>
                  flow_bind (prop order "status")
                    (fun s => Next (strict_eq s (q "status")))) (loaded "orders" w)
           else Next (loaded "orders" w)) with
    | Next filtered =>
        match sort_newest_first filtered with
        | Next sorted =>
            Response 200
              (page_of_orders sorted (or_default (q "page") (VNum 1))
                                     (or_default (q "limit") (VNum 10)))
        | _ => Response 500 (message "Error fetching orders")
        end
    | _ => Response 500 (message "Error fetching orders")
    end.
Proof.
  intros Hadmin Hq.
  unfold list_orders, handler, list_orders_body, bind, pure, respond, ret.
  rewrite Hadmin, Hq.
  rewrite (StoreFacts.readData_loaded "orders" w).
  match goal with
  | |- context [if truthy (q "status") then ?f else ?g] =>
      destruct (if truthy (q "status") then f else g) as [filtered|r|] eqn:Hf
  end; try reflexivity.
  - destruct (sort_newest_first filtered) as [sorted|r|] eqn:Hs; try reflexivity.
    exfalso. eapply sort_newest_first_no_return; eauto.
  - exfalso. destruct (truthy (q "status")); try discriminate.
    eapply array_filter_no_return; eauto.
    intros x r'. destruct x; discriminate.
Qed.

Lemma toLowerCase_no_return (v : value) (r : response) :
  toLowerCase v <> Return r.
Proof. destruct v; discriminate. Qed.

Lemma in_category_no_return (category product : value) (r : response) :
  Products.in_category category product <> Return r.
Proof.
  unfold Products.in_category.
  destruct (prop product "category") as [c|r'|] eqn:Hc; simpl; try discriminate.
  - destruct (toLowerCase c) as [mine|r'|] eqn:Hm; simpl; try discriminate.
    + destruct (toLowerCase category) as [wanted|r'|] eqn:Hw; simpl; try discriminate.
      intros H. eapply toLowerCase_no_return; eauto.
    + intros H. eapply toLowerCase_no_return; eauto.
  - intros H. eapply prop_no_return; eauto.
Qed.

Lemma field_includes_no_return (product : value) (k term : string) (r : response) :
  Products.field_includes product k term <> Return r.
Proof.
  unfold Products.field_includes.
  destruct (prop product k) as [v|r'|] eqn:Hv; simpl; try discriminate.
  - destruct (toLowerCase v) as [low|r'|] eqn:Hl; simpl; try discriminate.
    intros H. eapply toLowerCase_no_return; eauto.
  - intros H. eapply prop_no_return; eauto.
Qed.

Lemma matches_search_no_return (term : string) (product : value) (r : response) :
  Products.matches_search term product <> Return r.
Proof.
  unfold Products.matches_search.
  destruct (Products.field_includes product "name" term) as [[|]|r'|] eqn:H1;
    simpl; try discriminate.
  - destruct (Products.field_includes product "description" term) as [[|]|r'|] eqn:H2;
      simpl; try discriminate.
    + apply field_includes_no_return.
    + intros H. eapply field_includes_no_return; eauto.
  - intros H. eapply field_includes_no_return; eauto.
Qed.

(** The listing of products answers 200 or 500, and with a page size of zero
    its 200 carries an empty page and no number of pages. *)
Lemma list_products_zero (req : request) (w : world) (q : string -> value) :
  fields_of (req_query req) = Next q ->
  truthy (q "limit") = true ->
  PrimFloat.eqb (parseInt (q "limit")) 0 = true ->
  let r := fst (Products.list_products req w) in
  (status r = 200%nat \/ status r = 500%nat)
  /\ (status r = 200%nat -> zero_page (body r) "products").
Proof.
  intros Hq Hlimit Hz. destruct (eqb_zero _ Hz) as [s Hs]. cbv zeta.
  unfold Products.list_products, handler, Products.list_products_body,
    bind, pure, ret.
  rewrite Hq, Hlimit.
  rewrite (StoreFacts.readData_loaded "products" w). cbn [fst snd].
  match goal with
  | |- context [if ?c then Http.array_filter ?p ?l else Next ?l] =>
      destruct (if c then Http.array_filter p l else Next l) as [ps|r|] eqn:H1
  end.
  2:{ exfalso. destruct (truthy (q "category") && _); try discriminate.
      eapply array_filter_no_return; eauto. apply in_category_no_return. }
  2:{ cbn. split; [auto|discriminate]. }
  match goal with
  | |- context [if ?c then ?f else Next ps] =>
      destruct (if c then f else Next ps) as [found|r|] eqn:H2
  end.
  2:{ exfalso. destruct (truthy (q "search")); try discriminate.
      destruct (toLowerCase (q "search")) as [term|r'|] eqn:Ht; simpl in H2;
        try discriminate.
      - eapply array_filter_no_return; eauto. apply matches_search_no_return.
      - inversion H2; subst. eapply toLowerCase_no_return; eauto. }
  2:{ cbn. split; [auto|discriminate]. }
  cbn [fst status body]. split; auto. intros _.
  unfold zero_page, get.
  cbn [prop lookup_field String.eqb Ascii.eqb Bool.eqb].
  split; [|split].
  - f_equal. apply slice_zero.
    + eapply mul_zero; eauto.
    + eapply add_zero; eauto. eapply mul_zero; eauto.
  - eauto.
  - eexists. split; [reflexivity|].
    rewrite Math_ceil_not_finite; eapply div_zero; eauto.
Qed.

(** C5 (amended).  A page size of zero is not refused: no listing has an
    [InvalidQueryError].  With [limit] parsed as 0 the admin listing of
    orders, the listing of the caller's orders and the listing of products
    (where the [limit] parameter is the non-empty text of a zero) answer 200,
    or 500 when a stored record makes a callback throw; the 200 carries an
    empty page, [pageSize] 0 and, as [totalPages], the ceiling of [total / 0]:
    an infinity or NaN. *)
Theorem list_limit_zero (req : request) (w : world) (q : string -> value) :
  fields_of (req_query req) = Next q ->
  (not_admin req = Next false ->
   PrimFloat.eqb (parseInt (or_default (q "limit") (VNum 10))) 0 = true ->
   let r := fst (list_orders req w) in
   (status r = 200%nat \/ status r = 500%nat)
   /\ (status r = 200%nat -> zero_page (body r) "orders"))
  /\ (PrimFloat.eqb (parseInt (or_default (q "limit") (VNum 10))) 0 = true ->
      let r := fst (my_orders req w) in
      (status r = 200%nat \/ status r = 500%nat)
      /\ (status r = 200%nat -> zero_page (body r) "orders"))
  /\ (truthy (q "limit") = true ->
      PrimFloat.eqb (parseInt (q "limit")) 0 = true ->
      let r := fst (Products.list_products req w) in
      (status r = 200%nat \/ status r = 500%nat)
      /\ (status r = 200%nat -> zero_page (body r) "products")).
Proof.
  intros Hq. split; [|split].
  - intros Hadmin Hz. cbv zeta.
    rewrite (list_orders_run req w q Hadmin Hq).
    destruct (if truthy (q "status") then _ else _) as [filtered| |];
      try (cbn; split; [auto|discriminate]).
    destruct (sort_newest_first filtered) as [sorted| |];
      try (cbn; split; [auto|discriminate]).
    cbn [status body]. split; auto. intros _.
    apply page_of_orders_zero. exact Hz.
  - intros Hz. cbv zeta. rewrite my_orders_run, Hq.
    destruct (array_filter (owned_by req) (loaded "orders" w)) as [us| |];
      try (cbn; split; [auto|discriminate]).
    destruct (sort_newest_first us) as [sorted| |];
      try (cbn; split; [auto|discriminate]).
    cbn [status body]. split; auto. intros _.
    apply page_of_orders_zero. exact Hz.
  - apply list_products_zero. exact Hq.
Qed.

End LimitZero.

(** ** The catalog *)

Module ProductFacts.
Import JS Http Store Products ListFacts.
Local Open Scope js_scope.

Lemma lookup_set_eq (k : string) (v : value) (fields : list (string * value)) :
  lookup_field k (set_field k v fields) = v.
Proof.
  induction fields as [|[k' v'] rest IH]; simpl.
  - rewrite String.eqb_refl. reflexivity.
  - destruct (String.eqb k k') eqn:Hk; simpl.
    + rewrite String.eqb_refl. reflexivity.
    + rewrite Hk. exact IH.
Qed.

Lemma lookup_set_ne (k k' : string) (v : value) (fields : list (string * value)) :
  String.eqb k k' = false ->
  lookup_field k (set_field k' v fields) = lookup_field k fields.
Proof.
  intros Hne. induction fields as [|[k'' v''] rest IH]; simpl.
  - rewrite Hne. reflexivity.
  - destruct (String.eqb k' k'') eqn:Hk; simpl.
    + apply String.eqb_eq in Hk. subst. rewrite Hne. reflexivity.
    + destruct (String.eqb k k''); auto.
Qed.

(** [pairwise] by positions. *)
Lemma pairwise_lookup {A : Type} (ok : A -> A -> bool) (l : list A) :
  pairwise ok l = true <->
  (forall i j x y, (i < j)%nat -> l !! i = Some x -> l !! j = Some y -> ok x y = true).
Proof.
  induction l as [|a l IH]; simpl.
  - split; auto. intros _ i j x y _ H. discriminate.
  - rewrite andb_true_iff, forallb_forall, IH. split.
    + intros [Ha Hl] i j x y Hij Hi Hj.
      destruct j as [|j]; [exfalso; lia|]. simpl in Hj.
      destruct i as [|i]; simpl in Hi.
      * inversion Hi; subst. apply Ha.
        apply list_elem_of_In. eapply list_elem_of_lookup_2; eauto.
      * apply (Hl i j); auto. lia.
    + intros H. split.
      * intros y Hy. apply list_elem_of_In in Hy.
        apply list_elem_of_lookup_1 in Hy as [j Hj].
        apply (H O (S j) a y); auto. lia.
      * intros i j x y Hij Hi Hj. apply (H (S i) (S j)); auto. lia.
Qed.

(** For a symmetric [ok], the order of the positions does not matter. *)
Lemma pairwise_lookup_sym {A : Type} (ok : A -> A -> bool) (l : list A) :
  (forall x y, ok x y = ok y x) ->
  pairwise ok l = true <->
  (forall i j x y, i <> j -> l !! i = Some x -> l !! j = Some y -> ok x y = true).
Proof.
  intros Hsym. rewrite pairwise_lookup. split; intros H i j x y Hij Hi Hj.
  - destruct (Nat.lt_ge_cases i j) as [Hlt|Hge].
    + apply (H i j); auto.
    + rewrite Hsym. apply (H j i); auto. lia.
  - apply (H i j); auto. lia.
Qed.

Section Names.
Context {rt : Runtime}.

Lemma same_lower_sym (a b : value) : same_lower a b = same_lower b a.
Proof.
  destruct a, b; simpl; auto. apply String.eqb_sym.
Qed.

Lemma names_distinct_lookup (products : list value) :
  names_distinct products <->
  (forall i j p q, i <> j -> products !! i = Some p -> products !! j = Some q ->
                   same_lower (get p "name") (get q "name") = false).
Proof.
  unfold names_distinct. rewrite pairwise_lookup_sym.
  - split; intros H i j p q Hij Hi Hj.
    + apply negb_true_iff. apply (H i j); auto.
    + apply negb_true_iff. apply (H i j); auto.
  - intros x y. rewrite same_lower_sym. reflexivity.
Qed.

Lemma ids_distinct_lookup (products : list value) :
  ids_distinct products ->
  forall i j p q, i <> j -> products !! i = Some p -> products !! j = Some q ->
                  strict_eq (get p "id") (get q "id") = false.
Proof.
  unfold ids_distinct. rewrite pairwise_lookup.
  intros H i j p q Hij Hi Hj.
  destruct (Nat.lt_ge_cases i j) as [Hlt|Hge].
  - apply negb_true_iff. apply (H i j); auto.
  - destruct (strict_eq (get p "id") (get q "id")) eqn:He; auto.
    assert (Hqp : strict_eq (get q "id") (get p "id") = true)
      by (rewrite NumberFacts.strict_eq_sym; exact He).
    assert (Hno : negb (strict_eq (get q "id") (get p "id")) = true)
      by (apply (H j i); auto; lia).
    rewrite Hqp in Hno. discriminate.
Qed.

(** What the callback of the name check says about a product. *)
Lemma same_name_false (name p : value) :
  same_name name p = Next false -> same_lower name (get p "name") = false.
Proof.
  unfold same_name, get.
  destruct (prop p "name") as [pname| |]; simpl; try discriminate.
  destruct pname; simpl; try discriminate.
  destruct name; simpl; try discriminate.
  intros H. inversion H. rewrite String.eqb_sym. auto.
Qed.

Lemma same_name_true (name p : value) :
  same_name name p = Next true ->
  same_lower name (get p "name") = true /\ truthy p = true.
Proof.
  unfold same_name, get.
  destruct (prop p "name") as [pname| |] eqn:Hp; simpl; try discriminate.
  destruct pname; simpl; try discriminate.
  destruct name; simpl; try discriminate.
  intros H. injection H as H. split.
  - rewrite String.eqb_sym. exact H.
  - destruct p; simpl in Hp; try discriminate Hp; try (inversion Hp; fail).
    reflexivity.
Qed.

Lemma same_name_no_return (name p : value) (r : response) :
  same_name name p <> Return r.
Proof.
  unfold same_name.
  destruct (prop p "name") as [pname| |] eqn:Hp; simpl; try discriminate.
  - destruct pname; simpl; try discriminate.
    destruct name; simpl; discriminate.
  - intros H. eapply prop_no_return; eauto.
Qed.

Lemma not_admin_no_return (req : request) (r : response) :
  not_admin req <> Return r.
Proof.
  unfold not_admin. destruct (req_user req); discriminate.
Qed.

Lemma fields_of_no_return (v : value) (r : response) :
  fields_of v <> Return r.
Proof. destruct v; discriminate. Qed.

(** When the name check of create finds nothing, no product has the name. *)
Lemma same_name_none (name : value) (products : list value) (existing : value) :
  array_find (same_name name) products = Next existing ->
  truthy existing = false ->
  Forall (fun p => same_lower name (get p "name") = false) products.
Proof.
  intros Hfind Hfalsy.
  destruct (CreateFacts.array_find_found _ _ _ Hfind) as [[_ Hall]|[_ Hp]].
  - eapply Forall_impl; [exact Hall|]. intros p Hp. apply same_name_false. exact Hp.
  - apply same_name_true in Hp as [_ Ht]. congruence.
Qed.

(** Every run of create writes nothing, or answers 201 after calling
    [writeData] with the products followed by the new product, whose name no
    stored product has. *)
Lemma create_product_outcome (req : request) (w : world) :
  let products := loaded "products" w in
  let r := fst (create_product req w) in
  let w' := snd (create_product req w) in
  (written w' = written w
   /\ (w' = w \/ w' = snd (readData "products" w))
   /\ (status r = 400%nat \/ status r = 403%nat \/ status r = 500%nat))
  \/ (exists b product,
        fields_of (req_body req) = Next b
        /\ get product "name" = b "name"
        /\ Forall (fun p => same_lower (b "name") (get p "name") = false) products
        /\ r = Response 201 (VObj [("message", VStr "Product created successfully");
                                   ("product", product)])
        /\ written w' = written w ++ [("products", products ++ [product])]).
Proof.
  cbv zeta.
  unfold create_product, handler, create_product_body, bind, pure, respond, ret.
  destruct (not_admin req) as [[|]|r|] eqn:Hadmin;
    try (left; cbn; auto 6; fail).
  2:{ exfalso. eapply not_admin_no_return; eauto. }
  destruct (fields_of (req_body req)) as [b|r|] eqn:Hb;
    try (left; cbn; auto 6; fail).
  2:{ exfalso. eapply fields_of_no_return; eauto. }
  destruct (negb (truthy (b "name")) || negb (truthy (b "price"))
            || negb (truthy (b "category")) || negb (truthy (b "description")));
    try (left; cbn; auto 6; fail).
  destruct (js_le (b "price") 0); try (left; cbn; auto 6; fail).
  rewrite (StoreFacts.readData_loaded "products" w).
  destruct (StoreFacts.readData_clock "products" w) as (Hc & Hr & Hl).
  destruct (array_find (same_name (b "name")) (loaded "products" w))
    as [existing|r|] eqn:Hfind.
  2:{ exfalso. clear -Hfind. revert Hfind.
      induction (loaded "products" w) as [|p ps IH]; simpl; try discriminate.
      destruct (same_name (b "name") p) as [[|]|r'|] eqn:Hp; simpl;
        try discriminate; auto.
      intros _. eapply same_name_no_return; eauto. }
  2:{ left. cbn. auto 6. }
  destruct (truthy existing) eqn:Hex; [left; cbn; auto 6|].
  right.
  exists b, (newProduct b (clock w (reads w)) (clock w (S (reads w)))
               (clock w (S (S (reads w))))).
  unfold Date_now. cbn [fst snd fs clock reads written].
  rewrite !Hc, !Hr, !Hl.
  destruct (StoreFacts.writeData_next "products"
              (loaded "products" w ++
               [newProduct b (clock w (reads w)) (clock w (S (reads w)))
                  (clock w (S (S (reads w))))])
              (World (fs (snd (readData "products" w))) (clock w)
                 (S (S (S (reads w)))) (written w))) as [ok Hok].
  pose proof (StoreFacts.writeData_written "products"
              (loaded "products" w ++
               [newProduct b (clock w (reads w)) (clock w (S (reads w)))
                  (clock w (S (S (reads w))))])
              (World (fs (snd (readData "products" w))) (clock w)
                 (S (S (S (reads w)))) (written w))) as Hwr.
  destruct (writeData _ _ _) as [res w3]. cbn [fst snd written] in Hok, Hwr.
  subst res. cbn [fst snd].
  split; [reflexivity|].
  split; [reflexivity|].
  split; [eapply same_name_none; eauto|].
  split; [reflexivity|exact Hwr].
Qed.

(** The element [findIndex] points at satisfied the callback. *)
Lemma array_findIndex_found (pred : value -> flow bool) (xs : list value) :
  forall i, array_findIndex pred xs = Next (Some i) ->
  exists x, xs !! i = Some x /\ nth i xs VUndefined = x /\ pred x = Next true.
Proof.
  induction xs as [|x rest IH]; simpl; intros i H.
  - discriminate.
  - destruct (pred x) as [[|]|r|] eqn:Hx; simpl in H; try discriminate.
    + inversion H; subst. exists x. auto.
    + destruct (array_findIndex pred rest) as [[j|]|r|] eqn:Hr; simpl in H;
        try discriminate.
      inversion H; subst. destruct (IH j eq_refl) as (y & Hy & Hn & Hp).
      exists y. auto.
Qed.

Lemma array_findIndex_no_return (pred : value -> flow bool) (xs : list value) :
  (forall x r, pred x <> Return r) ->
  forall r, array_findIndex pred xs <> Return r.
Proof.
  intros Hp. induction xs as [|x rest IH]; simpl; intros r H.
  - discriminate.
  - destruct (pred x) as [[|]|r'|] eqn:Hx; simpl in H; try discriminate.
    + destruct (array_findIndex pred rest) as [o|r'|] eqn:Hr; simpl in H;
        try discriminate.
      eapply IH; eauto.
    + eapply Hp; eauto.
Qed.

Lemma array_find_no_return (pred : value -> flow bool) (xs : list value) :
  (forall x r, pred x <> Return r) ->
  forall r, array_find pred xs <> Return r.
Proof.
  intros Hp. induction xs as [|x rest IH]; simpl; intros r H.
  - discriminate.
  - destruct (pred x) as [[|]|r'|] eqn:Hx; simpl in H; try discriminate.
    + eapply IH; eauto.
    + eapply Hp; eauto.
Qed.

Lemma has_id_object (productId : float) (p : value) :
  has_id productId p = Next true ->
  strict_eq (get p "id") (VNum productId) = true
  /\ exists fields, p = VObj fields.
Proof.
  unfold has_id, get.
  destruct p; simpl; intros H; try discriminate H.
  injection H as H. split; eauto.
Qed.

Lemma name_taken_no_return (name : value) (productId : float) (p : value)
    (r : response) :
  name_taken name productId p <> Return r.
Proof.
  unfold name_taken.
  destruct (same_name name p) as [[|]|r'|] eqn:Hs; simpl; try discriminate.
  - destruct (prop p "id") eqn:Hp; simpl; try discriminate.
    intros H. eapply prop_no_return; eauto.
  - intros H. eapply same_name_no_return; eauto.
Qed.

(** When the rename check of update finds nothing, every product with the
    new name has the id of the request. *)
Lemma name_taken_none (name : value) (productId : float) (products : list value)
    (existing : value) :
  array_find (name_taken name productId) products = Next existing ->
  truthy existing = false ->
  Forall (fun p => same_lower name (get p "name") = false
                   \/ strict_eq (get p "id") (VNum productId) = true) products.
Proof.
  intros Hfind Hfalsy.
  destruct (CreateFacts.array_find_found _ _ _ Hfind) as [[_ Hall]|[_ Hp]].
  - eapply Forall_impl; [exact Hall|]. intros p Hp. cbv beta in Hp.
    unfold name_taken in Hp.
    destruct (same_name name p) as [[|]|r|] eqn:Hs; simpl in Hp; try discriminate.
    + right. unfold get.
      destruct (prop p "id"); simpl in Hp; try discriminate.
      inversion Hp. apply negb_false_iff in H0. exact H0.
    + left. apply same_name_false. exact Hs.
  - unfold name_taken in Hp.
    destruct (same_name name existing) as [[|]|r|] eqn:Hs; simpl in Hp;
      try discriminate.
    apply same_name_true in Hs as [_ Ht]. congruence.
Qed.

(** Every run of update writes nothing, or answers 200 after calling
    [writeData] with the products in which the one at the found index took
    the assignments. *)
Lemma update_product_outcome (req : request) (w : world) :
  let products := loaded "products" w in
  let r := fst (update_product req w) in
  let w' := snd (update_product req w) in
  (written w' = written w
   /\ (w' = w \/ w' = snd (readData "products" w))
   /\ (r = Response 403 (message "Access denied. Admin only.")
       \/ r = Response 500 (message "Error updating product")
       \/ r = Response 404 (message "Product not found")
       \/ (exists b, fields_of (req_body req) = Next b
                     /\ truthy (b "price") && js_le (b "price") 0 = true
                     /\ r = PriceError)
       \/ r = DuplicateNameError))
  \/ (exists b params i fields,
        fields_of (req_params req) = Next params
        /\ fields_of (req_body req) = Next b
        /\ products !! i = Some (VObj fields)
        /\ strict_eq (lookup_field "id" fields) (VNum (parseInt (params "id"))) = true
        /\ truthy (b "price") && js_le (b "price") 0 = false
        /\ (truthy (b "name") && negb (strict_eq (b "name") (lookup_field "name" fields))
            = false
            \/ Forall (fun p => same_lower (b "name") (get p "name") = false
                                \/ strict_eq (get p "id") (VNum (parseInt (params "id")))
                                   = true) products)
        /\ r = Response 200
                 (VObj [("message", VStr "Product updated successfully");
                        ("product", VObj (updated_fields b (clock w (reads w)) fields))])
        /\ written w'
           = written w
             ++ [("products",
                  <[i := VObj (updated_fields b (clock w (reads w)) fields)]> products)]).
Proof.
  cbv zeta.
  unfold update_product, handler, update_product_body, bind, pure, respond, ret.
  destruct (not_admin req) as [[|]|r|] eqn:Hadmin;
    try (left; cbn; auto 8; fail).
  2:{ exfalso. eapply not_admin_no_return; eauto. }
  destruct (fields_of (req_params req)) as [params|r|] eqn:Hparams;
    try (left; cbn; auto 8; fail).
  2:{ exfalso. eapply fields_of_no_return; eauto. }
  destruct (fields_of (req_body req)) as [b|r|] eqn:Hb;
    try (left; cbn; auto 8; fail).
  2:{ exfalso. eapply fields_of_no_return; eauto. }
  rewrite (StoreFacts.readData_loaded "products" w).
  destruct (StoreFacts.readData_clock "products" w) as (Hc & Hr & Hl).
  destruct (array_findIndex (has_id (parseInt (params "id"))) (loaded "products" w))
    as [[i|]|r|] eqn:Hidx; try (left; cbn; auto 8; fail).
  2:{ exfalso. eapply array_findIndex_no_return; eauto.
      intros x r'. unfold has_id. destruct x; discriminate. }
  destruct (array_findIndex_found _ _ _ Hidx) as (p & Hp & Hnth & Hid).
  destruct (has_id_object _ _ Hid) as (Hsame & fields & ->).
  rewrite Hnth.
  destruct (truthy (b "price") && js_le (b "price") 0) eqn:Hprice.
  { left. cbn. split; [auto|]. split; [auto|].
    do 3 right. left. exists b. auto. }
  cbn [prop flow_bind].
  match goal with
  | |- context [if ?c then array_find ?f ?l else Next VUndefined] =>
      destruct (if c then array_find f l else Next VUndefined)
        as [existing|r|] eqn:Hfind
  end.
  2:{ exfalso.
      destruct (truthy (b "name") && _); try discriminate.
      eapply array_find_no_return; eauto. apply name_taken_no_return. }
  2:{ left. cbn. auto 8. }
  destruct (truthy existing) eqn:Hex; [left; cbn; auto 8|].
  right. exists b, params, i, fields.
  unfold Date_now. cbn [fst snd fs clock reads written].
  rewrite !Hc, !Hr, !Hl.
  destruct (StoreFacts.writeData_next "products"
              (<[i := VObj (updated_fields b (clock w (reads w)) fields)]>
                 (loaded "products" w))
              (World (fs (snd (readData "products" w))) (clock w)
                 (S (reads w)) (written w))) as [ok Hok].
  pose proof (StoreFacts.writeData_written "products"
              (<[i := VObj (updated_fields b (clock w (reads w)) fields)]>
                 (loaded "products" w))
              (World (fs (snd (readData "products" w))) (clock w)
                 (S (reads w)) (written w))) as Hwr.
  destruct (writeData _ _ _) as [res w3]. cbn [fst snd written] in Hok, Hwr.
  subst res. cbn [fst snd].
  repeat (split; [first [reflexivity|assumption]|]).
  split; [|split; [reflexivity|exact Hwr]].
  destruct (truthy (b "name") && negb (strict_eq (b "name") (lookup_field "name" fields)))
    eqn:Hname; auto.
  right. eapply name_taken_none; eauto.
Qed.

(** The name and the price of a product after the assignments of update. *)
Lemma updated_name (b : string -> value) (t : float) (fields : list (string * value)) :
  lookup_field "name" (updated_fields b t fields)
  = if truthy (b "name") then b "name" else lookup_field "name" fields.
Proof.
  unfold updated_fields, assign_if.
  destruct (b "featured"), (truthy (b "image")), (truthy (b "description")),
    (truthy (b "category")), (truthy (b "price")), (truthy (b "name"));
    repeat first [rewrite lookup_set_eq | rewrite lookup_set_ne by reflexivity];
    reflexivity.
Qed.

Lemma updated_price (b : string -> value) (t : float) (fields : list (string * value)) :
  lookup_field "price" (updated_fields b t fields)
  = if truthy (b "price") then VNum (parseFloat (b "price"))
    else lookup_field "price" fields.
Proof.
  unfold updated_fields, assign_if.
  destruct (b "featured"), (truthy (b "image")), (truthy (b "description")),
    (truthy (b "category")), (truthy (b "price")), (truthy (b "name"));
    repeat first [rewrite lookup_set_eq | rewrite lookup_set_ne by reflexivity];
    reflexivity.
Qed.

Lemma updated_stamp (b : string -> value) (t : float) (fields : list (string * value)) :
  lookup_field "updatedAt" (updated_fields b t fields) = VStr (Date_toISOString t).
Proof.
  unfold updated_fields. apply lookup_set_eq.
Qed.

(** Values that are [===] have the same name in lower case. *)
Lemma strict_eq_same_lower (a c x : value) :
  strict_eq a c = true -> same_lower a x = same_lower c x.
Proof.
  destruct a, c; simpl; try discriminate; auto.
  intros H. apply String.eqb_eq in H. subst. reflexivity.
Qed.

(** Adding a product whose name no product has keeps the names distinct. *)
Lemma names_distinct_snoc (products : list value) (product : value) :
  names_distinct products ->
  Forall (fun p => same_lower (get product "name") (get p "name") = false) products ->
  names_distinct (products ++ [product]).
Proof.
  unfold names_distinct.
  induction products as [|a l IH]; simpl; auto.
  rewrite !andb_true_iff. intros [Ha Hl] Hall.
  inversion Hall as [|? ? Hhd Htl]; subst.
  split; [|apply IH; auto].
  rewrite forallb_app. rewrite Ha. simpl.
  rewrite same_lower_sym, Hhd. reflexivity.
Qed.

(** Replacing a product by one whose name no other product has keeps the
    names distinct. *)
Lemma names_distinct_insert (products : list value) (i : nat) (product : value) :
  names_distinct products ->
  (forall j q, j <> i -> products !! j = Some q ->
               same_lower (get product "name") (get q "name") = false) ->
  names_distinct (<[i := product]> products).
Proof.
  rewrite !names_distinct_lookup. intros Hd Hnew j k p q Hjk Hj Hk.
  destruct (decide (j = i)) as [->|Hji]; destruct (decide (k = i)) as [->|Hki].
  - congruence.
  - rewrite list_lookup_insert_ne in Hk by auto.
    apply list_lookup_insert_Some in Hj as [(_ & <- & _)|[? _]]; [|congruence].
    eapply Hnew; eauto.
  - rewrite list_lookup_insert_ne in Hj by auto.
    apply list_lookup_insert_Some in Hk as [(_ & <- & _)|[? _]]; [|congruence].
    rewrite same_lower_sym. eapply Hnew; eauto.
  - rewrite list_lookup_insert_ne in Hj, Hk by auto.
    apply (Hd j k); auto.
Qed.

End Names.
End ProductFacts.

Section CatalogClaims.
Import JS Http Store Products ListFacts ProductFacts.
Context {rt : Runtime}.

(** With String names in the catalog, the callback of the name check does
    not throw on a String. *)
Lemma same_name_total (name : string) (p : value) :
  match prop p "name" with Next (VStr _) => true | _ => false end = true ->
  same_name (VStr name) p = Next (same_lower (VStr name) (get p "name")).
Proof.
  unfold same_name, get.
  destruct (prop p "name") as [[]| |]; simpl; try discriminate.
  intros _. rewrite String.eqb_sym. reflexivity.
Qed.

Lemma find_same_name (name : string) (products : list value) :
  names_are_strings products ->
  Exists (fun p => same_lower (VStr name) (get p "name") = true) products ->
  exists p, array_find (same_name (VStr name)) products = Next p /\ truthy p = true.
Proof.
  unfold names_are_strings.
  induction products as [|a l IH]; intros Hs Hex.
  - inversion Hex.
  - cbn [forallb] in Hs. apply andb_true_iff in Hs as [Ha Hl].
    cbn [array_find]. rewrite (same_name_total name a Ha). cbn [flow_bind].
    destruct (same_lower (VStr name) (get a "name")) eqn:Hsame.
    + exists a. split; [reflexivity|].
      destruct a; simpl in Ha; try discriminate; reflexivity.
    + apply IH; auto. inversion Hex; subst; auto. congruence.
Qed.

Lemma find_name_taken (name : string) (productId : float) (products : list value) :
  names_are_strings products ->
  Exists (fun p => same_lower (VStr name) (get p "name") = true
                   /\ strict_eq (get p "id") (VNum productId) = false) products ->
  exists p, array_find (name_taken (VStr name) productId) products = Next p
            /\ truthy p = true.
Proof.
  unfold names_are_strings.
  induction products as [|a l IH]; intros Hs Hex.
  - inversion Hex.
  - cbn [forallb] in Hs. apply andb_true_iff in Hs as [Ha Hl].
    cbn [array_find]. unfold name_taken at 1.
    rewrite (same_name_total name a Ha). cbn [flow_bind].
    assert (Hobj : prop a "id" = Next (get a "id")).
    { unfold get. destruct a; simpl in Ha; try discriminate; reflexivity. }
    destruct (same_lower (VStr name) (get a "name")) eqn:Hsame.
    + rewrite Hobj. cbn [flow_bind].
      destruct (strict_eq (get a "id") (VNum productId)) eqn:Hid; cbn [negb].
      * apply IH; auto. inversion Hex as [? ? [_ Hno]|]; subst; auto. congruence.
      * exists a. split; [reflexivity|].
        destruct a; simpl in Ha; try discriminate; reflexivity.
    + cbn [flow_bind]. apply IH; auto.
      inversion Hex as [? ? [Hyes _]|]; subst; auto. congruence.
Qed.

(** Reading a collection that has records changes nothing. *)
Lemma readData_nonempty (filename : string) (w : world) (x : value) :
  In x (loaded filename w) -> snd (readData filename w) = w.
Proof.
  intros Hin. apply StoreFacts.readData_existing.
  rewrite StoreFacts.loaded_stored in Hin.
  destruct (stored filename w); eauto. destruct Hin.
Qed.

Lemma create_product_duplicate (req : request) (w : world)
    (b : string -> value) (name : string) :
  not_admin req = Next false ->
  fields_of (req_body req) = Next b ->
  b "name" = VStr name ->
  truthy (b "name") = true -> truthy (b "price") = true ->
  truthy (b "category") = true -> truthy (b "description") = true ->
  js_le (b "price") 0 = false ->
  names_are_strings (loaded "products" w) ->
  Exists (fun p => same_lower (VStr name) (get p "name") = true)
         (loaded "products" w) ->
  create_product req w = (DuplicateNameError, w).
Proof.
  intros Hadmin Hb Hname Ht1 Ht2 Ht3 Ht4 Hprice Hstr Hex.
  destruct (find_same_name name _ Hstr Hex) as (p & Hfind & Hp).
  assert (Hw : snd (readData "products" w) = w).
  { apply Exists_exists in Hex as (x & Hx & _).
    apply (readData_nonempty "products" w x). apply list_elem_of_In. exact Hx. }
  unfold create_product, handler, create_product_body, bind, pure, respond, ret.
  rewrite Hadmin, Hb, Ht1, Ht2, Ht3, Ht4, Hprice. cbn [negb orb].
  rewrite (StoreFacts.readData_loaded "products" w), Hw.
  rewrite Hname, Hfind, Hp. reflexivity.
Qed.

Lemma update_product_duplicate (req : request) (w : world)
    (b params : string -> value) (name : string) (i : nat) :
  not_admin req = Next false ->
  fields_of (req_params req) = Next params ->
  fields_of (req_body req) = Next b ->
  b "name" = VStr name ->
  truthy (b "name") = true ->
  array_findIndex (has_id (parseInt (params "id"))) (loaded "products" w)
    = Next (Some i) ->
  truthy (b "price") && js_le (b "price") 0 = false ->
  strict_eq (VStr name) (get (nth i (loaded "products" w) VUndefined) "name") = false ->
  names_are_strings (loaded "products" w) ->
  Exists (fun p => same_lower (VStr name) (get p "name") = true
                   /\ strict_eq (get p "id") (VNum (parseInt (params "id"))) = false)
         (loaded "products" w) ->
  update_product req w = (DuplicateNameError, w).
Proof.
  intros Hadmin Hparams Hb Hname Ht Hidx Hprice Hne Hstr Hex.
  destruct (find_name_taken name _ _ Hstr Hex) as (p & Hfind & Hp).
  assert (Hw : snd (readData "products" w) = w).
  { apply Exists_exists in Hex as (x & Hx & _).
    apply (readData_nonempty "products" w x). apply list_elem_of_In. exact Hx. }
  destruct (array_findIndex_found _ _ _ Hidx) as (x & Hx & Hnth & Hid).
  destruct (has_id_object _ _ Hid) as (_ & fields & ->).
  unfold update_product, handler, update_product_body, bind, pure, respond, ret.
  rewrite Hadmin, Hparams, Hb.
  rewrite (StoreFacts.readData_loaded "products" w), Hw.
  rewrite Hidx, Hprice, Hnth. cbn [prop].
  rewrite Hnth in Hne. unfold get in Hne. cbn [prop] in Hne.
  rewrite Ht, Hname, Hne. cbn [negb andb].
  rewrite Hfind, Hp. reflexivity.
Qed.

(** What the two name checks do achieve.  Between products whose names are
    pairwise distinct without regard to case, every creation keeps them so,
    and so does every update when the ids of the stored products are
    pairwise distinct: whatever either handler hands to [writeData] is the
    products collection with names pairwise distinct.  For an admin whose
    request passes the checks made before the name check, in a catalog whose
    names are Strings, a create whose name is, without regard to case, the
    name of a stored product, and an update that renames to a name held by a
    product with another id, is answered with [DuplicateNameError] and leaves
    the world as it was.  Creation does not keep the ids pairwise distinct --
    an id is a reading of the clock --, and the update's check tells products
    apart by id only. *)
Theorem product_names_preserved (req : request) (w : world) :
  let products := loaded "products" w in
  names_distinct products ->
  (exists news,
     written (snd (create_product req w)) = written w ++ news
     /\ Forall (fun e => fst e = "products" /\ names_distinct (snd e)) news)
  /\ (ids_distinct products ->
      exists news,
        written (snd (update_product req w)) = written w ++ news
        /\ Forall (fun e => fst e = "products" /\ names_distinct (snd e)) news)
  /\ (forall (b : string -> value) (name : string),
        not_admin req = Next false ->
        fields_of (req_body req) = Next b ->
        b "name" = VStr name ->
        truthy (b "name") = true -> truthy (b "price") = true ->
        truthy (b "category") = true -> truthy (b "description") = true ->
        js_le (b "price") 0 = false ->
        names_are_strings products ->
        Exists (fun p => same_lower (VStr name) (get p "name") = true) products ->
        create_product req w = (DuplicateNameError, w))
  /\ (forall (b params : string -> value) (name : string) (i : nat),
        not_admin req = Next false ->
        fields_of (req_params req) = Next params ->
        fields_of (req_body req) = Next b ->
        b "name" = VStr name ->
        truthy (b "name") = true ->
        array_findIndex (has_id (parseInt (params "id"))) products = Next (Some i) ->
        truthy (b "price") && js_le (b "price") 0 = false ->
        strict_eq (VStr name) (get (nth i products VUndefined) "name") = false ->
        names_are_strings products ->
        Exists (fun p => same_lower (VStr name) (get p "name") = true
                         /\ strict_eq (get p "id") (VNum (parseInt (params "id")))
                            = false) products ->
        update_product req w = (DuplicateNameError, w)).
Proof.
  intros products Hdistinct.
  split; [|split; [|split]].
  - destruct (create_product_outcome req w)
      as [(Hw & _ & _)|(b & product & Hb & Hname & Hall & _ & Hw)].
    + exists []. rewrite app_nil_r. split; [exact Hw|constructor].
    + exists [("products", products ++ [product])]. split; [exact Hw|].
      constructor; [|constructor]. split; [reflexivity|].
      apply names_distinct_snoc; auto. rewrite Hname. exact Hall.
  - intros Hids.
    destruct (update_product_outcome req w)
      as [(Hw & _ & _)|(b & params & i & fields & _ & _ & Hi & Hid & _ & Hname & _ & Hw)].
    + exists []. rewrite app_nil_r. split; [exact Hw|constructor].
    + eexists. split; [exact Hw|].
      constructor; [|constructor]. split; [reflexivity|].
      apply names_distinct_insert; auto.
      intros j q Hji Hj.
      assert (Hold : same_lower (lookup_field "name" fields) (get q "name") = false).
      { rewrite names_distinct_lookup in Hdistinct.
        apply (Hdistinct i j (VObj fields) q); auto. }
      unfold get at 1. cbn [prop]. rewrite updated_name.
      destruct (truthy (b "name")) eqn:Ht; [|exact Hold].
      destruct (strict_eq (b "name") (lookup_field "name" fields)) eqn:Hsame.
      * rewrite (strict_eq_same_lower _ _ _ Hsame). exact Hold.
      * destruct Hname as [Hname|Hname]; [discriminate Hname|].
        rewrite Forall_forall in Hname.
        assert (Hin : q ∈ loaded "products" w)
          by (eapply list_elem_of_lookup_2; eauto).
        destruct (Hname q Hin) as [Hq|Hq]; [exact Hq|].
        exfalso.
        pose proof (ids_distinct_lookup _ Hids j i q (VObj fields) Hji Hj Hi) as Hne.
        unfold get at 2 in Hne. cbn [prop] in Hne.
        rewrite (NumberFacts.strict_eq_common _ _ _ Hq Hid) in Hne.
        discriminate.
  - intros. eapply create_product_duplicate; eauto.
  - intros. eapply update_product_duplicate; eauto.
Qed.

Lemma map_insert_same {A B : Type} (f : A -> B) (l : list A) (i : nat) (x y : A) :
  l !! i = Some x -> f y = f x -> List.map f (<[i := y]> l) = List.map f l.
Proof.
  revert i. induction l as [|a l IH]; intros i Hi Hf.
  - reflexivity.
  - destruct i as [|i]; simpl in *.
    + inversion Hi; subst. rewrite Hf. reflexivity.
    + rewrite (IH i); auto.
Qed.

(** C10.  An update by an admin whose [price] is 0 is not refused for its
    price -- the only 400 it can get is [DuplicateNameError] -- and, when it
    succeeds, the product it answers with and hands to [writeData] has the
    price it had and, as [updatedAt], the stamp of the clock: the prices of
    the products written are those that were read.  When it does not succeed
    nothing is written. *)
Theorem update_price_zero (req : request) (w : world) (b : string -> value) (x : float) :
  not_admin req = Next false ->
  fields_of (req_body req) = Next b ->
  b "price" = VNum x ->
  PrimFloat.eqb x 0 = true ->
  let products := loaded "products" w in
  let r := fst (update_product req w) in
  let w' := snd (update_product req w) in
  r <> PriceError
  /\ (status r = 400%nat -> r = DuplicateNameError)
  /\ (status r <> 200%nat -> written w' = written w)
  /\ (status r = 200%nat ->
      exists i fields,
        products !! i = Some (VObj fields)
        /\ let product := VObj (updated_fields b (clock w (reads w)) fields) in
           get (body r) "product" = product
           /\ get product "price" = lookup_field "price" fields
           /\ get product "updatedAt" = VStr (Date_toISOString (clock w (reads w)))
           /\ written w' = written w ++ [("products", <[i := product]> products)]
           /\ List.map (fun p => get p "price") (<[i := product]> products)
              = List.map (fun p => get p "price") products).
Proof.
  intros Hadmin Hb Hprice Hzero products r w'.
  assert (Hfalsy : truthy (b "price") = false).
  { rewrite Hprice. simpl. unfold PrimFloat.is_zero.
    change PrimFloat.zero with 0%float. rewrite Hzero. reflexivity. }
  destruct (update_product_outcome req w) as [(Hw & _ & Hr)|Hok].
  - fold r w' in Hw, Hr.
    assert (Hcases : r = Response 403 (message "Access denied. Admin only.")
                     \/ r = Response 500 (message "Error updating product")
                     \/ r = Response 404 (message "Product not found")
                     \/ r = DuplicateNameError).
    { destruct Hr as [Hr|[Hr|[Hr|[(b' & Hb' & Hc & _)|Hr]]]]; auto.
      rewrite Hb in Hb'. inversion Hb'; subst b'.
      rewrite Hfalsy in Hc. discriminate. }
    repeat split.
    + destruct Hcases as [-> | [-> | [-> | ->]]]; discriminate.
    + destruct Hcases as [-> | [-> | [-> | ->]]]; try discriminate; auto.
    + auto.
    + destruct Hcases as [-> | [-> | [-> | ->]]]; discriminate.
  - destruct Hok as (b' & params & i & fields & _ & Hb' & Hi & _ & _ & _ & Hr & Hw).
    rewrite Hb in Hb'. inversion Hb'; subst b'. fold r in Hr. fold w' in Hw.
    repeat split.
    + rewrite Hr. discriminate.
    + rewrite Hr. discriminate.
    + rewrite Hr. intros Hne. exfalso. apply Hne. reflexivity.
    + intros _. exists i, fields. split; [exact Hi|]. cbv zeta.
      split; [rewrite Hr; reflexivity|].
      assert (Hp : get (VObj (updated_fields b (clock w (reads w)) fields)) "price"
                   = lookup_field "price" fields).
      { unfold get. cbn [prop]. rewrite updated_price, Hfalsy. reflexivity. }
      split; [exact Hp|].
      split; [unfold get; cbn [prop]; apply updated_stamp|].
      split; [exact Hw|].
      apply (map_insert_same _ _ _ (VObj fields)); auto.
Qed.

End CatalogClaims.

(** *** Listings and statistics, on the sample shop *)

Section ListingRuns.
Import JS Http Store Orders Sample.

(** The customer with id 7 lists their orders: the third and the first. *)
Lemma my_orders_scoped_witness :
  let r := fst (my_orders (rt := Node.runtime) (get_as customer [])
                  (world_of trading steady)) in
  returned_orders r = [third_order; first_order]
  /\ strict_eq (get third_order "userId") (get customer "userId") = true
  /\ fst (list_orders (rt := Node.runtime) (get_as customer [])
            (world_of trading steady))
     = Response 403 (message "Access denied. Admin only.").
Proof.
  cbv zeta.
  destruct (@my_orders_scoped Node.runtime (get_as customer [])
              (world_of trading steady)) as [Hmine Hall].
  split; [vm_compute; reflexivity|]. split.
  - apply Hmine. vm_compute. left. reflexivity.
  - rewrite Hall; reflexivity.
Defined.

(** The statistics of the three orders, and of a shop without orders. *)
Lemma stats_summary_average_witness :
  let r := fst (stats_summary (rt := Node.runtime) (get_as admin [])
                  (world_of trading steady)) in
  get (body r) "totalOrders" = VNum 3
  /\ get (body r) "averageOrderValue"
     = VNum (js_div (rt := Node.runtime) (get (body r) "totalRevenue") (VNum 3))
  /\ get (body (fst (stats_summary (rt := Node.runtime) (get_as admin [])
                       (world_of shop steady)))) "averageOrderValue" = VNum 0.
Proof.
  cbv zeta.
  destruct (@stats_summary_average Node.runtime (get_as admin [])
              (world_of trading steady) eq_refl) as [_ Havg].
  destruct (@stats_summary_average Node.runtime (get_as admin [])
              (world_of shop steady) eq_refl) as [Hzero _].
  split; [vm_compute; reflexivity|]. split.
  - cbv zeta in Havg. rewrite Havg; vm_compute; reflexivity.
  - rewrite Hzero; vm_compute; reflexivity.
Defined.

(** An admin lists with [limit=0]. *)
Lemma list_limit_zero_witness :
  let req := get_as admin [("limit", VStr "0")] in
  let w := world_of trading steady in
  zero_page (body (fst (list_orders (rt := Node.runtime) req w))) "orders"
  /\ zero_page (body (fst (my_orders (rt := Node.runtime) req w))) "orders"
  /\ zero_page (body (fst (Products.list_products (rt := Node.runtime) req w))) "products".
Proof.
  cbv zeta.
  destruct (@list_limit_zero Node.runtime (get_as admin [("limit", VStr "0")])
              (world_of trading steady)
              (fun k => get (VObj [("limit", VStr "0")]) k) eq_refl)
    as (Hall & Hmine & Hproducts).
  split; [|split].
  - apply (Hall eq_refl eq_refl). vm_compute. reflexivity.
  - apply (Hmine eq_refl). vm_compute. reflexivity.
  - apply (Hproducts eq_refl eq_refl). vm_compute. reflexivity.
Defined.

(** With [limit=0] the listings answer 200, with an empty page and
    [Infinity] pages: there is no [InvalidQueryError]. *)
Lemma list_limit_zero_counterexample :
  let req := get_as admin [("limit", VStr "0")] in
  let w := world_of trading steady in
  fst (list_orders (rt := Node.runtime) req w)
  = Response 200 (VObj [("orders", VArr []); ("total", VNum 3); ("page", VNum 1);
                        ("pageSize", VNum 0); ("totalPages", VNum PrimFloat.infinity)])
  /\ fst (Products.list_products (rt := Node.runtime) req w)
     = Response 200 (VObj [("products", VArr []); ("total", VNum 2); ("page", VNum 1);
                           ("pageSize", VNum 0);
                           ("totalPages", VNum PrimFloat.infinity)]).
Proof.
  cbv zeta. split; vm_compute; reflexivity.
Qed.

End ListingRuns.

(** *** The catalog, on the sample shop *)

Section CatalogRuns.
Import JS Http Store Products Sample.

(** An admin creates a product named "WIDGET" in the shop that has a
    "Widget", and one named "Gizmo". *)
Lemma product_names_preserved_witness :
  let w := world_of shop steady in
  create_product (rt := Node.runtime) (post_as admin (product_body "WIDGET" 5)) w
  = (DuplicateNameError, w)
  /\ exists news,
       written (snd (create_product (rt := Node.runtime)
                       (post_as admin (product_body "Gizmo" 5)) w)) = news
       /\ Forall (fun e => fst e = "products"
                           /\ names_distinct (rt := Node.runtime) (snd e)) news
       /\ length news = 1%nat.
Proof.
  cbv zeta. split.
  - destruct (@product_names_preserved Node.runtime
                (post_as admin (product_body "WIDGET" 5)) (world_of shop steady)
                eq_refl) as (_ & _ & Hdup & _).
    apply (Hdup (fun k => get (product_body "WIDGET" 5) k) "WIDGET");
      try reflexivity.
    apply Exists_cons_hd. reflexivity.
  - destruct (@product_names_preserved Node.runtime
                (post_as admin (product_body "Gizmo" 5)) (world_of shop steady)
                eq_refl) as ((news & Hw & Hall) & _).
    exists news. split; [exact Hw|]. split; [exact Hall|].
    apply (f_equal (@length _)) in Hw. vm_compute in Hw.
    exact (eq_sym Hw).
Defined.

(** C7, at an update in a catalog where two products share an id.  In an
    empty shop, under a clock that does not advance, an admin creates "Alpha"
    and "Beta" -- both get the id 1700000000000 -- and then renames the
    product with that id to "beta".  The names were pairwise distinct before
    the update; the update renames "Alpha", the product it finds under that
    id, and is answered 200 where [DuplicateNameError] is due; the world is
    changed, and the stored collection then holds "beta" and "Beta", two
    names that are the same without regard to case. *)
Theorem update_product_rename_accepted :
  let w0 := world_of empty_shop steady in
  let w1 := snd (create_product (rt := Node.runtime)
                   (post_as admin (product_body "Alpha" 5)) w0) in
  let w2 := snd (create_product (rt := Node.runtime)
                   (post_as admin (product_body "Beta" 5)) w1) in
  let update := put_as admin "1700000000000" (VObj [("name", VStr "beta")]) in
  let w3 := snd (update_product (rt := Node.runtime) update w2) in
  List.map (fun p => get p "name") (loaded "products" w2) = [VStr "Alpha"; VStr "Beta"]
  /\ List.map (fun p => get p "id") (loaded "products" w2)
     = [VNum 1700000000000; VNum 1700000000000]
  /\ names_distinct (rt := Node.runtime) (loaded "products" w2)
  /\ status (fst (update_product (rt := Node.runtime) update w2)) = 200%nat
  /\ update_product (rt := Node.runtime) update w2 <> (DuplicateNameError, w2)
  /\ List.map (fun p => get p "name") (loaded "products" w3)
     = [VStr "beta"; VStr "Beta"]
  /\ pairwise (fun p q => negb (same_lower (rt := Node.runtime)
                                  (get p "name") (get q "name")))
       (loaded "products" w3) = false.
Proof.
  cbv zeta.
  split; [vm_compute; reflexivity|].
  split; [vm_compute; reflexivity|].
  split; [vm_compute; reflexivity|].
  split; [vm_compute; reflexivity|].
  split; [|split; vm_compute; reflexivity].
  intros H. apply (f_equal (fun r => status (fst r))) in H.
  vm_compute in H. discriminate.
Qed.

(** An admin updates the widget with a price of 0 and a new description. *)
Lemma update_price_zero_witness :
  let req := put_as admin "1" (VObj [("price", VNum 0);
                                     ("description", VStr "A better widget")]) in
  let r := fst (update_product (rt := Node.runtime) req (world_of shop ticking)) in
  status r = 200%nat
  /\ get (get (body r) "product") "price" = VNum 9.99
  /\ get (get (body r) "product") "description" = VStr "A better widget"
  /\ get (get (body r) "product") "updatedAt" = VStr "2023-11-14T22:13:20.000Z".
Proof.
  cbv zeta.
  destruct (@update_price_zero Node.runtime
              (put_as admin "1" (VObj [("price", VNum 0);
                                       ("description", VStr "A better widget")]))
              (world_of shop ticking)
              (fun k => get (VObj [("price", VNum 0);
                                   ("description", VStr "A better widget")]) k)
              0%float eq_refl eq_refl eq_refl eq_refl)
    as (_ & _ & _ & Hok).
  assert (Hst : status (fst (update_product (rt := Node.runtime)
                  (put_as admin "1" (VObj [("price", VNum 0);
                                           ("description", VStr "A better widget")]))
                  (world_of shop ticking))) = 200%nat)
    by (vm_compute; reflexivity).
  split; [exact Hst|].
  destruct (Hok Hst) as (i & fields & _ & Hproduct & _).
  repeat split; vm_compute; reflexivity.
Defined.

End CatalogRuns.

(** ** One order: lookups by id *)

Module OrderFacts.
Import JS Http Store Orders ListFacts ProductFacts.
Local Open Scope js_scope.

(** [findIndex] stops at the first element the callback accepts. *)
Lemma array_findIndex_first (pred : value -> flow bool) (xs : list value) :
  forall i, array_findIndex pred xs = Next (Some i) ->
  forall j y, (j < i)%nat -> xs !! j = Some y -> pred y = Next false.
Proof.
  induction xs as [|x rest IH]; simpl; intros i H j y Hj Hy.
  - discriminate.
  - destruct (pred x) as [b| |] eqn:Hx; simpl in H; try discriminate.
    destruct b.
    + injection H as <-. lia.
    + destruct (array_findIndex pred rest) as [[k|]| |] eqn:Hr; simpl in H;
        try discriminate.
      injection H as <-.
      destruct j as [|j]; simpl in Hy.
      * injection Hy as <-. exact Hx.
      * apply (IH k eq_refl j y); [lia|exact Hy].
Qed.

Lemma array_findIndex_none (pred : value -> flow bool) (xs : list value) :
  array_findIndex pred xs = Next None ->
  Forall (fun y => pred y = Next false) xs.
Proof.
  induction xs as [|x rest IH]; simpl; intros H.
  - constructor.
  - destruct (pred x) as [b| |] eqn:Hx; simpl in H; try discriminate.
    destruct b; [discriminate|].
    destruct (array_findIndex pred rest) as [[k|]| |] eqn:Hr; simpl in H;
      try discriminate.
    constructor; auto.
Qed.

(** [find] stops where [findIndex] does. *)
Lemma array_find_at (pred : value -> flow bool) (xs : list value) (i : nat) (x : value) :
  xs !! i = Some x -> pred x = Next true ->
  (forall j y, (j < i)%nat -> xs !! j = Some y -> pred y = Next false) ->
  array_find pred xs = Next x /\ array_findIndex pred xs = Next (Some i).
Proof.
  revert i. induction xs as [|a rest IH]; intros i Hi Hx Hbefore.
  - discriminate.
  - destruct i as [|i]; simpl in Hi.
    + injection Hi as ->. simpl. rewrite Hx. simpl. auto.
    + simpl. rewrite (Hbefore O a) by (simpl; auto; lia). simpl.
      destruct (IH i Hi Hx) as [-> ->].
      * intros j y Hj Hy. apply (Hbefore (S j) y); [lia|exact Hy].
      * simpl. auto.
Qed.

Lemma array_find_none (pred : value -> flow bool) (xs : list value) :
  Forall (fun y => pred y = Next false) xs ->
  array_find pred xs = Next VUndefined /\ array_findIndex pred xs = Next None.
Proof.
  induction 1 as [|a rest Ha _ [IH1 IH2]]; simpl; auto.
  rewrite Ha. simpl. rewrite IH1, IH2. auto.
Qed.

Section Routes.
Context {rt : Runtime}.

(** The element a lookup by id stops at is an object with that id. *)
Lemma has_id_true (orderId : float) (o : value) :
  has_id orderId o = Next true ->
  strict_eq (get o "id") (VNum orderId) = true /\ exists fields, o = VObj fields.
Proof.
  unfold has_id, get. destruct o; simpl; try discriminate.
  intros H. injection H as H. eauto.
Qed.

Lemma has_id_false (orderId : float) (o : value) :
  has_id orderId o = Next false -> strict_eq (get o "id") (VNum orderId) = false.
Proof.
  unfold has_id, get. destruct o; simpl; try discriminate; intros H;
    first [injection H as H; exact H | reflexivity].
Qed.

Lemma has_id_no_return (orderId : float) (o : value) (r : response) :
  has_id orderId o <> Return r.
Proof. unfold has_id. destruct o; discriminate. Qed.

Lemma not_permitted_no_return (req : request) (order : value) (r : response) :
  not_permitted req order <> Return r.
Proof.
  unfold not_permitted. destruct (req_user req) as [| | | | | |u]; simpl; try discriminate.
  all: try (destruct order; discriminate).
  destruct (negb _); [|discriminate]. destruct order; discriminate.
Qed.

Lemma not_admin_flow (req : request) (r : response) : not_admin req <> Return r.
Proof. unfold not_admin. destruct (req_user req); discriminate. Qed.

(** The role of a caller who passes the admin check. *)
Lemma not_admin_false (req : request) :
  not_admin req = Next false ->
  strict_eq (get (req_user req) "role") (VStr "admin") = true.
Proof.
  unfold not_admin, get. destruct (prop (req_user req) "role"); simpl; try discriminate.
  intros H. injection H as H. destruct (strict_eq a (VStr "admin")); auto.
Qed.

(** What [router.get('/:id')] does, step by step. *)
Lemma get_order_run (req : request) (w : world) :
  get_order req w =
    match prop (req_params req) "id" with
    | Next id =>
        let w1 := snd (readData "orders" w) in
        match array_find (has_id (parseInt id)) (loaded "orders" w) with
        | Next order =>
            if negb (truthy order) then (Response 404 (message "Order not found"), w1)
            else match not_permitted req order with
                 | Next true => (Response 403 (message "Access denied"), w1)
                 | Next false => (Response 200 order, w1)
                 | _ => (Response 500 (message "Error fetching order"), w1)
                 end
        | _ => (Response 500 (message "Error fetching order"), w1)
        end
    | _ => (Response 500 (message "Error fetching order"), w)
    end.
Proof.
  unfold get_order, handler, get_order_body, bind, pure, ret, respond.
  destruct (prop (req_params req) "id") as [id|r|] eqn:Hid; try reflexivity.
  2:{ exfalso. eapply prop_no_return; eauto. }
  rewrite (StoreFacts.readData_loaded "orders" w). cbn [fst snd].
  destruct (array_find (has_id (parseInt id)) (loaded "orders" w)) as [order|r|] eqn:Hf;
    try reflexivity.
  2:{ exfalso. eapply array_find_no_return; eauto. intros; apply has_id_no_return. }
  destruct (negb (truthy order)); [reflexivity|].
  destruct (not_permitted req order) as [[|]|r|] eqn:Hp; try reflexivity.
  exfalso. eapply not_permitted_no_return; eauto.
Qed.

End Routes.
End OrderFacts.

(** ** One order: the runs of the routes that change it *)

Module OrderRuns.
Import JS Http Store Orders ListFacts ProductFacts OrderFacts.
Local Open Scope js_scope.

(** [writeData] leaves the other collections alone. *)
Lemma writeData_other (filename other : string) (data : list value) (w : world) :
  other <> filename ->
  stored other (snd (writeData filename data w)) = stored other w.
Proof.
  intros Hne. unfold writeData, stored, record_write, writeFileSync, mkdirSync, set_fs.
  destruct w as [[dir ro fl] c n l]; cbn [fs data_dir read_only files].
  destruct dir; cbn.
  - destruct ro; cbn; [reflexivity|].
    rewrite lookup_insert_ne by congruence. reflexivity.
  - destruct ro; cbn; [reflexivity|].
    rewrite lookup_insert_ne by congruence. reflexivity.
Qed.

Lemma writeData_clock (filename : string) (data : list value) (w : world) :
  clock (snd (writeData filename data w)) = clock w
  /\ reads (snd (writeData filename data w)) = reads w.
Proof.
  unfold writeData, record_write, writeFileSync, mkdirSync, set_fs.
  destruct w as [[dir ro fl] c n l]; cbn [fs data_dir read_only files].
  destruct dir, ro; cbn; auto.
Qed.

(** What [readData] returns after a write that succeeded. *)
Lemma writeData_loaded (filename : string) (data : list value) (w : world) :
  read_only (fs w) = false ->
  loaded filename (snd (writeData filename data w)) = stored_form data.
Proof.
  intros Hro. rewrite StoreFacts.loaded_stored.
  rewrite StoreFacts.writeData_stored by exact Hro. reflexivity.
Qed.

Lemma writeData_loaded_other (filename other : string) (data : list value) (w : world) :
  other <> filename ->
  loaded other (snd (writeData filename data w)) = loaded other w.
Proof.
  intros Hne. rewrite !StoreFacts.loaded_stored, writeData_other by exact Hne.
  reflexivity.
Qed.

Lemma saved_written (filename : string) (data : list value) (n : nat) (w : world) :
  written (saved filename data n w) = written w ++ [(filename, data)].
Proof. unfold saved. rewrite StoreFacts.writeData_written. reflexivity. Qed.

Lemma saved_read_only (filename : string) (n : nat) (w : world) :
  read_only (fs (World (fs (snd (readData filename w))) (clock w) (n + reads w) (written w)))
  = read_only (fs w).
Proof. cbn [fs]. apply StoreFacts.readData_flags. Qed.

Lemma saved_loaded (filename : string) (data : list value) (n : nat) (w : world) :
  read_only (fs w) = false ->
  loaded filename (saved filename data n w) = stored_form data.
Proof.
  intros Hro. unfold saved. apply writeData_loaded.
  rewrite saved_read_only. exact Hro.
Qed.

Lemma loaded_fs (filename : string) (w w' : world) :
  fs w = fs w' -> loaded filename w = loaded filename w'.
Proof.
  intros H. rewrite !StoreFacts.loaded_stored. unfold stored. rewrite H. reflexivity.
Qed.

Lemma saved_loaded_other (filename other : string) (data : list value) (n : nat)
    (w : world) :
  other <> filename ->
  loaded other (saved filename data n w) = loaded other w.
Proof.
  intros Hne. unfold saved. rewrite writeData_loaded_other by exact Hne.
  rewrite <- (StoreFacts.readData_loaded_other filename other w Hne).
  apply loaded_fs. reflexivity.
Qed.

Section Routes.
Context {rt : Runtime}.

(** What [router.put('/:id/status')] does for an admin, step by step. *)
Lemma update_order_status_run (req : request) (w : world) :
  not_admin req = Next false ->
  update_order_status req w =
    match prop (req_params req) "id", fields_of (req_body req) with
    | Next id, Next b =>
        if invalid_status (b "status") then (InvalidStatusError, w)
        else
          let orders := loaded "orders" w in
          match array_findIndex (has_id (parseInt id)) orders with
          | Next (Some i) =>
              match nth i orders VUndefined with
              | VObj fields =>
                  let order :=
                    VObj (set_field "updatedAt" (VStr (Date_toISOString (clock w (reads w))))
                            (set_field "status" (b "status") fields)) in
                  (Response 200 (VObj [("message", VStr "Order status updated successfully");
                                       ("order", order)]),
                   saved "orders" (<[i := order]> orders) 1 w)
              | _ => (Response 500 (message "Error updating order status"),
                      snd (readData "orders" w))
              end
          | Next None => (Response 404 (message "Order not found"), snd (readData "orders" w))
          | _ => (Response 500 (message "Error updating order status"),
                  snd (readData "orders" w))
          end
    | _, _ => (Response 500 (message "Error updating order status"), w)
    end.
Proof.
  intros Hadmin.
  unfold update_order_status, handler, update_order_status_body, bind, pure, ret, respond.
  rewrite Hadmin.
  destruct (prop (req_params req) "id") as [id|r|] eqn:Hid; try reflexivity.
  2:{ exfalso. eapply prop_no_return; eauto. }
  destruct (fields_of (req_body req)) as [b|r|] eqn:Hb; try reflexivity.
  2:{ exfalso. eapply fields_of_no_return; eauto. }
  destruct (invalid_status (b "status")); [reflexivity|].
  rewrite (StoreFacts.readData_loaded "orders" w). cbn [fst snd].
  destruct (array_findIndex (has_id (parseInt id)) (loaded "orders" w))
    as [[i|]|r|] eqn:Hf; try reflexivity.
  2:{ exfalso. eapply array_findIndex_no_return; eauto. intros; apply has_id_no_return. }
  destruct (nth i (loaded "orders" w) VUndefined) eqn:Hn; try reflexivity.
  destruct (StoreFacts.readData_clock "orders" w) as (Hc & Hr & Hl).
  unfold Date_now, saved. cbn [fs clock reads written]. rewrite !Hc, !Hr, !Hl.
  cbn [Nat.add].
  match goal with |- context [writeData ?f ?d ?w0] =>
    destruct (StoreFacts.writeData_next f d w0) as [ok Hok];
    destruct (writeData f d w0) as [r w3] end.
  cbn [fst] in Hok. subst r. reflexivity.
Qed.

(** What [router.delete('/:id')] does for an admin, step by step. *)
Lemma delete_order_run (req : request) (w : world) :
  not_admin req = Next false ->
  delete_order req w =
    match prop (req_params req) "id" with
    | Next id =>
        let orders := loaded "orders" w in
        match array_findIndex (has_id (parseInt id)) orders with
        | Next (Some i) =>
            (Response 200 (VObj [("message", VStr "Order deleted successfully");
                                 ("order", nth i orders VUndefined)]),
             saved "orders" (delete i orders) 0 w)
        | Next None => (Response 404 (message "Order not found"), snd (readData "orders" w))
        | _ => (Response 500 (message "Error deleting order"), snd (readData "orders" w))
        end
    | _ => (Response 500 (message "Error deleting order"), w)
    end.
Proof.
  intros Hadmin.
  unfold delete_order, handler, delete_order_body, bind, pure, ret, respond.
  rewrite Hadmin.
  destruct (prop (req_params req) "id") as [id|r|] eqn:Hid; try reflexivity.
  2:{ exfalso. eapply prop_no_return; eauto. }
  rewrite (StoreFacts.readData_loaded "orders" w). cbn [fst snd].
  destruct (array_findIndex (has_id (parseInt id)) (loaded "orders" w))
    as [[i|]|r|] eqn:Hf; try reflexivity.
  2:{ exfalso. eapply array_findIndex_no_return; eauto. intros; apply has_id_no_return. }
  destruct (StoreFacts.readData_clock "orders" w) as (Hc & Hr & Hl).
  unfold saved. cbn [Nat.add].
  match goal with |- context [writeData ?f ?d ?w0] =>
    destruct (StoreFacts.writeData_next f d w0) as [ok Hok];
    destruct (writeData f d w0) as [r w3] eqn:Hw end.
  cbn [fst] in Hok. subst r. cbn [snd].
  f_equal.
  destruct (snd (readData "orders" w)) as [d c n l] eqn:Hw1.
  cbn [clock reads written fs] in *. subst c n l.
  rewrite Hw. reflexivity.
Qed.

End Routes.
End OrderRuns.

Section OneOrder.
Import JS Http Store Orders CreateFacts ListFacts ProductFacts OrderFacts OrderRuns.
Context {rt : Runtime}.

Lemma prop_get (v : value) (k : string) (x : value) : prop v k = Next x -> get v k = x.
Proof. unfold get. intros ->. reflexivity. Qed.

(** X1.  An order is sent only to an admin or to its owner: when reading one
    order answers 200, the body is a stored order whose [id] is the Number
    the path parameter parses to, and either the caller's role is admin or
    the order's [userId] is strictly equal to the caller's. *)
Theorem get_order_permitted (req : request) (w : world) :
  status (fst (get_order req w)) = 200%nat ->
  let order := body (fst (get_order req w)) in
  In order (loaded "orders" w)
  /\ strict_eq (get order "id") (VNum (parseInt (get (req_params req) "id"))) = true
  /\ (strict_eq (get (req_user req) "role") (VStr "admin") = true
      \/ strict_eq (get order "userId") (get (req_user req) "userId") = true).
Proof.
  rewrite get_order_run.
  destruct (prop (req_params req) "id") as [id| |] eqn:Hid; try discriminate.
  rewrite (prop_get _ _ _ Hid).
  destruct (array_find (has_id (parseInt id)) (loaded "orders" w)) as [order| |] eqn:Hf;
    try discriminate.
  cbn zeta.
  destruct (negb (truthy order)) eqn:Ht; [discriminate|].
  destruct (not_permitted req order) as [[|]| |] eqn:Hp; try discriminate.
  intros _. cbn [fst body].
  destruct (array_find_found _ _ _ Hf) as [[-> _]|[Hin Hpred]]; [discriminate Ht|].
  destruct (has_id_true _ _ Hpred) as [Heq _].
  split; [exact Hin|]. split; [exact Heq|].
  revert Hp. unfold not_permitted, get.
  destruct (prop (req_user req) "role") as [role| |]; simpl; try discriminate.
  destruct (strict_eq role (VStr "admin")); simpl; [auto|].
  destruct (prop order "userId") as [owner| |]; simpl; try discriminate.
  destruct (prop (req_user req) "userId") as [caller| |]; simpl; try discriminate.
  intros H. injection H as H. right. destruct (strict_eq owner caller); auto.
Qed.


Lemma get_second (k1 k2 : string) (v1 v2 : value) :
  String.eqb k2 k1 = false -> get (VObj [(k1, v1); (k2, v2)]) k2 = v2.
Proof. intros H. unfold get. cbn. rewrite H, String.eqb_refl. reflexivity. Qed.

Lemma valid_status_In (status : value) :
  invalid_status status = false -> In status validStatuses.
Proof.
  unfold invalid_status, array_includes, validStatuses.
  intros H. apply orb_false_elim in H as [_ H]. apply negb_false_iff in H.
  destruct status as [| | | |s| |]; simpl in H; try discriminate H.
  repeat (apply orb_true_iff in H as [H|H];
          [apply String.eqb_eq in H; subst; simpl; tauto|]).
  discriminate H.
Qed.

(** A caller who does not pass the admin check is answered at once. *)
Lemma update_order_status_denied (req : request) (w : world) :
  not_admin req <> Next false ->
  snd (update_order_status req w) = w
  /\ (fst (update_order_status req w) = Response 403 (message "Access denied. Admin only.")
      \/ fst (update_order_status req w)
         = Response 500 (message "Error updating order status")).
Proof.
  intros H. unfold update_order_status, handler, update_order_status_body, bind, pure,
    respond.
  destruct (not_admin req) as [[|]|r|] eqn:Hn; cbn; auto.
  - contradiction.
  - exfalso. eapply not_admin_flow; eauto.
Qed.

Lemma delete_order_denied (req : request) (w : world) :
  not_admin req <> Next false ->
  snd (delete_order req w) = w
  /\ (fst (delete_order req w) = Response 403 (message "Access denied. Admin only.")
      \/ fst (delete_order req w) = Response 500 (message "Error deleting order")).
Proof.
  intros H. unfold delete_order, handler, delete_order_body, bind, pure, respond.
  destruct (not_admin req) as [[|]|r|] eqn:Hn; cbn; auto.
  - contradiction.
  - exfalso. eapply not_admin_flow; eauto.
Qed.

Lemma not_admin_cases (req : request) :
  not_admin req = Next false \/ not_admin req <> Next false.
Proof. destruct (not_admin req) as [[|]| |]; auto; right; discriminate. Qed.

(** X2.  A status update that answers 200 was asked by an admin for one of
    the five statuses; it changes the first stored order whose [id] is the
    Number the path parameter parses to, and of that order only [status] (to
    the requested one) and [updatedAt] (to the time of the one clock
    reading); the orders are written back with that order in its place and
    every other order as it was. *)
Theorem update_order_status_effect (req : request) (w : world) :
  status (fst (update_order_status req w)) = 200%nat ->
  let orders := loaded "orders" w in
  let orderId := parseInt (get (req_params req) "id") in
  let updated := get (body (fst (update_order_status req w))) "order" in
  exists (i : nat) (fields : list (string * value)),
    orders !! i = Some (VObj fields)
    /\ strict_eq (lookup_field "id" fields) (VNum orderId) = true
    /\ (forall j o, (j < i)%nat -> orders !! j = Some o ->
                    strict_eq (get o "id") (VNum orderId) = false)
    /\ strict_eq (get (req_user req) "role") (VStr "admin") = true
    /\ In (get (req_body req) "status") validStatuses
    /\ get updated "status" = get (req_body req) "status"
    /\ get updated "updatedAt" = VStr (Date_toISOString (clock w (reads w)))
    /\ (forall k, k <> "status" -> k <> "updatedAt" ->
                  get updated k = lookup_field k fields)
    /\ written (snd (update_order_status req w))
       = written w ++ [("orders", <[i := updated]> orders)].
Proof.
  destruct (not_admin_cases req) as [Hadmin|Hno].
  2:{ destruct (update_order_status_denied req w Hno) as [_ [-> | ->]]; discriminate. }
  rewrite (update_order_status_run req w Hadmin).
  destruct (prop (req_params req) "id") as [id| |] eqn:Hid; try discriminate.
  destruct (fields_of (req_body req)) as [b| |] eqn:Hb; try discriminate.
  rewrite (prop_get _ _ _ Hid), <- (fields_of_get _ _ "status" Hb).
  destruct (invalid_status (b "status")) eqn:Hs; [discriminate|].
  cbn zeta.
  destruct (array_findIndex (has_id (parseInt id)) (loaded "orders" w))
    as [[i|]| |] eqn:Hf; try discriminate.
  destruct (array_findIndex_found _ _ _ Hf) as (x & Hx & Hnth & Hpred).
  destruct (has_id_true _ _ Hpred) as [Heq [fields ->]].
  rewrite Hnth. intros _. cbn [fst snd body].
  exists i, fields.
  split; [exact Hx|]. split; [exact Heq|].
  split.
  { intros j o Hj Ho. apply has_id_false.
    exact (array_findIndex_first _ _ _ Hf j o Hj Ho). }
  split; [exact (not_admin_false req Hadmin)|].
  split; [exact (valid_status_In _ Hs)|].
  rewrite !get_second by reflexivity.
  split; [|split; [|split]].
  - unfold get; cbn [prop].
    rewrite lookup_set_ne by reflexivity. apply lookup_set_eq.
  - unfold get; cbn [prop]. apply lookup_set_eq.
  - intros k Hk1 Hk2. unfold get; cbn [prop].
    rewrite !lookup_set_ne; auto; apply String.eqb_neq; auto.
  - rewrite saved_written. reflexivity.
Qed.

End OneOrder.

(** ** Values that JSON gives back unchanged *)

Module StableFacts.
Import JS Http Store RoundTripFacts.

(** A value that [JSON.stringify] and [JSON.parse] give back as it is. *)
Lemma stored_fields_length (fields : list (string * value)) :
  (length (stored_fields fields) <= length fields)%nat.
Proof.
  induction fields as [|[k x] rest IH]; simpl; [lia|].
  destruct (jsonify x); simpl; lia.
Qed.

Lemma stored_fields_stable (fields : list (string * value)) :
  stored_fields fields = fields <->
  Forall (fun kv => jsonify (snd kv) = Some (snd kv)) fields.
Proof.
  induction fields as [|[k x] rest IH]; simpl.
  - split; auto.
  - destruct (jsonify x) as [y|] eqn:Hx; simpl.
    + split.
      * intros H. injection H as -> Hrest. constructor; [exact Hx|]. apply IH, Hrest.
      * intros H. inversion H as [|? ? H1 H2]; subst. simpl in H1.
        rewrite Hx in H1. injection H1 as ->. f_equal. apply IH, H2.
    + split.
      * intros H. pose proof (stored_fields_length rest) as Hlen.
        rewrite H in Hlen. simpl in Hlen. lia.
      * intros H. inversion H as [|? ? H1 H2]; subst. simpl in H1. congruence.
Qed.

Lemma stored_form_stable (rs : list value) :
  stored_form rs = rs <-> Forall (fun v => jsonify v = Some v) rs.
Proof.
  unfold stored_form. induction rs as [|v rest IH]; simpl.
  - split; auto.
  - split.
    + intros H. injection H as Hv Hrest. constructor; [|apply IH, Hrest].
      destruct (jsonify v) as [y|] eqn:Hj; [congruence|].
      destruct v; try discriminate Hv; discriminate Hj.
    + intros H. inversion H as [|? ? H1 H2]; subst. rewrite H1. f_equal. apply IH, H2.
Qed.

Lemma set_field_stable (k : string) (v : value) (fields : list (string * value)) :
  jsonify v = Some v ->
  Forall (fun kv => jsonify (snd kv) = Some (snd kv)) fields ->
  Forall (fun kv => jsonify (snd kv) = Some (snd kv)) (set_field k v fields).
Proof.
  intros Hv. induction 1 as [|[k' x] rest Hx Hrest IH]; simpl.
  - constructor; auto.
  - destruct (String.eqb k k'); constructor; auto.
Qed.

Lemma well_stored_loaded (filename : string) (w : world) :
  well_stored filename w ->
  stored filename w = Some (Records (loaded filename w))
  /\ Forall (fun v => jsonify v = Some v) (loaded filename w)
  /\ snd (readData filename w) = w.
Proof.
  intros (rs & Hs & Hst). rewrite StoreFacts.loaded_stored, Hs.
  split; [reflexivity|]. split; [apply stored_form_stable, Hst|].
  apply StoreFacts.readData_existing. rewrite Hs. eauto.
Qed.

End StableFacts.

Section OrderChanges.
Import JS Http Store Orders CreateFacts ListFacts ProductFacts OrderFacts OrderRuns
  StableFacts NumberFacts RoundTripFacts.
Context {rt : Runtime}.

Lemma readData_keeps (filename name : string) (w : world) :
  loaded name (snd (readData filename w)) = loaded name w.
Proof.
  destruct (string_dec name filename) as [->|Hne].
  - apply StoreFacts.readData_loaded_same.
  - apply StoreFacts.readData_loaded_other, Hne.
Qed.

(** X3.  A status update that does not answer 200 changes nothing: nothing
    is written and every collection reads as before.  For an admin, a status
    that is not one of the five is refused before anything is read: the
    answer is the 400 that lists the valid statuses (500 when the request has
    no parameters or no body) and the world is as it was. *)
Theorem update_order_status_refused (req : request) (w : world) :
  let r := fst (update_order_status req w) in
  let w' := snd (update_order_status req w) in
  (status r <> 200%nat ->
   written w' = written w
   /\ (forall name, loaded name w' = loaded name w)
   /\ clock w' = clock w /\ reads w' = reads w)
  /\ (not_admin req = Next false ->
      ~ In (get (req_body req) "status") validStatuses ->
      w' = w
      /\ (r = InvalidStatusError
          \/ r = Response 500 (message "Error updating order status"))).
Proof.
  cbn zeta. split.
  - destruct (not_admin_cases req) as [Hadmin|Hno].
    2:{ destruct (update_order_status_denied req w Hno) as [-> _]. auto. }
    rewrite (update_order_status_run req w Hadmin).
    destruct (prop (req_params req) "id") as [id| |]; auto.
    destruct (fields_of (req_body req)) as [b| |]; auto.
    destruct (invalid_status (b "status")); auto.
    cbn zeta.
    destruct (StoreFacts.readData_clock "orders" w) as (Hc & Hr & Hl).
    pose proof (fun name => readData_keeps "orders" name w) as Hk.
    destruct (array_findIndex _ _) as [[i|]| |]; cbn [fst snd]; auto.
    destruct (nth i (loaded "orders" w) VUndefined); cbn [fst snd status]; auto.
    intros H. exfalso. apply H. reflexivity.
  - intros Hadmin Hnot.
    rewrite (update_order_status_run req w Hadmin).
    destruct (prop (req_params req) "id") as [id| |]; auto.
    destruct (fields_of (req_body req)) as [b| |] eqn:Hb; auto.
    rewrite <- (fields_of_get _ _ "status" Hb) in Hnot.
    destruct (invalid_status (b "status")) eqn:Hs; auto.
    exfalso. apply Hnot, valid_status_In, Hs.
Qed.

Lemma admin_permitted (req : request) (order : value) :
  not_admin req = Next false -> not_permitted req order = Next false.
Proof.
  unfold not_admin, not_permitted.
  destruct (prop (req_user req) "role") as [role| |]; simpl; try discriminate.
  destruct (strict_eq role (VStr "admin")); simpl; [reflexivity|discriminate].
Qed.

(** X4.  The status update and the reading of one order compose: on a disk
    that can be written, over an orders file as the program writes it, a
    status update that answers 200 is followed, for the same request path
    and caller, by a read that answers 200 with the order of the update's
    response, the new status included. *)
Theorem update_then_get_order (req : request) (w : world) :
  well_stored "orders" w ->
  read_only (fs w) = false ->
  status (fst (update_order_status req w)) = 200%nat ->
  let updated := get (body (fst (update_order_status req w))) "order" in
  fst (get_order req (snd (update_order_status req w))) = Response 200 updated
  /\ get updated "status" = get (req_body req) "status".
Proof.
  intros Hws Hro.
  destruct (well_stored_loaded _ _ Hws) as (Hst & Hstable & Hw1).
  destruct (not_admin_cases req) as [Hadmin|Hno].
  2:{ destruct (update_order_status_denied req w Hno) as [_ [-> | ->]]; discriminate. }
  rewrite (update_order_status_run req w Hadmin).
  destruct (prop (req_params req) "id") as [id| |] eqn:Hid; try discriminate.
  destruct (fields_of (req_body req)) as [b| |] eqn:Hb; try discriminate.
  rewrite <- (fields_of_get _ _ "status" Hb).
  destruct (invalid_status (b "status")) eqn:Hs; [discriminate|].
  cbn zeta.
  destruct (array_findIndex (has_id (parseInt id)) (loaded "orders" w))
    as [[i|]| |] eqn:Hf; try discriminate.
  destruct (array_findIndex_found _ _ _ Hf) as (x & Hx & Hnth & Hpred).
  destruct (has_id_true _ _ Hpred) as [Heq [fields ->]].
  rewrite Hnth. intros _. cbn [fst snd body].
  rewrite !get_second by reflexivity.
  set (order := VObj (set_field "updatedAt" _ (set_field "status" (b "status") fields))).
  assert (Hstatus : exists s, b "status" = VStr s).
  { pose proof (valid_status_In _ Hs) as Hin. unfold validStatuses in Hin.
    simpl in Hin. destruct Hin as [<-|[<-|[<-|[<-|[<-|[]]]]]]; eauto. }
  destruct Hstatus as [s Hstr].
  assert (Horder : jsonify order = Some order).
  { unfold order. rewrite jsonify_obj. do 2 f_equal. apply stored_fields_stable.
    apply set_field_stable; [reflexivity|].
    apply set_field_stable; [rewrite Hstr; reflexivity|].
    apply stored_fields_stable.
    rewrite Forall_forall in Hstable.
    assert (Hin : VObj fields ∈ loaded "orders" w) by (eapply list_elem_of_lookup_2; eauto).
    pose proof (Hstable _ Hin) as Hj. rewrite jsonify_obj in Hj. congruence. }
  assert (Hdata : loaded "orders" (saved "orders" (<[i := order]> (loaded "orders" w)) 1 w)
                  = <[i := order]> (loaded "orders" w)).
  { rewrite saved_loaded by exact Hro. apply stored_form_stable.
    apply Forall_insert; auto. }
  split.
  2:{ unfold order, get. cbn [prop]. rewrite lookup_set_ne by reflexivity.
      apply lookup_set_eq. }
  rewrite get_order_run, Hid. cbn zeta. rewrite Hdata.
  assert (Hlen : (i < length (loaded "orders" w))%nat)
    by (eapply lookup_lt_Some; eauto).
  destruct (array_find_at (has_id (parseInt id)) (<[i := order]> (loaded "orders" w))
              i order) as [-> _].
  - apply list_lookup_insert_eq. exact Hlen.
  - unfold has_id, order. cbn [prop flow_bind].
    rewrite !lookup_set_ne by reflexivity.
    unfold get in Heq. cbn [prop] in Heq. rewrite Heq. reflexivity.
  - intros j y Hj Hy. rewrite list_lookup_insert_ne in Hy by lia.
    exact (array_findIndex_first _ _ _ Hf j y Hj Hy).
  - cbn [truthy negb]. unfold order at 1. cbn [truthy negb].
    rewrite (admin_permitted req order Hadmin). reflexivity.
Qed.

End OrderChanges.

Section OrderDeletion.
Import JS Http Store Orders CreateFacts ListFacts ProductFacts OrderFacts
  OrderRuns StableFacts NumberFacts RoundTripFacts.
Context {rt : Runtime}.

(** X5.  A deletion that answers 200 was asked by an admin; it takes out the
    first stored order whose [id] is the Number the path parameter parses
    to, answers with that order, and writes back the other orders, all of
    them, in their order. *)
Theorem delete_order_effect (req : request) (w : world) :
  status (fst (delete_order req w)) = 200%nat ->
  let orders := loaded "orders" w in
  let orderId := parseInt (get (req_params req) "id") in
  let deleted := get (body (fst (delete_order req w))) "order" in
  exists (i : nat),
    orders = take i orders ++ deleted :: drop (S i) orders
    /\ length (take i orders) = i
    /\ strict_eq (get deleted "id") (VNum orderId) = true
    /\ Forall (fun o => strict_eq (get o "id") (VNum orderId) = false) (take i orders)
    /\ strict_eq (get (req_user req) "role") (VStr "admin") = true
    /\ written (snd (delete_order req w))
       = written w ++ [("orders", take i orders ++ drop (S i) orders)].
Proof.
  destruct (not_admin_cases req) as [Hadmin|Hno].
  2:{ destruct (delete_order_denied req w Hno) as [_ [-> | ->]]; discriminate. }
  rewrite (delete_order_run req w Hadmin).
  destruct (prop (req_params req) "id") as [id| |] eqn:Hid; try discriminate.
  rewrite (prop_get _ _ _ Hid). cbn zeta.
  destruct (array_findIndex (has_id (parseInt id)) (loaded "orders" w))
    as [[i|]| |] eqn:Hf; try discriminate.
  destruct (array_findIndex_found _ _ _ Hf) as (x & Hx & Hnth & Hpred).
  destruct (has_id_true _ _ Hpred) as [Heq _].
  intros _. cbn [fst snd body]. rewrite get_second by reflexivity. rewrite Hnth.
  exists i.
  assert (Hlen : (i < length (loaded "orders" w))%nat) by (eapply lookup_lt_Some; eauto).
  split.
  { rewrite <- (take_drop_middle _ _ _ Hx) at 1. reflexivity. }
  split; [rewrite length_take; lia|].
  split; [exact Heq|].
  split.
  { apply Forall_forall. intros o Ho.
    apply list_elem_of_lookup_1 in Ho as [j Hj].
    pose proof (lookup_lt_Some _ _ _ Hj) as Hjlen. rewrite length_take in Hjlen.
    rewrite lookup_take_lt in Hj by lia.
    apply has_id_false. apply (array_findIndex_first _ _ _ Hf j o); [lia|exact Hj]. }
  split; [exact (OrderFacts.not_admin_false req Hadmin)|].
  rewrite saved_written, delete_take_drop. reflexivity.
Qed.

End OrderDeletion.

Section OrderQueries.
Import JS Http Store Orders CreateFacts ListFacts ProductFacts OrderFacts
  OrderRuns StableFacts NumberFacts RoundTripFacts.
Context {rt : Runtime}.

(** X6.  A deleted order can no longer be read: on a disk that can be
    written, over an orders file as the program writes it in which no two
    orders have the same [id], a deletion that answers 200 is followed, for
    any caller asking for the same path parameter, by a read that answers
    404 (500 when a remaining record is [null]). *)
Theorem delete_then_get_order (req req' : request) (w : world) :
  well_stored "orders" w ->
  read_only (fs w) = false ->
  Products.ids_distinct (loaded "orders" w) ->
  req_params req' = req_params req ->
  status (fst (delete_order req w)) = 200%nat ->
  let r := fst (get_order req' (snd (delete_order req w))) in
  r = Response 404 (message "Order not found")
  \/ r = Response 500 (message "Error fetching order").
Proof.
  intros Hws Hro Hids Hparams.
  destruct (well_stored_loaded _ _ Hws) as (Hst & Hstable & Hw1).
  destruct (not_admin_cases req) as [Hadmin|Hno].
  2:{ destruct (delete_order_denied req w Hno) as [_ [-> | ->]]; discriminate. }
  rewrite (delete_order_run req w Hadmin).
  destruct (prop (req_params req) "id") as [id| |] eqn:Hid; try discriminate.
  cbn zeta.
  destruct (array_findIndex (has_id (parseInt id)) (loaded "orders" w))
    as [[i|]| |] eqn:Hf; try discriminate.
  destruct (array_findIndex_found _ _ _ Hf) as (x & Hx & Hnth & Hpred).
  destruct (has_id_true _ _ Hpred) as [Heq _].
  intros _. cbn [fst snd].
  assert (Hdata : loaded "orders" (saved "orders" (delete i (loaded "orders" w)) 0 w)
                  = delete i (loaded "orders" w)).
  { rewrite saved_loaded by exact Hro. apply stored_form_stable.
    rewrite delete_take_drop. apply Forall_app. split.
    - apply Forall_take, Hstable.
    - apply Forall_drop, Hstable. }
  rewrite get_order_run, Hparams, Hid. cbn zeta. rewrite Hdata.
  destruct (array_find (has_id (parseInt id)) (delete i (loaded "orders" w)))
    as [order| |] eqn:Hfind; auto.
  destruct (array_find_found _ _ _ Hfind) as [[-> _]|[Hin Hpred']]; [auto|].
  exfalso.
  destruct (has_id_true _ _ Hpred') as [Heq' _].
  apply list_elem_of_In, list_elem_of_lookup_1 in Hin as [j Hj].
  rewrite list_lookup_delete in Hj.
  pose proof (ids_distinct_lookup _ Hids) as Hd.
  pose proof (strict_eq_common _ _ _ Heq' Heq) as Hsame.
  destruct (decide (j < i)%nat) as [Hlt|Hge].
  - rewrite (Hd j i order x) in Hsame by (auto; lia). discriminate Hsame.
  - rewrite (Hd (S j) i order x) in Hsame by (auto; lia). discriminate Hsame.
Qed.

Lemma stats_summary_world (req : request) (w : world) :
  snd (stats_summary req w) = w \/ snd (stats_summary req w) = snd (readData "orders" w).
Proof.
  unfold stats_summary, handler, stats_summary_body, bind, pure, ret, respond.
  destruct (not_admin req) as [[|]| |]; cbn; auto.
  rewrite (StoreFacts.readData_loaded "orders" w). cbn [fst snd].
  repeat match goal with
         | |- context [match ?m with Next _ => _ | Return _ => _ | Throw => _ end] =>
             destruct m; cbn [fst snd]
         | |- context [if ?c then _ else _] => destruct c; cbn [fst snd]
         end; auto.
Qed.

Lemma list_orders_world (req : request) (w : world) :
  snd (list_orders req w) = w \/ snd (list_orders req w) = snd (readData "orders" w).
Proof.
  unfold list_orders, handler, list_orders_body, bind, pure, ret, respond.
  destruct (not_admin req) as [[|]| |]; cbn; auto.
  destruct (fields_of (req_query req)) as [q| |]; cbn; auto.
  rewrite (StoreFacts.readData_loaded "orders" w). cbn [fst snd].
  repeat match goal with
         | |- context [match ?m with Next _ => _ | Return _ => _ | Throw => _ end] =>
             destruct m; cbn [fst snd]
         | |- context [if ?c then _ else _] => destruct c; cbn [fst snd]
         end; auto.
Qed.

Lemma my_orders_world (req : request) (w : world) :
  snd (my_orders req w) = w \/ snd (my_orders req w) = snd (readData "orders" w).
Proof.
  unfold my_orders, handler, my_orders_body, bind, pure, ret, respond.
  destruct (fields_of (req_query req)) as [q| |]; cbn; auto.
  rewrite (StoreFacts.readData_loaded "orders" w). cbn [fst snd].
  repeat match goal with
         | |- context [match ?m with Next _ => _ | Return _ => _ | Throw => _ end] =>
             destruct m; cbn [fst snd]
         | |- context [if ?c then _ else _] => destruct c; cbn [fst snd]
         end; auto.
Qed.

Lemma get_order_world (req : request) (w : world) :
  snd (get_order req w) = w \/ snd (get_order req w) = snd (readData "orders" w).
Proof.
  rewrite get_order_run.
  repeat match goal with
         | |- context [match ?m with Next _ => _ | Return _ => _ | Throw => _ end] =>
             destruct m; cbn [fst snd]
         | |- context [if ?c then _ else _] => destruct c; cbn [fst snd]
         end; auto.
Qed.

(** A handler after which the world is as before, or as [readData] of one
    collection leaves it, only reads. *)
Lemma reads_only_intro (h : request -> world -> response * world) (filename : string) :
  (forall req w, snd (h req w) = w \/ snd (h req w) = snd (readData filename w)) ->
  reads_only h.
Proof.
  intros H req w.
  destruct (H req w) as [-> | ->]; [auto|].
  destruct (StoreFacts.readData_clock filename w) as (Hc & Hr & Hl).
  split; [exact Hl|]. split; [|exact Hc].
  intros name. apply readData_keeps.
Qed.

(** X7.  The four reading routes of the orders router only read: whatever
    the request, they never call [writeData], and afterwards every
    collection reads as before (an orders file that was missing has been
    created empty). *)
Theorem orders_queries_read_only :
  reads_only get_order /\ reads_only list_orders
  /\ reads_only my_orders /\ reads_only stats_summary.
Proof.
  split; [|split; [|split]].
  - apply (reads_only_intro _ "orders"), get_order_world.
  - apply (reads_only_intro _ "orders"), list_orders_world.
  - apply (reads_only_intro _ "orders"), my_orders_world.
  - apply (reads_only_intro _ "orders"), stats_summary_world.
Qed.

End OrderQueries.

Section OrderGuards.
Import JS Http Store Orders CreateFacts ListFacts ProductFacts OrderFacts
  OrderRuns StableFacts NumberFacts RoundTripFacts.
Context {rt : Runtime}.

(** A caller whose role is not admin fails the admin check, or has no role
    to read. *)
Lemma not_admin_other (req : request) :
  get (req_user req) "role" <> VStr "admin" ->
  not_admin req = Next true
  \/ (not_admin req = Throw /\ (req_user req = VUndefined \/ req_user req = VNull)).
Proof.
  unfold not_admin, get. intros H.
  destruct (req_user req) as [| | | | | |u]; cbn in *; auto.
  destruct (lookup_field "role" u) as [| | | |s| |]; cbn; auto.
  destruct (String.eqb_spec s "admin") as [->|Hne]; cbn; auto.
  exfalso. apply H. reflexivity.
Qed.

Ltac refuse_other :=
  intros req w Hrole;
  destruct (not_admin_other req Hrole) as [Hn|[Hn Hu]];
  unfold handler, bind, pure, respond; rewrite Hn; cbn; auto.

(** X8.  The four admin routes of the orders router refuse every other
    caller before they read or write anything: a caller whose role is not
    admin is answered 403, a request without a user 500, and the world is as
    it was. *)
Theorem orders_admin_routes :
  admins_only list_orders /\ admins_only stats_summary
  /\ admins_only update_order_status /\ admins_only delete_order.
Proof.
  split; [|split; [|split]].
  - unfold admins_only, list_orders, list_orders_body. refuse_other.
  - unfold admins_only, stats_summary, stats_summary_body. refuse_other.
  - unfold admins_only, update_order_status, update_order_status_body. refuse_other.
  - unfold admins_only, delete_order, delete_order_body. refuse_other.
Qed.

(** X9.  With a status in the query, the listing of all orders answers only
    with stored orders of that status. *)
Theorem list_orders_status_filter (req : request) (w : world) :
  truthy (get (req_query req) "status") = true ->
  forall order, In order (returned_orders (fst (list_orders req w))) ->
    In order (loaded "orders" w)
    /\ strict_eq (get order "status") (get (req_query req) "status") = true.
Proof.
  intros Hstatus order.
  destruct (not_admin_cases req) as [Hadmin|Hno].
  2:{ unfold list_orders, handler, list_orders_body, bind, pure, respond.
      destruct (not_admin req) as [[|]|r|] eqn:Hn; cbn; try tauto.
      exfalso. eapply not_admin_flow; eauto. }
  destruct (fields_of (req_query req)) as [q| |] eqn:Hq.
  2:{ exfalso. eapply fields_of_no_return; eauto. }
  2:{ unfold list_orders, handler, list_orders_body, bind, pure, respond.
      rewrite Hadmin, Hq. cbn. tauto. }
  rewrite (list_orders_run req w q Hadmin Hq).
  rewrite <- (fields_of_get _ _ "status" Hq) in *. rewrite Hstatus.
  destruct (array_filter _ (loaded "orders" w)) as [us| |] eqn:Hf; try (simpl; tauto).
  destruct (sort_newest_first us) as [sorted| |] eqn:Hs; try (simpl; tauto).
  unfold returned_orders, page_of_orders.
  cbn [body get prop lookup_field items_of String.eqb Ascii.eqb Bool.eqb].
  intros Hin. apply slice_In in Hin.
  apply (sort_newest_first_In _ _ Hs) in Hin.
  destruct (array_filter_In _ _ _ Hf _ Hin) as [Hstored Hkeep].
  split; [exact Hstored|].
  unfold get. destruct (prop order "status"); simpl in Hkeep; try discriminate.
  injection Hkeep as Hkeep. exact Hkeep.
Qed.

End OrderGuards.

Section OneOrderRuns.
Import JS Http Store Orders Sample.

(** A customer reads an order of theirs. *)
Lemma get_order_permitted_witness :
  let req := one_as customer "101" in
  let w := world_of trading steady in
  fst (get_order (rt := Node.runtime) req w) = Response 200 first_order
  /\ In first_order (loaded "orders" w)
  /\ strict_eq (get first_order "userId") (get customer "userId") = true.
Proof.
  cbv zeta.
  assert (Hst : status (fst (get_order (rt := Node.runtime) (one_as customer "101")
                               (world_of trading steady))) = 200%nat)
    by (vm_compute; reflexivity).
  destruct (@get_order_permitted Node.runtime _ _ Hst) as (Hin & _ & [Hadmin|Hown]).
  - discriminate Hadmin.
  - split; [vm_compute; reflexivity|]. split; [exact Hin|exact Hown].
Defined.

(** An admin marks the second order as refunded. *)
Lemma update_order_status_effect_witness :
  let req := put_as admin "102" (VObj [("status", VStr "refunded")]) in
  let w := world_of trading steady in
  let r := fst (update_order_status (rt := Node.runtime) req w) in
  get (get (body r) "order") "status" = VStr "refunded"
  /\ get (get (body r) "order") "updatedAt" = VStr "2023-11-14T22:13:20.000Z"
  /\ get (get (body r) "order") "total" = VNum 5
  /\ written (snd (update_order_status (rt := Node.runtime) req w))
     = [("orders", [first_order; get (body r) "order"; third_order])].
Proof.
  cbv zeta.
  assert (Hst : status (fst (update_order_status (rt := Node.runtime)
                               (put_as admin "102" (VObj [("status", VStr "refunded")]))
                               (world_of trading steady))) = 200%nat)
    by (vm_compute; reflexivity).
  destruct (@update_order_status_effect Node.runtime _ _ Hst)
    as (i & fields & Hi & _ & _ & _ & _ & Hs & Hu & _ & Hw).
  split; [exact Hs|]. split; [exact Hu|]. split; [vm_compute; reflexivity|].
  vm_compute; reflexivity.
Defined.

(** A status outside the five is refused and nothing changes. *)
Lemma update_order_status_refused_witness :
  let req := put_as admin "102" (VObj [("status", VStr "shipped")]) in
  let w := world_of trading steady in
  update_order_status (rt := Node.runtime) req w = (InvalidStatusError, w).
Proof.
  cbv zeta.
  destruct (@update_order_status_refused Node.runtime
              (put_as admin "102" (VObj [("status", VStr "shipped")]))
              (world_of trading steady)) as [_ Hbad].
  assert (Hnot : ~ In (get (VObj [("status", VStr "shipped")]) "status") validStatuses)
    by (intros H; simpl in H; intuition discriminate).
  destruct (Hbad eq_refl Hnot) as [Hw [Hr|Hr]].
  - apply injective_projections; [exact Hr|exact Hw].
  - exfalso. revert Hr. vm_compute. discriminate.
Defined.

Lemma update_then_get_order_witness :
  let req := put_as admin "102" (VObj [("status", VStr "refunded")]) in
  let w := world_of trading steady in
  let w' := snd (update_order_status (rt := Node.runtime) req w) in
  get (body (fst (get_order (rt := Node.runtime) req w'))) "status" = VStr "refunded".
Proof.
  cbv zeta.
  destruct (@update_then_get_order Node.runtime
              (put_as admin "102" (VObj [("status", VStr "refunded")]))
              (world_of trading steady)) as [Hget Hstatus].
  - exists [first_order; second_order; third_order]. split; vm_compute; reflexivity.
  - reflexivity.
  - vm_compute; reflexivity.
  - rewrite Hget. cbn [body]. rewrite Hstatus. vm_compute; reflexivity.
Defined.

(** An admin deletes the second order. *)
Lemma delete_order_effect_witness :
  let req := one_as admin "102" in
  let w := world_of trading steady in
  fst (delete_order (rt := Node.runtime) req w)
  = Response 200 (VObj [("message", VStr "Order deleted successfully");
                        ("order", second_order)])
  /\ written (snd (delete_order (rt := Node.runtime) req w))
     = [("orders", [first_order; third_order])].
Proof.
  cbv zeta.
  assert (Hst : status (fst (delete_order (rt := Node.runtime) (one_as admin "102")
                               (world_of trading steady))) = 200%nat)
    by (vm_compute; reflexivity).
  destruct (@delete_order_effect Node.runtime _ _ Hst) as (i & _ & _ & _ & _ & _ & Hw).
  split; vm_compute; reflexivity.
Defined.

Lemma delete_then_get_order_witness :
  let w := world_of trading steady in
  let w' := snd (delete_order (rt := Node.runtime) (one_as admin "102") w) in
  fst (get_order (rt := Node.runtime) (one_as customer "102") w')
  = Response 404 (message "Order not found").
Proof.
  cbv zeta.
  destruct (@delete_then_get_order Node.runtime (one_as admin "102")
              (one_as customer "102") (world_of trading steady)) as [H|H].
  - exists [first_order; second_order; third_order]. split; vm_compute; reflexivity.
  - reflexivity.
  - vm_compute; reflexivity.
  - reflexivity.
  - vm_compute; reflexivity.
  - exact H.
  - exfalso. revert H. vm_compute. discriminate.
Defined.

(** The admin lists the pending orders. *)
Lemma list_orders_status_filter_witness :
  let req := get_as admin [("status", VStr "pending")] in
  let w := world_of trading steady in
  returned_orders (fst (list_orders (rt := Node.runtime) req w)) = [second_order]
  /\ strict_eq (get second_order "status") (VStr "pending") = true.
Proof.
  cbv zeta. split; [vm_compute; reflexivity|].
  apply (@list_orders_status_filter Node.runtime
           (get_as admin [("status", VStr "pending")]) (world_of trading steady)).
  - reflexivity.
  - vm_compute. left. reflexivity.
Defined.

End OneOrderRuns.

(** ** The catalog: featured products, categories, one product *)

Module CatalogFacts.
Import JS Http Store Products CreateFacts ListFacts ProductFacts OrderFacts NumberFacts.
Local Open Scope js_scope.

(** The first six elements. *)
Lemma slice_first_six {A : Type} (xs : list A) : slice xs 0 6 = take 6 xs.
Proof.
  unfold slice.
  change (ToIntegerOrInfinity 0) with (Fin 0).
  change (ToIntegerOrInfinity 6) with (Fin 6).
  unfold relative_index.
  change (0 <? 0)%Z with false. change (6 <? 0)%Z with false. cbv iota.
  rewrite (Z.min_l 0) by lia. rewrite Z.sub_0_r. change (Z.to_nat 0) with 0%nat.
  rewrite drop_0.
  destruct (Z.min_spec 6 (Z.of_nat (length xs))) as [[Hlt ->]|[Hge ->]].
  - reflexivity.
  - rewrite Nat2Z.id. rewrite !take_ge; auto; lia.
Qed.

(** [filter] with a callback that does not throw is the filter of lists. *)
Lemma array_filter_total (pred : value -> flow bool) (keep : value -> bool)
    (xs ys : list value) :
  (forall x b, pred x = Next b -> b = keep x) ->
  array_filter pred xs = Next ys -> ys = List.filter keep xs.
Proof.
  intros Hp. revert ys. induction xs as [|x rest IH]; simpl; intros ys H.
  - injection H as <-. reflexivity.
  - destruct (pred x) as [b| |] eqn:Hx; simpl in H; try discriminate.
    destruct (array_filter pred rest) as [zs| |]; simpl in H; try discriminate.
    injection H as <-. rewrite <- (Hp x b Hx), <- (IH zs eq_refl). reflexivity.
Qed.

Lemma filter_nil_none {A : Type} (keep : A -> bool) (xs : list A) :
  List.filter keep xs = [] -> Forall (fun x => keep x = false) xs.
Proof.
  induction xs as [|x rest IH]; simpl; intros H; [constructor|].
  destruct (keep x) eqn:Hx; [discriminate|]. constructor; auto.
Qed.

Lemma filter_all_kept {A : Type} (keep : A -> bool) (xs : list A) :
  Forall (fun x => keep x = true) (List.filter keep xs).
Proof.
  apply Forall_forall. intros x Hx. apply list_elem_of_In, filter_In in Hx. tauto.
Qed.

Lemma is_featured_no_return (p : value) (r : response) : is_featured p <> Return r.
Proof. unfold is_featured. destruct p; discriminate. Qed.

Lemma is_featured_get (p : value) (b : bool) :
  is_featured p = Next b -> b = truthy (get p "featured").
Proof.
  unfold is_featured, get. destruct (prop p "featured"); simpl; try discriminate.
  intros H. injection H as <-. reflexivity.
Qed.

(** *** The elements of a [Set] *)

Lemma is_nan_nan (x : float) : PrimFloat.is_nan x = true -> x = PrimFloat.nan.
Proof.
  unfold PrimFloat.is_nan. rewrite FloatAxioms.eqb_spec. unfold SFeqb. intros H.
  rewrite <- (SF2Prim_Prim2SF x).
  destruct (Prim2SF x) as [s|s| |s m e] eqn:Hx; try reflexivity;
    rewrite SFcompare_refl in H by discriminate; discriminate H.
Qed.

Lemma eqb_equal (x y : float) :
  PrimFloat.eqb x y = true -> PrimFloat.is_zero x = false -> x = y.
Proof.
  intros H Hz.
  rewrite <- (SF2Prim_Prim2SF x), <- (SF2Prim_Prim2SF y).
  revert H Hz. unfold PrimFloat.is_zero. rewrite !FloatAxioms.eqb_spec. unfold SFeqb.
  destruct (SFcompare (Prim2SF x) (Prim2SF y)) as [[| |]|] eqn:Hc; try discriminate.
  intros _ Hz.
  destruct (SFcompare_Eq _ _ Hc) as [->|(s & t & Hs & Ht)]; [reflexivity|].
  rewrite Hs in Hz. destruct s; simpl in Hz; discriminate Hz.
Qed.

(** What a [Set] keeps is never a negative zero. *)
Lemma Set_element_kept (v : value) : Set_element (Set_element v) = Set_element v.
Proof.
  unfold Set_element. destruct v as [| | |x| | |]; try reflexivity.
  destruct (PrimFloat.is_zero x) eqn:Hz; [reflexivity|]. rewrite Hz. reflexivity.
Qed.

(** Two elements of a [Set] that are the same value are equal. *)
Lemma same_value_zero_kept (a b : value) :
  Set_element a = a -> Set_element b = b -> same_value_zero a b = true -> a = b.
Proof.
  unfold Set_element.
  destruct a as [| |x|x|s| |], b as [| |y|y|t| |]; simpl; try discriminate; auto.
  - intros _ _ H. apply Bool.eqb_prop in H. congruence.
  - destruct (PrimFloat.is_zero x) eqn:Zx, (PrimFloat.is_zero y) eqn:Zy;
      intros Hx Hy H.
    + congruence.
    + injection Hx as <-. apply orb_true_iff in H as [H|H].
      * rewrite eqb_sym in H. rewrite (eqb_equal _ _ H Zy). reflexivity.
      * discriminate H.
    + apply orb_true_iff in H as [H|H].
      * rewrite (eqb_equal _ _ H Zx). reflexivity.
      * apply andb_true_iff in H as [H1 H2].
        rewrite (is_nan_nan _ H1), (is_nan_nan _ H2). reflexivity.
    + apply orb_true_iff in H as [H|H].
      * rewrite (eqb_equal _ _ H Zx). reflexivity.
      * apply andb_true_iff in H as [H1 H2].
        rewrite (is_nan_nan _ H1), (is_nan_nan _ H2). reflexivity.
  - intros _ _ H. apply String.eqb_eq in H. congruence.
Qed.

Lemma same_value_zero_sym (a b : value) : same_value_zero a b = same_value_zero b a.
Proof.
  destruct a as [| |x|x|s| |], b as [| |y|y|t| |]; simpl; try reflexivity.
  - destruct x, y; reflexivity.
  - rewrite eqb_sym, andb_comm. reflexivity.
  - apply String.eqb_sym.
Qed.

(** The invariant of building a [Set]: no two elements are the same value,
    every element is kept as it is, and the elements are those added. *)
Lemma Set_of_from (xs : list value) :
  forall seen : list value,
  pairwise (fun a b => negb (same_value_zero a b)) seen = true ->
  Forall (fun c => Set_element c = c) seen ->
  let cs := fold_left Set_add xs seen in
  pairwise (fun a b => negb (same_value_zero a b)) cs = true
  /\ Forall (fun c => Set_element c = c) cs
  /\ (forall c, In c cs <-> In c seen \/ exists x, In x xs /\ c = Set_element x).
Proof.
  induction xs as [|x rest IH]; intros seen Hd Hk; cbn zeta; simpl.
  - split; [exact Hd|]. split; [exact Hk|].
    intros c. split; [auto|]. intros [H|(x & [] & _)]. exact H.
  - destruct (existsb (same_value_zero (Set_element x)) seen) eqn:Hex.
    + replace (Set_add seen x) with seen
        by (unfold Set_add; cbn zeta; rewrite Hex; reflexivity).
      destruct (IH seen Hd Hk) as (H1 & H2 & H3).
      split; [exact H1|]. split; [exact H2|].
      intros c. rewrite H3. split.
      * intros [H|(y & Hy & ->)]; [auto|]. right. exists y. auto.
      * intros [H|(y & [<-|Hy] & ->)]; [auto| |right; eauto].
        left. apply existsb_exists in Hex as (e & He & Hsame).
        rewrite Forall_forall in Hk.
        rewrite (same_value_zero_kept _ e (Set_element_kept x)
                   (Hk e (proj2 (list_elem_of_In _ _) He)) Hsame).
        exact He.
    + replace (Set_add seen x) with (seen ++ [Set_element x])
        by (unfold Set_add; cbn zeta; rewrite Hex; reflexivity).
      destruct (IH (seen ++ [Set_element x])) as (H1 & H2 & H3).
      * apply pairwise_lookup. intros i j a b Hij Ha Hb.
        destruct (decide (j < length seen)%nat) as [Hj|Hj].
        -- rewrite lookup_app_l in Ha, Hb by lia.
           rewrite pairwise_lookup in Hd. eauto.
        -- rewrite lookup_app_r in Hb by lia.
           apply list_lookup_singleton_Some in Hb as [Hj0 <-].
           rewrite lookup_app_l in Ha by lia.
           apply negb_true_iff.
           destruct (same_value_zero a (Set_element x)) eqn:Hs; [|reflexivity].
           assert (Hin : In a seen)
             by (apply list_elem_of_In; eapply list_elem_of_lookup_2; eauto).
           assert (Hsym : same_value_zero (Set_element x) a = true)
             by (rewrite same_value_zero_sym; exact Hs).
           rewrite <- Hex. symmetry. apply existsb_exists. eauto.
      * apply Forall_app. split; [exact Hk|]. constructor; [|constructor].
        apply Set_element_kept.
      * split; [exact H1|]. split; [exact H2|].
        intros c. rewrite H3, in_app_iff. simpl. split.
        -- intros [[H|[<-|[]]]|(y & Hy & ->)]; eauto.
        -- intros [H|(y & [<-|Hy] & ->)]; eauto.
Qed.

End CatalogFacts.

Section CatalogQueries.
Import JS Http Store Products CreateFacts ListFacts ProductFacts OrderFacts NumberFacts
  CatalogFacts.
Context {rt : Runtime}.

(** X10.  The featured listing answers 200 with at most six stored products:
    the first six featured ones, in stored order, when some product is
    featured, and the first six products when none is. *)
Theorem featured_products_shown (req : request) (w : world) :
  status (fst (featured_products req w)) = 200%nat ->
  let products := loaded "products" w in
  let featured := List.filter (fun p => truthy (get p "featured")) products in
  exists shown : list value,
    body (fst (featured_products req w)) = VArr shown
    /\ (length shown <= 6)%nat
    /\ (forall p, In p shown -> In p products)
    /\ (featured <> [] ->
        shown = take 6 featured
        /\ Forall (fun p => truthy (get p "featured") = true) shown)
    /\ (featured = [] ->
        shown = take 6 products
        /\ Forall (fun p => truthy (get p "featured") = false) products).
Proof.
  unfold featured_products, handler, featured_products_body, bind, pure, ret, respond.
  rewrite (StoreFacts.readData_loaded "products" w). cbn [fst snd].
  destruct (array_filter is_featured (loaded "products" w)) as [fs| |] eqn:Hf;
    cbn [fst snd status]; try discriminate.
  2:{ intros _. exfalso. eapply array_filter_no_return; eauto.
      intros; apply is_featured_no_return. }
  pose proof (array_filter_total _ (fun p => truthy (get p "featured")) _ _
                is_featured_get Hf) as ->.
  rewrite !slice_first_six.
  set (featured := List.filter _ (loaded "products" w)).
  destruct (take 6 featured) as [|p shown] eqn:Ht; cbn [fst snd body]; intros _.
  - exists (take 6 (loaded "products" w)).
    assert (Hnone : featured = []) by (destruct featured; [reflexivity|discriminate Ht]).
    split; [reflexivity|]. split; [rewrite length_take; lia|].
    split.
    { intros p Hp. apply list_elem_of_In. apply list_elem_of_In in Hp.
      apply elem_of_take in Hp as (i & Hi & _). eapply list_elem_of_lookup_2; eauto. }
    split; [intros H; contradiction|].
    intros _. split; [reflexivity|]. apply filter_nil_none. exact Hnone.
  - exists (p :: shown). rewrite <- Ht.
    split; [reflexivity|]. split; [rewrite length_take; lia|].
    split.
    { intros q Hq. apply list_elem_of_In in Hq.
      apply elem_of_take in Hq as (i & Hi & _).
      apply list_elem_of_lookup_2, list_elem_of_In, filter_In in Hi. tauto. }
    split.
    + intros _. split; [reflexivity|]. apply Forall_take. apply filter_all_kept.
    + intros Hnone. rewrite Hnone in Ht. discriminate Ht.
Qed.

(** X11.  The categories listing answers 200 with the categories of the
    stored products, each once and in the order of its first product: no
    two of the values are the same value, every product's category is among
    them, and each of them is the category of a product. *)
Theorem product_categories_distinct (req : request) (w : world) :
  status (fst (product_categories req w)) = 200%nat ->
  let products := loaded "products" w in
  exists categories : list value,
    body (fst (product_categories req w)) = VArr categories
    /\ pairwise (fun a b => negb (same_value_zero a b)) categories = true
    /\ (forall p, In p products -> In (Set_element (get p "category")) categories)
    /\ (forall c, In c categories ->
          exists p, In p products /\ c = Set_element (get p "category"))
    /\ (forall name, In (VStr name) categories <->
          exists p, In p products /\ get p "category" = VStr name).
Proof.
  unfold product_categories, handler, product_categories_body, bind, pure, ret.
  rewrite (StoreFacts.readData_loaded "products" w). cbn [fst snd].
  destruct (array_mapM (fun product => prop product "category") (loaded "products" w))
    as [cs| |] eqn:Hm; cbn [fst snd status]; try discriminate.
  2:{ intros _. exfalso. eapply array_mapM_no_return; eauto.
      intros; apply prop_no_return. }
  intros _. cbn [body]. exists (Set_of cs). split; [reflexivity|].
  assert (Hcs : cs = List.map (fun p => get p "category") (loaded "products" w)).
  { revert cs Hm. generalize (loaded "products" w) as ps.
    induction ps as [|p ps IH]; simpl; intros cs Hm.
    - injection Hm as <-. reflexivity.
    - unfold get at 1. destruct (prop p "category") as [c| |]; simpl in Hm;
        try discriminate.
      destruct (array_mapM _ ps) as [cs'| |]; simpl in Hm; try discriminate.
      injection Hm as <-. rewrite (IH cs' eq_refl). reflexivity. }
  destruct (Set_of_from cs [] eq_refl (List.Forall_nil _)) as (Hd & Hk & Hin).
  fold (Set_of cs) in Hd, Hk, Hin.
  split; [exact Hd|].
  assert (Hall : forall c, In c (Set_of cs) <->
            exists p, In p (loaded "products" w) /\ c = Set_element (get p "category")).
  { intros c. rewrite Hin, Hcs. split.
    - intros [[]|(x & Hx & ->)]. apply in_map_iff in Hx as (p & <- & Hp). eauto.
    - intros (p & Hp & ->). right. exists (get p "category").
      split; [|reflexivity]. apply in_map_iff. eauto. }
  split; [|split].
  - intros p Hp. apply Hall. eauto.
  - intros c Hc. apply Hall, Hc.
  - intros name. rewrite Hall. split.
    + intros (p & Hp & Heq). exists p. split; [exact Hp|].
      revert Heq. unfold Set_element. destruct (get p "category") as [| | |x| | |];
        try discriminate; try congruence.
      destruct (PrimFloat.is_zero x); discriminate.
    + intros (p & Hp & Heq). exists p. rewrite Heq. auto.
Qed.

End CatalogQueries.

Section CatalogChanges.
Import JS Http Store Products CreateFacts ListFacts ProductFacts NumberFacts
  CatalogFacts OrderRuns.
Context {rt : Runtime}.

Lemma has_id_found (productId : float) (p : value) :
  has_id productId p = Next true -> strict_eq (get p "id") (VNum productId) = true.
Proof. intros H. apply (has_id_object _ _ H). Qed.

Lemma has_id_missed (productId : float) (p : value) :
  has_id productId p = Next false -> strict_eq (get p "id") (VNum productId) = false.
Proof.
  unfold has_id, get. destruct p; simpl; try discriminate; intros H;
    first [injection H as H; exact H | reflexivity].
Qed.

Lemma has_id_flow (productId : float) (p : value) (r : response) :
  has_id productId p <> Return r.
Proof. unfold has_id. destruct p; discriminate. Qed.

(** X12.  Reading one product answers 200 with the first stored product
    whose [id] is the Number the path parameter parses to, and 404 only when
    no stored product has that [id]; a parameter that parses to NaN is never
    answered with a product. *)
Theorem get_product_found (req : request) (w : world) :
  let r := fst (get_product req w) in
  let products := loaded "products" w in
  let productId := parseInt (get (req_params req) "id") in
  (status r = 200%nat ->
   exists i, products !! i = Some (body r)
     /\ strict_eq (get (body r) "id") (VNum productId) = true
     /\ (forall j p, (j < i)%nat -> products !! j = Some p ->
                     strict_eq (get p "id") (VNum productId) = false))
  /\ (status r = 404%nat ->
      Forall (fun p => strict_eq (get p "id") (VNum productId) = false) products)
  /\ (PrimFloat.is_nan productId = true -> status r <> 200%nat)
  /\ (status r = 200%nat \/ status r = 404%nat \/ status r = 500%nat).
Proof.
  cbn zeta.
  unfold get_product, handler, get_product_body, bind, pure, ret, respond.
  destruct (prop (req_params req) "id") as [id|r|] eqn:Hid; cbn [fst snd status].
  2:{ exfalso. eapply prop_no_return; eauto. }
  2:{ repeat split; try discriminate; auto. }
  rewrite (prop_get _ _ _ Hid).
  rewrite (StoreFacts.readData_loaded "products" w). cbn [fst snd].
  destruct (array_find (has_id (parseInt id)) (loaded "products" w)) as [p|r|] eqn:Hf;
    cbn [fst snd status].
  2:{ exfalso. eapply array_find_no_return; eauto. intros; apply has_id_flow. }
  2:{ repeat split; try discriminate; auto. }
  destruct (array_find_found _ _ _ Hf) as [[-> Hnone]|[Hin Hpred]].
  - cbn. repeat split; try discriminate; auto.
    intros _. eapply Forall_impl; [exact Hnone|]. intros q Hq. apply has_id_missed, Hq.
  - destruct (has_id_object _ _ Hpred) as [Heq [fields ->]]. cbn [truthy negb fst body status].
    split; [|split; [discriminate|split; [|auto]]].
    + intros _.
      assert (Hfirst : exists i, loaded "products" w !! i = Some (VObj fields)
                /\ forall j q, (j < i)%nat -> loaded "products" w !! j = Some q ->
                               has_id (parseInt id) q = Next false).
      { revert Hf. generalize (loaded "products" w) as ps. clear Hin.
        induction ps as [|a ps IH]; simpl; [discriminate|].
        destruct (has_id (parseInt id) a) as [[|]| |] eqn:Ha; simpl; try discriminate.
        - intros H. injection H as ->. exists 0%nat. split; [reflexivity|]. intros; lia.
        - intros H. destruct (IH H) as (i & Hi & Hbefore). exists (S i).
          split; [exact Hi|]. intros [|j] q Hj Hq; simpl in Hq.
          + injection Hq as <-. exact Ha.
          + apply (Hbefore j q); [lia|exact Hq]. }
      destruct Hfirst as (i & Hi & Hbefore). exists i.
      split; [exact Hi|]. split; [exact Heq|].
      intros j q Hj Hq. apply has_id_missed. eauto.
    + intros Hnan _. revert Heq. unfold get; cbn [prop].
      destruct (lookup_field "id" fields); simpl; try discriminate.
      unfold PrimFloat.is_nan in Hnan. apply negb_true_iff in Hnan.
      rewrite FloatAxioms.eqb_spec in *. unfold SFeqb in *.
      destruct (Prim2SF (parseInt id)) as [s|s| |s m e] eqn:Hp;
        try (rewrite SFcompare_refl in Hnan by discriminate; discriminate Hnan).
      destruct (Prim2SF x) as [| | |]; simpl; discriminate.
Qed.

(** Taking an element out keeps a property of the pairs. *)
Lemma pairwise_delete {A : Type} (ok : A -> A -> bool) (l : list A) (i : nat) :
  pairwise ok l = true -> pairwise ok (delete i l) = true.
Proof.
  rewrite !pairwise_lookup. intros H j k x y Hjk Hx Hy.
  rewrite list_lookup_delete in Hx, Hy.
  destruct (decide (j < i)%nat), (decide (k < i)%nat);
    eapply H; try exact Hx; try exact Hy; lia.
Qed.

(** What [router.delete('/:id')] of the products does for an admin. *)
Lemma delete_product_run (req : request) (w : world) :
  not_admin req = Next false ->
  delete_product req w =
    match prop (req_params req) "id" with
    | Next id =>
        let products := loaded "products" w in
        match array_findIndex (has_id (parseInt id)) products with
        | Next (Some i) =>
            (Response 200 (VObj [("message", VStr "Product deleted successfully");
                                 ("product", nth i products VUndefined)]),
             saved "products" (delete i products) 0 w)
        | Next None =>
            (Response 404 (message "Product not found"), snd (readData "products" w))
        | _ => (Response 500 (message "Error deleting product"),
                snd (readData "products" w))
        end
    | _ => (Response 500 (message "Error deleting product"), w)
    end.
Proof.
  intros Hadmin.
  unfold delete_product, handler, delete_product_body, bind, pure, ret, respond.
  rewrite Hadmin.
  destruct (prop (req_params req) "id") as [id|r|] eqn:Hid; try reflexivity.
  2:{ exfalso. eapply prop_no_return; eauto. }
  rewrite (StoreFacts.readData_loaded "products" w). cbn [fst snd].
  destruct (array_findIndex (has_id (parseInt id)) (loaded "products" w))
    as [[i|]|r|] eqn:Hf; try reflexivity.
  2:{ exfalso. eapply array_findIndex_no_return; eauto. intros; apply has_id_flow. }
  destruct (StoreFacts.readData_clock "products" w) as (Hc & Hr & Hl).
  unfold saved. cbn [Nat.add].
  match goal with |- context [writeData ?f ?d ?w0] =>
    destruct (StoreFacts.writeData_next f d w0) as [ok Hok];
    destruct (writeData f d w0) as [r w3] eqn:Hw end.
  cbn [fst] in Hok. subst r. cbn [snd].
  f_equal.
  destruct (snd (readData "products" w)) as [d c n l] eqn:Hw1.
  cbn [clock reads written fs] in *. subst c n l.
  rewrite Hw. reflexivity.
Qed.

Lemma not_admin_or (req : request) :
  not_admin req = Next false \/ not_admin req <> Next false.
Proof. destruct (not_admin req) as [[|]| |]; auto; right; discriminate. Qed.

Lemma delete_product_denied (req : request) (w : world) :
  not_admin req <> Next false ->
  snd (delete_product req w) = w /\ status (fst (delete_product req w)) <> 200%nat.
Proof.
  intros H. unfold delete_product, handler, delete_product_body, bind, pure, respond.
  destruct (not_admin req) as [[|]|r|] eqn:Hn; cbn; auto.
  - contradiction.
  - exfalso. eapply not_admin_no_return; eauto.
Qed.

(** X13.  Deleting a product keeps what the catalog guarantees: whatever
    the request, the products are written back at most once, without the
    first product that has the id of the path and with every other product
    as it was and in its place; between them no two names are equal without
    regard to case, and no two ids are equal, if that held before. *)
Theorem delete_product_keeps (req : request) (w : world) :
  let products := loaded "products" w in
  let productId := parseInt (get (req_params req) "id") in
  (status (fst (delete_product req w)) <> 200%nat ->
   written (snd (delete_product req w)) = written w)
  /\ (status (fst (delete_product req w)) = 200%nat ->
      exists (i : nat) (left : list value),
        products = take i products ++ get (body (fst (delete_product req w))) "product"
                                      :: drop (S i) products
        /\ length (take i products) = i
        /\ left = take i products ++ drop (S i) products
        /\ written (snd (delete_product req w)) = written w ++ [("products", left)]
        /\ strict_eq (get (get (body (fst (delete_product req w))) "product") "id")
                     (VNum productId) = true
        /\ Forall (fun p => strict_eq (get p "id") (VNum productId) = false)
                  (take i products)
        /\ (names_distinct products -> names_distinct left)
        /\ (ids_distinct products -> ids_distinct left)).
Proof.
  cbn zeta.
  destruct (not_admin_or req) as [Hadmin|Hno].
  2:{ destruct (delete_product_denied req w Hno) as [-> Hst]. split; [auto|].
      intros H. contradiction. }
  rewrite (delete_product_run req w Hadmin).
  destruct (StoreFacts.readData_clock "products" w) as (Hc & Hr & Hl).
  destruct (prop (req_params req) "id") as [id| |] eqn:Hid;
    try (split; [auto|discriminate]).
  rewrite (prop_get _ _ _ Hid). cbn zeta.
  destruct (array_findIndex (has_id (parseInt id)) (loaded "products" w))
    as [[i|]| |] eqn:Hf; try (split; [auto|discriminate]).
  destruct (array_findIndex_found _ _ _ Hf) as (x & Hx & Hnth & Hpred).
  split; [intros H; exfalso; apply H; reflexivity|].
  intros _. cbn [fst snd body]. rewrite get_second by reflexivity. rewrite Hnth.
  exists i, (take i (loaded "products" w) ++ drop (S i) (loaded "products" w)).
  assert (Hlen : (i < length (loaded "products" w))%nat) by (eapply lookup_lt_Some; eauto).
  split.
  { rewrite <- (take_drop_middle _ _ _ Hx) at 1. reflexivity. }
  split; [rewrite length_take; lia|].
  split; [reflexivity|].
  split; [rewrite saved_written, delete_take_drop; reflexivity|].
  split; [exact (has_id_found _ _ Hpred)|].
  split.
  { apply Forall_forall. intros o Ho.
    apply list_elem_of_lookup_1 in Ho as [j Hj].
    pose proof (lookup_lt_Some _ _ _ Hj) as Hjlen. rewrite length_take in Hjlen.
    rewrite lookup_take_lt in Hj by lia.
    apply has_id_missed. apply (OrderFacts.array_findIndex_first _ _ _ Hf j o); [lia|exact Hj]. }
  rewrite <- delete_take_drop.
  split; apply pairwise_delete.
Qed.

End CatalogChanges.

Section CatalogGuards.
Import JS Http Store Products CreateFacts ListFacts ProductFacts NumberFacts
  CatalogFacts OrderRuns.
Context {rt : Runtime}.

Lemma not_admin_else (req : request) :
  get (req_user req) "role" <> VStr "admin" ->
  not_admin req = Next true
  \/ (not_admin req = Throw /\ (req_user req = VUndefined \/ req_user req = VNull)).
Proof.
  unfold not_admin, get. intros H.
  destruct (req_user req) as [| | | | | |u]; cbn in *; auto.
  destruct (lookup_field "role" u) as [| | | |s| |]; cbn; auto.
  destruct (String.eqb_spec s "admin") as [->|Hne]; cbn; auto.
  exfalso. apply H. reflexivity.
Qed.

Ltac refuse_else :=
  intros req w Hrole;
  destruct (not_admin_else req Hrole) as [Hn|[Hn Hu]];
  unfold handler, bind, pure, respond; rewrite Hn; cbn; auto.

(** X14.  The three admin routes of the products router refuse every other
    caller before they read or write anything: a caller whose role is not
    admin is answered 403, a request without a user 500, and the world is as
    it was. *)
Theorem products_admin_routes :
  admins_only create_product /\ admins_only update_product
  /\ admins_only delete_product.
Proof.
  split; [|split].
  - unfold admins_only, create_product, create_product_body. refuse_else.
  - unfold admins_only, update_product, update_product_body. refuse_else.
  - unfold admins_only, delete_product, delete_product_body. refuse_else.
Qed.

Ltac read_once :=
  repeat match goal with
         | |- context [match ?m with Next _ => _ | Return _ => _ | Throw => _ end] =>
             destruct m; cbn [fst snd]
         | |- context [match ?l with [] => _ | _ :: _ => _ end] =>
             destruct l; cbn [fst snd]
         | |- context [if ?c then _ else _] => destruct c; cbn [fst snd]
         end; auto.

Lemma list_products_world (req : request) (w : world) :
  snd (list_products req w) = w
  \/ snd (list_products req w) = snd (readData "products" w).
Proof.
  unfold list_products, handler, list_products_body, bind, pure, ret, respond.
  destruct (fields_of (req_query req)) as [q| |]; cbn; auto.
  rewrite (StoreFacts.readData_loaded "products" w). cbn [fst snd]. read_once.
Qed.

Lemma featured_products_world (req : request) (w : world) :
  snd (featured_products req w) = w
  \/ snd (featured_products req w) = snd (readData "products" w).
Proof.
  unfold featured_products, handler, featured_products_body, bind, pure, ret, respond.
  rewrite (StoreFacts.readData_loaded "products" w). cbn [fst snd]. read_once.
Qed.

Lemma product_categories_world (req : request) (w : world) :
  snd (product_categories req w) = w
  \/ snd (product_categories req w) = snd (readData "products" w).
Proof.
  unfold product_categories, handler, product_categories_body, bind, pure, ret, respond.
  rewrite (StoreFacts.readData_loaded "products" w). cbn [fst snd]. read_once.
Qed.

Lemma get_product_world (req : request) (w : world) :
  snd (get_product req w) = w \/ snd (get_product req w) = snd (readData "products" w).
Proof.
  unfold get_product, handler, get_product_body, bind, pure, ret, respond.
  destruct (prop (req_params req) "id") as [id| |]; cbn; auto.
  rewrite (StoreFacts.readData_loaded "products" w). cbn [fst snd]. read_once.
Qed.

(** X15.  The four reading routes of the products router only read:
    whatever the request, they never call [writeData], and afterwards every
    collection reads as before (a products file that was missing has been
    created empty). *)
Theorem products_queries_read_only :
  reads_only list_products /\ reads_only featured_products
  /\ reads_only product_categories /\ reads_only get_product.
Proof.
  split; [|split; [|split]].
  - apply (reads_only_intro _ "products"), list_products_world.
  - apply (reads_only_intro _ "products"), featured_products_world.
  - apply (reads_only_intro _ "products"), product_categories_world.
  - apply (reads_only_intro _ "products"), get_product_world.
Qed.

End CatalogGuards.

Section CatalogQueryRuns.
Import JS Http Store Products Sample.

(** The one featured product of the sample catalog. *)
Lemma featured_products_shown_witness :
  let w := world_of shop steady in
  body (fst (featured_products (get_as VUndefined []) w)) = VArr [widget].
Proof.
  cbv zeta.
  assert (Hst : status (fst (featured_products (get_as VUndefined [])
                               (world_of shop steady))) = 200%nat)
    by (vm_compute; reflexivity).
  destruct (featured_products_shown _ _ Hst) as (shown & -> & _ & _ & Hsome & _).
  destruct Hsome as [-> _]; [vm_compute; discriminate|].
  vm_compute. reflexivity.
Defined.

Lemma product_categories_distinct_witness :
  let w := world_of shop steady in
  body (fst (product_categories (get_as VUndefined []) w))
  = VArr [VStr "Tools"; VStr "Toys"]
  /\ exists p, In p (loaded "products" w) /\ get p "category" = VStr "Toys".
Proof.
  cbv zeta. split; [vm_compute; reflexivity|].
  assert (Hst : status (fst (product_categories (get_as VUndefined [])
                               (world_of shop steady))) = 200%nat)
    by (vm_compute; reflexivity).
  destruct (product_categories_distinct _ _ Hst) as (cs & Hb & _ & _ & _ & Hnames).
  apply Hnames.
  assert (Hcs : cs = [VStr "Tools"; VStr "Toys"]).
  { revert Hb. vm_compute. intros H. injection H as <-. reflexivity. }
  rewrite Hcs. simpl. auto.
Defined.

Lemma get_product_found_witness :
  let req := one_as VUndefined "2" in
  let w := world_of shop steady in
  fst (get_product (rt := Node.runtime) req w) = Response 200 gadget
  /\ exists i, loaded "products" w !! i = Some gadget.
Proof.
  cbv zeta.
  assert (Hr : fst (get_product (rt := Node.runtime) (one_as VUndefined "2")
                      (world_of shop steady)) = Response 200 gadget)
    by (vm_compute; reflexivity).
  split; [exact Hr|].
  destruct (@get_product_found Node.runtime (one_as VUndefined "2")
              (world_of shop steady)) as (Hfound & _).
  destruct Hfound as (i & Hi & _); [rewrite Hr; reflexivity|].
  exists i. rewrite Hr in Hi. exact Hi.
Defined.

(** An admin deletes the widget. *)
Lemma delete_product_keeps_witness :
  let req := one_as admin "1" in
  let w := world_of shop steady in
  written (snd (delete_product (rt := Node.runtime) req w)) = [("products", [gadget])]
  /\ names_distinct (rt := Node.runtime) [gadget].
Proof.
  cbv zeta.
  destruct (@delete_product_keeps Node.runtime (one_as admin "1") (world_of shop steady))
    as [_ Hok].
  destruct Hok as (i & remaining & _ & _ & Hleft & Hw & _ & _ & Hnames & _);
    [vm_compute; reflexivity|].
  assert (Hrem : remaining = [gadget]).
  { revert Hw. vm_compute. intros H. injection H as <-. reflexivity. }
  rewrite Hrem in *. split; [vm_compute; reflexivity|].
  apply Hnames. vm_compute. reflexivity.
Defined.

End CatalogQueryRuns.

(** ** The record store: writing and reading *)

Section StoreRoundTrip.
Import JS Http Store Orders CreateFacts ListFacts ProductFacts OrderFacts OrderRuns
  StableFacts RoundTripFacts.

(** X16.  Writing a collection and reading it compose: on a disk that can
    be written, [writeData] returns [true], a following [readData] of the
    collection returns the records [JSON.parse] reads from what
    [JSON.stringify] wrote for the data (the data itself when it holds only
    what JSON can hold) and changes nothing more, and every other collection
    reads as before. *)
Theorem write_then_read (filename : string) (data : list value) (w : world) :
  read_only (fs w) = false ->
  let w' := snd (writeData filename data w) in
  fst (writeData filename data w) = Next true
  /\ readData filename w' = (Next (stored_form data), w')
  /\ (stored_form data = data -> loaded filename w' = data)
  /\ (forall other, other <> filename -> loaded other w' = loaded other w).
Proof.
  intros Hro. cbn zeta.
  assert (Hst := StoreFacts.writeData_stored filename data w Hro).
  split.
  { unfold writeData, record_write, writeFileSync, mkdirSync.
    destruct w as [[dir ro fl] c n l]. cbn in Hro. subst ro. cbn.
    destruct dir; reflexivity. }
  split.
  { rewrite StoreFacts.readData_loaded.
    rewrite StoreFacts.readData_existing by (rewrite Hst; eauto).
    rewrite writeData_loaded by exact Hro. reflexivity. }
  split.
  { intros Hstable. rewrite writeData_loaded by exact Hro. exact Hstable. }
  intros other Hne. apply writeData_loaded_other, Hne.
Qed.

Lemma write_then_read_witness :
  let w := Sample.world_of Sample.empty_shop Sample.steady in
  Store.loaded "orders" (snd (writeData "orders" [Sample.first_order] w))
  = [Sample.first_order].
Proof.
  cbv zeta.
  destruct (write_then_read "orders" [Sample.first_order]
              (Sample.world_of Sample.empty_shop Sample.steady) eq_refl)
    as (_ & _ & Hsame & _).
  apply Hsame. vm_compute. reflexivity.
Defined.

End StoreRoundTrip.

Section WriteFailures.
Import JS Http Store Orders CreateFacts ListFacts ProductFacts OrderFacts OrderRuns
  StableFacts RoundTripFacts.
Context {rt : Runtime}.

Lemma write_protected_loaded (name : string) (w : world) :
  loaded name (write_protected w) = loaded name w.
Proof.
  rewrite !StoreFacts.loaded_stored. unfold stored, write_protected, set_fs.
  cbn [fs data_dir files]. reflexivity.
Qed.

Lemma write_protected_kept (filename : string) (data : list value) (n : nat)
    (w : world) (name : string) :
  loaded name (saved filename data n (write_protected w)) = loaded name w.
Proof.
  unfold saved.
  rewrite (loaded_fs name _ (write_protected w)).
  - apply write_protected_loaded.
  - rewrite StoreFacts.writeData_read_only.
    + cbn [fs]. unfold readData, write_protected, set_fs, writeFileSync.
      cbn [fs read_only data_dir files].
      destruct (negb (existsSync filename _)); cbn; [reflexivity|].
      destruct (_ !! filename) as [[rs|]|]; reflexivity.
    + cbn [fs]. rewrite (proj2 (StoreFacts.readData_flags filename (write_protected w))).
      reflexivity.
Qed.

Lemma update_order_status_protected (req : request) (w : world) :
  fst (update_order_status req (write_protected w)) = fst (update_order_status req w)
  /\ forall name,
       loaded name (snd (update_order_status req (write_protected w))) = loaded name w.
Proof.
  destruct (not_admin_cases req) as [Hadmin|Hno].
  2:{ unfold update_order_status, handler, update_order_status_body, bind, pure, respond.
      destruct (not_admin req) as [[|]|r|] eqn:Hn; cbn; try contradiction;
        split; auto using write_protected_loaded. }
  rewrite !(update_order_status_run _ _ Hadmin).
  assert (Hkeep : forall name,
            loaded name (snd (readData "orders" (write_protected w))) = loaded name w).
  { intros name. rewrite readData_keeps. apply write_protected_loaded. }
  destruct (prop (req_params req) "id") as [id| |];
    [|split; [reflexivity|intros; apply write_protected_loaded]..].
  cbn zeta. rewrite ?write_protected_loaded.
  change (clock (write_protected w)) with (clock w).
  change (reads (write_protected w)) with (reads w).
  split.
  - destruct (fields_of (req_body req)) as [b| |]; [|reflexivity..].
    destruct (invalid_status (b "status")); [reflexivity|].
    destruct (array_findIndex (has_id (parseInt id)) (loaded "orders" w))
      as [[i|]| |]; try reflexivity.
    destruct (nth i (loaded "orders" w) VUndefined); reflexivity.
  - intros name. rewrite ?write_protected_loaded.
    destruct (fields_of (req_body req)) as [b| |];
      cbn [snd]; try apply write_protected_loaded.
    destruct (invalid_status (b "status")); cbn [snd]; try apply write_protected_loaded.
    destruct (array_findIndex (has_id (parseInt id)) (loaded "orders" w))
      as [[i|]| |]; cbn [snd]; auto.
    destruct (nth i (loaded "orders" w) VUndefined); cbn [snd]; auto.
    apply write_protected_kept.
Qed.

Lemma delete_order_protected (req : request) (w : world) :
  fst (delete_order req (write_protected w)) = fst (delete_order req w)
  /\ forall name,
       loaded name (snd (delete_order req (write_protected w))) = loaded name w.
Proof.
  destruct (not_admin_cases req) as [Hadmin|Hno].
  2:{ unfold delete_order, handler, delete_order_body, bind, pure, respond.
      destruct (not_admin req) as [[|]|r|] eqn:Hn; cbn; try contradiction;
        split; auto using write_protected_loaded. }
  rewrite !(delete_order_run _ _ Hadmin).
  assert (Hkeep : forall name,
            loaded name (snd (readData "orders" (write_protected w))) = loaded name w).
  { intros name. rewrite readData_keeps. apply write_protected_loaded. }
  destruct (prop (req_params req) "id") as [id| |];
    [|split; [reflexivity|intros; apply write_protected_loaded]..].
  cbn zeta. rewrite ?write_protected_loaded.
  split.
  - destruct (array_findIndex (has_id (parseInt id)) (loaded "orders" w))
      as [[i|]| |]; reflexivity.
  - intros name. rewrite ?write_protected_loaded.
    destruct (array_findIndex (has_id (parseInt id)) (loaded "orders" w))
      as [[i|]| |]; cbn [snd]; auto.
    apply write_protected_kept.
Qed.

(** X17.  A write that fails is not reported: the answers of the status
    update and of the deletion of an order are the same on a disk that
    cannot be written as on one that can, and on the disk that cannot be
    written every collection reads afterwards as before, also after an
    answer of 200. *)
Theorem write_failure_unreported (req : request) (w : world) :
  fst (update_order_status req (write_protected w)) = fst (update_order_status req w)
  /\ fst (delete_order req (write_protected w)) = fst (delete_order req w)
  /\ (forall name,
        loaded name (snd (update_order_status req (write_protected w))) = loaded name w
        /\ loaded name (snd (delete_order req (write_protected w))) = loaded name w).
Proof.
  destruct (update_order_status_protected req w) as [Hu Hukeep].
  destruct (delete_order_protected req w) as [Hd Hdkeep].
  split; [exact Hu|]. split; [exact Hd|].
  intros name. split; [apply Hukeep|apply Hdkeep].
Qed.

End WriteFailures.

(** ** The pure helpers *)

Module PatternFacts.
Import JS Http Store Helpers.

Lemma matches_end (s : string) : matches [] s = true <-> s = "".
Proof. destruct s; simpl; split; auto; discriminate. Qed.

Lemma matches_one (cls : ascii -> bool) (re : list item) (s : string) :
  matches (One cls :: re) s = true <->
  exists c r, s = String c r /\ cls c = true /\ matches re r = true.
Proof.
  destruct s as [|c r]; simpl.
  - split; [discriminate|]. intros (c & r & H & _). discriminate H.
  - rewrite andb_true_iff. split.
    + intros [H1 H2]. eauto.
    + intros (c' & r' & H & H1 & H2). injection H as -> ->. auto.
Qed.

(** A [+] matches a prefix of one or more characters of its class. *)
Lemma matches_plus (cls : ascii -> bool) (re : list item) (s : string) :
  matches (Plus cls :: re) s = true <->
  exists p r, s = p +:+ r /\ p <> "" /\ all_in cls p = true /\ matches re r = true.
Proof.
  induction s as [|c s IH].
  - simpl. split; [discriminate|].
    intros (p & r & H & Hp & _). destruct p; [contradiction|discriminate H].
  - change (matches (Plus cls :: re) (String c s))
      with (cls c && (matches (Plus cls :: re) s || matches re s)).
    rewrite andb_true_iff, orb_true_iff, IH. split.
    + intros [Hc [(p & r & -> & Hp & Hall & Hr)|Hr]].
      * exists (String c p), r. simpl. rewrite Hc, Hall.
        repeat split; auto; discriminate.
      * exists (String c ""), s. simpl. rewrite Hc.
        repeat split; auto; discriminate.
    + intros (p & r & H & Hp & Hall & Hr).
      destruct p as [|c' p]; [contradiction|].
      simpl in H. injection H as <- ->. simpl in Hall.
      apply andb_true_iff in Hall as [Hc Hall]. split; [exact Hc|].
      destruct p as [|c'' p'].
      * right. exact Hr.
      * left. exists (String c'' p'), r. repeat split; auto; discriminate.
Qed.

Lemma append_cons (c : ascii) (s t : string) : String c s +:+ t = String c (s +:+ t).
Proof. reflexivity. Qed.

Lemma append_nil (t : string) : t +:+ "" = t.
Proof.
  induction t as [|c t IHt]; [reflexivity|]. rewrite append_cons, IHt. reflexivity.
Qed.

Lemma all_in_length (cls : ascii -> bool) (s : string) :
  all_in cls s = true <-> Forall (fun c => cls c = true) (list_ascii_of_string s).
Proof.
  induction s as [|c s IH]; simpl.
  - split; auto.
  - rewrite andb_true_iff, IH. split.
    + intros [H1 H2]. constructor; auto.
    + intros H. inversion H; subst. auto.
Qed.

End PatternFacts.

Section EmailFormat.
Import JS Http Store Helpers PatternFacts.
Context {rt : Runtime}.

(** X18.  [isValidEmail] accepts exactly the values whose String is a local
    part, an [@], a domain, a dot and an ending, each of them non-empty and
    free of white space and of [@]; so an accepted address has one [@] and no
    white space. *)
Theorem isValidEmail_shape (email : value) :
  isValidEmail email = true <->
  exists local domain ending : string,
    ToString email = local +:+ "@" +:+ domain +:+ "." +:+ ending
    /\ local <> "" /\ domain <> "" /\ ending <> ""
    /\ all_in not_space_or_at local = true
    /\ all_in not_space_or_at domain = true
    /\ all_in not_space_or_at ending = true.
Proof.
  unfold isValidEmail, emailRegex. generalize (ToString email) as s. intros s.
  rewrite matches_plus. split.
  - intros (local & r1 & -> & Hl & Hla & H).
    apply matches_one in H as (c1 & r2 & -> & Hc1 & H).
    apply Ascii.eqb_eq in Hc1 as <-.
    apply matches_plus in H as (domain & r3 & -> & Hd & Hda & H).
    apply matches_one in H as (c2 & r4 & -> & Hc2 & H).
    apply Ascii.eqb_eq in Hc2 as <-.
    apply matches_plus in H as (ending & r5 & -> & He & Hea & H).
    apply matches_end in H as ->.
    exists local, domain, ending.
    rewrite append_nil. repeat split; auto.
  - intros (local & domain & ending & -> & Hl & Hd & He & Hla & Hda & Hea).
    exists local, ("@" +:+ domain +:+ "." +:+ ending).
    repeat split; auto.
    apply matches_one. exists "@"%char, (domain +:+ "." +:+ ending).
    repeat split; auto.
    apply matches_plus. exists domain, ("." +:+ ending). repeat split; auto.
    apply matches_one. exists "."%char, ending. repeat split; auto.
    apply matches_plus. exists ending, "". repeat split; auto.
    symmetry. apply append_nil.
Qed.

End EmailFormat.

Section Sanitizing.
Import JS Http Store Helpers PatternFacts.

Lemma remove_angle_brackets_clean (s : string) :
  all_in (fun c => negb (Ascii.eqb c "<" || Ascii.eqb c ">")) (remove_angle_brackets s)
  = true
  /\ (String.length (remove_angle_brackets s) <= String.length s)%nat.
Proof.
  induction s as [|c s [IH1 IH2]]; simpl; [auto|].
  destruct (Ascii.eqb c "<" || Ascii.eqb c ">") eqn:Hc; simpl.
  - split; [exact IH1|lia].
  - rewrite Hc, IH1. split; [reflexivity|lia].
Qed.

Lemma remove_angle_brackets_same (s : string) :
  all_in (fun c => negb (Ascii.eqb c "<" || Ascii.eqb c ">")) s = true ->
  remove_angle_brackets s = s.
Proof.
  induction s as [|c s IH]; simpl; [reflexivity|].
  intros H. apply andb_true_iff in H as [Hc Hs]. apply negb_true_iff in Hc.
  rewrite Hc, (IH Hs). reflexivity.
Qed.

Lemma trim_start_length (s : string) :
  (String.length (trim_start s) <= String.length s)%nat.
Proof.
  induction s as [|c s IH]; simpl; [lia|].
  destruct (white_space c); simpl; lia.
Qed.

Lemma rev_app_length (s acc : string) :
  String.length (String.rev_app s acc) = (String.length s + String.length acc)%nat.
Proof.
  revert acc. induction s as [|c s IH]; intros acc; simpl; [reflexivity|].
  rewrite IH. simpl. lia.
Qed.

Lemma trim_length (s : string) : (String.length (trim s) <= String.length s)%nat.
Proof.
  unfold trim, String.rev. rewrite rev_app_length. simpl.
  pose proof (trim_start_length (String.rev_app (trim_start s) "")) as H1.
  rewrite rev_app_length in H1. simpl in H1.
  pose proof (trim_start_length s) as H2. unfold String.rev in *. lia.
Qed.

(** X19.  [sanitizeInput] returns a value that is not a String as it is, and
    for a String a String without any [<] or [>] that is no longer than the
    input; a String without angle brackets loses only the white space at
    its ends. *)
Theorem sanitizeInput_clean (input : value) :
  match input with
  | VStr s =>
      exists t, sanitizeInput input = VStr t
        /\ all_in (fun c => negb (Ascii.eqb c "<" || Ascii.eqb c ">")) t = true
        /\ (String.length t <= String.length s)%nat
        /\ (all_in (fun c => negb (Ascii.eqb c "<" || Ascii.eqb c ">")) (trim s) = true ->
            t = trim s)
  | _ => sanitizeInput input = input
  end.
Proof.
  destruct input as [| | | |s| |]; try reflexivity.
  exists (remove_angle_brackets (trim s)).
  destruct (remove_angle_brackets_clean (trim s)) as [H1 H2].
  split; [reflexivity|]. split; [exact H1|].
  split; [pose proof (trim_length s); lia|].
  apply remove_angle_brackets_same.
Qed.

End Sanitizing.

Module ClampFacts.
Import JS NumberFacts.

Lemma ltb_compare (x y : float) :
  PrimFloat.ltb x y = match SFcompare (Prim2SF x) (Prim2SF y) with
                      | Some Lt => true
                      | _ => false
                      end.
Proof. rewrite FloatAxioms.ltb_spec. reflexivity. Qed.

Lemma leb_compare (x y : float) :
  PrimFloat.leb x y = match SFcompare (Prim2SF x) (Prim2SF y) with
                      | Some Lt | Some Eq => true
                      | _ => false
                      end.
Proof. rewrite FloatAxioms.leb_spec. reflexivity. Qed.

Lemma eqb_compare (x y : float) :
  PrimFloat.eqb x y = match SFcompare (Prim2SF x) (Prim2SF y) with
                      | Some Eq => true
                      | _ => false
                      end.
Proof. rewrite FloatAxioms.eqb_spec. reflexivity. Qed.

Lemma ltb_antisym (x y : float) : PrimFloat.ltb x y = true -> PrimFloat.ltb y x = false.
Proof.
  rewrite !ltb_compare, (SFcompare_antisym (Prim2SF x) (Prim2SF y)).
  destruct (SFcompare (Prim2SF x) (Prim2SF y)) as [[| |]|]; simpl; auto; discriminate.
Qed.

Lemma leb_ltb_eqb (x y : float) :
  PrimFloat.leb x y = true -> PrimFloat.ltb x y = false -> PrimFloat.eqb x y = true.
Proof.
  rewrite leb_compare, ltb_compare, eqb_compare.
  destruct (SFcompare (Prim2SF x) (Prim2SF y)) as [[| |]|]; auto.
Qed.

Lemma is_nan_compare (x : float) :
  PrimFloat.is_nan x = match Prim2SF x with S754_nan => true | _ => false end.
Proof.
  unfold PrimFloat.is_nan. rewrite eqb_compare.
  destruct (Prim2SF x) as [s|s| |s m e] eqn:Hx; try reflexivity;
    rewrite SFcompare_refl by discriminate; reflexivity.
Qed.

Lemma leb_numbers (x y : float) :
  PrimFloat.leb x y = true -> PrimFloat.is_nan x = false /\ PrimFloat.is_nan y = false.
Proof.
  rewrite leb_compare, !is_nan_compare.
  destruct (Prim2SF x) as [s|s| |s m e], (Prim2SF y) as [t|t| |t n f]; simpl; auto;
    try discriminate; destruct s; discriminate.
Qed.

Lemma one_spec : Prim2SF 1 = S754_finite false 4503599627370496 (-52).
Proof. reflexivity. Qed.

(** A Number that is at least 1 is not a zero. *)
Lemma leb_one_nonzero (p : float) :
  PrimFloat.leb 1 p = true -> PrimFloat.is_zero p = false.
Proof.
  intros H. unfold PrimFloat.is_zero. change PrimFloat.zero with 0%float.
  destruct (PrimFloat.eqb p 0) eqn:Hz; [|reflexivity].
  destruct (eqb_zero _ Hz) as [s Hs].
  rewrite leb_compare, Hs, one_spec in H. discriminate H.
Qed.

(** A Number that is not above a zero is not above 1. *)
Lemma not_above_zero (t p : float) (s : bool) :
  Prim2SF t = S754_zero s -> PrimFloat.ltb t p = false -> PrimFloat.ltb 1 p = false.
Proof.
  intros Ht. rewrite !ltb_compare, Ht, one_spec.
  destruct (Prim2SF p) as [u|u| |u m e]; simpl; auto; destruct u; auto; discriminate.
Qed.

(** [Math.max(1, m)] is never below 1, and is 1 when [m] is not above 1. *)
Lemma Math_max_one (m : float) : PrimFloat.ltb (Math_max 1 m) 1 = false.
Proof.
  unfold Math_max.
  destruct (PrimFloat.is_nan 1 || PrimFloat.is_nan m); [reflexivity|].
  destruct (PrimFloat.ltb 1 m) eqn:H1; [apply ltb_antisym, H1|].
  destruct (PrimFloat.ltb m 1); reflexivity.
Qed.

Lemma Math_max_one_low (m : float) :
  PrimFloat.is_nan m = false -> PrimFloat.ltb 1 m = false -> Math_max 1 m = 1%float.
Proof.
  intros Hn H1. unfold Math_max. rewrite Hn, H1.
  change (PrimFloat.is_nan 1) with false. cbn [orb].
  destruct (PrimFloat.ltb m 1); reflexivity.
Qed.

Lemma Math_max_one_high (p : float) :
  PrimFloat.leb 1 p = true -> Math_max 1 p = p.
Proof.
  intros H. destruct (leb_numbers _ _ H) as [_ Hn].
  unfold Math_max. rewrite Hn. change (PrimFloat.is_nan 1) with false. cbn [orb].
  destruct (PrimFloat.ltb 1 p) eqn:H1; [reflexivity|].
  rewrite (leb_not_ltb _ _ H).
  change (PrimFloat.get_sign 1) with false. cbv iota.
  apply CatalogFacts.eqb_equal; [apply leb_ltb_eqb; assumption|reflexivity].
Qed.

Lemma Math_min_low (p t : float) :
  PrimFloat.leb 1 p = true -> PrimFloat.leb p t = true -> Math_min p t = p.
Proof.
  intros H1 Ht. destruct (leb_numbers _ _ Ht) as [Hp Hn].
  unfold Math_min. rewrite Hp, Hn. cbn [orb].
  destruct (PrimFloat.ltb p t) eqn:Hlt; [reflexivity|].
  rewrite (leb_not_ltb _ _ Ht).
  destruct (PrimFloat.get_sign p); [reflexivity|].
  symmetry. apply CatalogFacts.eqb_equal; [apply leb_ltb_eqb; assumption|].
  apply leb_one_nonzero, H1.
Qed.

(** The smaller of a Number and a zero is a Number not above 1. *)
Lemma Math_min_zero (p t : float) (s : bool) :
  Prim2SF t = S754_zero s -> PrimFloat.is_nan p = false ->
  PrimFloat.is_nan (Math_min p t) = false /\ PrimFloat.ltb 1 (Math_min p t) = false.
Proof.
  intros Ht Hp.
  assert (Hn : PrimFloat.is_nan t = false) by (rewrite is_nan_compare, Ht; reflexivity).
  assert (H1t : PrimFloat.ltb 1 t = false)
    by (rewrite ltb_compare, Ht, one_spec; reflexivity).
  unfold Math_min. rewrite Hp, Hn. cbn [orb].
  destruct (PrimFloat.ltb p t) eqn:Hlt.
  { split; [exact Hp|]. eapply not_above_zero; [exact Ht|]. apply ltb_antisym, Hlt. }
  destruct (PrimFloat.ltb t p) eqn:Hgt; [auto|].
  destruct (PrimFloat.get_sign p); [|auto].
  split; [exact Hp|]. eapply not_above_zero; eauto.
Qed.

End ClampFacts.

Section Pagination.
Import JS Http Store Helpers NumberFacts ClampFacts.
Context {rt : Runtime}.

(** X20.  [getPaginationData] clamps the current page: it is never below 1;
    a requested page between 1 and the number of pages is kept as it is;
    and when the number of pages is zero the current page is 1 whatever page
    was requested, with no next and no previous page. *)
Theorem getPaginationData_clamped (totalItems page limit : value) :
  let d := getPaginationData totalItems page limit in
  let requested := ToNumber (or_default page (VNum 1)) in
  exists totalPages currentPage : float,
    get d "totalPages" = VNum totalPages
    /\ get d "currentPage" = VNum currentPage
    /\ totalPages = Math_ceil (js_div totalItems (or_default limit (VNum 10)))
    /\ PrimFloat.ltb currentPage 1 = false
    /\ (PrimFloat.leb 1 requested = true ->
        PrimFloat.leb requested totalPages = true -> currentPage = requested)
    /\ (PrimFloat.eqb totalPages 0 = true ->
        PrimFloat.is_nan requested = false ->
        currentPage = 1%float
        /\ get d "hasNext" = VBool false /\ get d "hasPrev" = VBool false).
Proof.
  cbn zeta. unfold getPaginationData.
  set (t := Math_ceil (js_div totalItems (or_default limit (VNum 10)))).
  set (p := ToNumber (or_default page (VNum 1))).
  exists t, (Math_max 1 (Math_min p t)).
  split; [reflexivity|]. split; [reflexivity|]. split; [reflexivity|].
  split; [apply Math_max_one|]. split.
  - intros H1 Ht. rewrite (Math_min_low _ _ H1 Ht). apply Math_max_one_high, H1.
  - intros Hz Hp. destruct (eqb_zero _ Hz) as [s Hs].
    destruct (Math_min_zero p t s Hs Hp) as [Hn Hlow].
    unfold get. cbn [prop lookup_field String.eqb Ascii.eqb Bool.eqb].
    rewrite (Math_max_one_low _ Hn Hlow).
    split; [reflexivity|]. split; [|reflexivity].
    f_equal. rewrite ltb_compare, Hs, one_spec. reflexivity.
Qed.

End Pagination.

(** ** The profile routes *)

Module ProfileFacts.
Import JS Http Store Auth CreateFacts ListFacts ProductFacts OrderFacts OrderRuns.
Local Open Scope js_scope.

(** What the rest of the destructuring keeps and what it leaves out. *)
Lemma lookup_rest_other (k : string) (fields : list (string * value)) :
  k <> "password" ->
  lookup_field k (List.filter (fun kv => negb (String.eqb "password" (fst kv))) fields)
  = lookup_field k fields.
Proof.
  intros Hk. induction fields as [|[k' v] rest IH]; [reflexivity|].
  cbn [List.filter fst lookup_field].
  destruct (String.eqb_spec "password" k') as [<-|Hne]; cbn [negb lookup_field].
  - destruct (String.eqb_spec k "password"); [contradiction|exact IH].
  - destruct (String.eqb k k'); [reflexivity|exact IH].
Qed.

Lemma rest_no_password (fields : list (string * value)) :
  Forall (fun kv => fst kv <> "password")
         (List.filter (fun kv => negb (String.eqb "password" (fst kv))) fields).
Proof.
  apply Forall_forall. intros kv Hkv. apply list_elem_of_In, filter_In in Hkv as [_ H].
  apply negb_true_iff, String.eqb_neq in H. congruence.
Qed.

Lemma lookup_absent (k : string) (fields : list (string * value)) :
  Forall (fun kv => fst kv <> k) fields -> lookup_field k fields = VUndefined.
Proof.
  induction 1 as [|[k' v] rest Hk _ IH]; [reflexivity|].
  cbn [lookup_field fst] in *. destruct (String.eqb_spec k k'); [congruence|exact IH].
Qed.

Section Routes.
Context {rt : Runtime}.

Lemma is_caller_true (req : request) (u : value) :
  is_caller req u = Next true ->
  strict_eq (get u "id") (get (req_user req) "userId") = true.
Proof.
  unfold is_caller, get. destruct (prop u "id"); simpl; try discriminate.
  destruct (prop (req_user req) "userId"); simpl; try discriminate.
  intros H. injection H as H. exact H.
Qed.

Lemma is_caller_no_return (req : request) (u : value) (r : response) :
  is_caller req u <> Return r.
Proof.
  unfold is_caller. destruct (prop u "id") eqn:Hu; simpl; try discriminate.
  - destruct (prop (req_user req) "userId") eqn:Hc; simpl; try discriminate.
    exfalso. eapply prop_no_return; eauto.
  - exfalso. eapply prop_no_return; eauto.
Qed.

Lemma email_taken_no_return (req : request) (email u : value) (r : response) :
  email_taken req email u <> Return r.
Proof.
  unfold email_taken. destruct u; simpl; try discriminate;
    destruct email; simpl; try discriminate;
    try (destruct (strict_eq _ _); try discriminate;
         destruct (req_user req); discriminate).
Qed.

Lemma rest_without_no_return (k : string) (v : value) (r : response) :
  rest_without k v <> Return r.
Proof. destruct v; discriminate. Qed.

End Routes.
End ProfileFacts.

Section Profiles.
Import JS Http Store Auth CreateFacts ListFacts ProductFacts OrderFacts OrderRuns
  ProfileFacts.
Context {rt : Runtime}.

(** X21.  The profile route never sends the password: when it answers 200,
    the user of the body is a stored user whose [id] is strictly equal to
    the caller's [userId], with every own property of that record but
    [password], of which the body has none. *)
Theorem get_profile_hides_password (req : request) (w : world) :
  status (fst (get_profile req w)) = 200%nat ->
  exists (stored : value) (shown : list (string * value)),
    get (body (fst (get_profile req w))) "user" = VObj shown
    /\ In stored (loaded "users" w)
    /\ strict_eq (get stored "id") (get (req_user req) "userId") = true
    /\ Forall (fun kv => fst kv <> "password") shown
    /\ lookup_field "password" shown = VUndefined
    /\ (forall k, k <> "password" ->
          lookup_field k shown = lookup_field k (own_properties stored)).
Proof.
  unfold get_profile, handler, get_profile_body, bind, pure, ret, respond.
  rewrite (StoreFacts.readData_loaded "users" w). cbn [fst snd].
  destruct (array_find (is_caller req) (loaded "users" w)) as [user|r|] eqn:Hf;
    cbn [fst snd status]; try discriminate.
  2:{ intros _. exfalso. eapply array_find_no_return; eauto.
      intros; apply is_caller_no_return. }
  destruct (truthy user) eqn:Ht; cbn [negb fst snd status]; [|discriminate].
  destruct (array_find_found _ _ _ Hf) as [[-> _]|[Hin Hpred]]; [discriminate Ht|].
  destruct (rest_without "password" user) as [rest|r|] eqn:Hrest;
    cbn [fst snd status]; try discriminate.
  2:{ intros _. exfalso. eapply rest_without_no_return; eauto. }
  intros _. cbn [body].
  assert (Hshown : rest = VObj (List.filter (fun kv => negb (String.eqb "password" (fst kv)))
                                  (own_properties user))).
  { revert Hrest. unfold rest_without. destruct user; try discriminate;
      intros H; injection H as <-; reflexivity. }
  exists user, (List.filter (fun kv => negb (String.eqb "password" (fst kv)))
                  (own_properties user)).
  split; [rewrite Hshown; reflexivity|].
  split; [exact Hin|]. split; [exact (is_caller_true _ _ Hpred)|].
  split; [apply rest_no_password|].
  split; [apply lookup_absent, rest_no_password|].
  intros k Hk. apply lookup_rest_other, Hk.
Qed.

End Profiles.

Section ProfileUpdates.
Import JS Http Store Auth CreateFacts ListFacts ProductFacts OrderFacts OrderRuns
  ProfileFacts.
Context {rt : Runtime}.

(** What [router.put('/profile')] does, step by step. *)
Lemma update_profile_run (req : request) (w : world) (b : string -> value) :
  fields_of (req_body req) = Next b ->
  update_profile req w =
    let users := loaded "users" w in
    let w1 := snd (readData "users" w) in
    match array_findIndex (is_caller req) users with
    | Next (Some i) =>
        let user := nth i users VUndefined in
        match prop user "email" with
        | Next current =>
            match (if truthy (b "email") && negb (strict_eq (b "email") current)
                   then array_find (email_taken req (b "email")) users
                   else Next VUndefined) with
            | Next existing =>
                if truthy existing then (Response 400 (message "Email already taken"), w1)
                else
                  match (if truthy (b "email")
                         then flow_bind (toLowerCase (b "email"))
                                (fun e => Next [("email", VStr e)])
                         else Next []) with
                  | Next lowered =>
                      let user' :=
                        assigned user (profile_updates b lowered (clock w (reads w))) in
                      (Response 200
                         (VObj [("message", VStr "Profile updated successfully");
                                ("user",
                                 VObj (List.filter
                                         (fun kv => negb (String.eqb "password" (fst kv)))
                                         (snd user')))]),
                       saved "users" (<[i := fst user']> users) 1 w)
                  | _ => (Response 500 (message "Server error"), w1)
                  end
            | _ => (Response 500 (message "Server error"), w1)
            end
        | _ => (Response 500 (message "Server error"), w1)
        end
    | Next None => (Response 404 (message "User not found"), w1)
    | _ => (Response 500 (message "Server error"), w1)
    end.
Proof.
  intros Hb.
  unfold update_profile, handler, update_profile_body, bind, pure, ret, respond.
  rewrite Hb.
  rewrite (StoreFacts.readData_loaded "users" w). cbn [fst snd]. cbn zeta.
  destruct (array_findIndex (is_caller req) (loaded "users" w)) as [[i|]|r|] eqn:Hf;
    try reflexivity.
  2:{ exfalso. eapply array_findIndex_no_return; eauto.
      intros; apply is_caller_no_return. }
  destruct (prop (nth i (loaded "users" w) VUndefined) "email") as [current|r|] eqn:Hc;
    try reflexivity.
  2:{ exfalso. eapply prop_no_return; eauto. }
  destruct (if truthy (b "email") && negb (strict_eq (b "email") current)
            then array_find (email_taken req (b "email")) (loaded "users" w)
            else Next VUndefined) as [existing|r|] eqn:He; try reflexivity.
  2:{ exfalso. destruct (truthy (b "email") && negb (strict_eq (b "email") current));
        [|discriminate He].
      eapply array_find_no_return; eauto. intros; apply email_taken_no_return. }
  destruct (truthy existing); [reflexivity|].
  destruct (if truthy (b "email")
            then flow_bind (toLowerCase (b "email")) (fun e => Next [("email", VStr e)])
            else Next []) as [lowered|r|] eqn:Hl; try reflexivity.
  2:{ exfalso. destruct (truthy (b "email")); [|discriminate Hl].
      destruct (b "email"); discriminate Hl. }
  destruct (StoreFacts.readData_clock "users" w) as (Hclock & Hreads & Hlog).
  unfold Date_now, saved. cbn [fs clock reads written].
  rewrite !Hclock, !Hreads, !Hlog. cbn [Nat.add].
  match goal with |- context [writeData ?f ?d ?w0] =>
    destruct (StoreFacts.writeData_next f d w0) as [ok Hok];
    destruct (writeData f d w0) as [r w3] end.
  cbn [fst] in Hok. subst r. reflexivity.
Qed.

(** Assignments to other properties leave a property as it is. *)
Lemma assigned_other (target : value) (updates : list (string * value)) (k : string) :
  Forall (fun kv => fst kv <> k) updates ->
  get (fst (assigned target updates)) k = get target k
  /\ lookup_field k (snd (assigned target updates)) = lookup_field k (own_properties target).
Proof.
  intros Hk.
  assert (Hfold : forall fields,
            lookup_field k (fold_left (fun fs kv => set_field (fst kv) (snd kv) fs)
                              updates fields) = lookup_field k fields).
  { induction Hk as [|[k' v] rest Hne _ IH]; intros fields; simpl; [reflexivity|].
    rewrite IH. apply lookup_set_ne. apply String.eqb_neq. simpl in Hne. congruence. }
  destruct target as [| | | | |xs|fields]; cbn [assigned fst snd]; auto.
  - split; [reflexivity|].
    assert (Happ : forall l1 l2, lookup_field k l2 = VUndefined ->
              lookup_field k (l1 ++ l2) = lookup_field k l1).
    { induction l1 as [|[k' v] l1 IH]; intros l2 H2; simpl; [exact H2|].
      destruct (String.eqb k k'); [reflexivity|apply IH, H2]. }
    apply Happ. rewrite Hfold. reflexivity.
  - unfold get. cbn [prop]. rewrite Hfold. auto.
Qed.

(** X22.  A profile update that answers 200 changes one stored user, the
    first whose [id] is strictly equal to the caller's [userId], and of that
    record nothing but [name], [email] and [updatedAt]: the password, the
    role and the id stay as they were, and so does every other user; the
    user of the body has no [password]. *)
Theorem update_profile_keeps_credentials (req : request) (w : world) :
  status (fst (update_profile req w)) = 200%nat ->
  let users := loaded "users" w in
  exists (i : nat) (stored updated : value) (shown : list (string * value)),
    users !! i = Some stored
    /\ strict_eq (get stored "id") (get (req_user req) "userId") = true
    /\ written (snd (update_profile req w))
       = written w ++ [("users", <[i := updated]> users)]
    /\ (forall k, k <> "name" -> k <> "email" -> k <> "updatedAt" ->
          get updated k = get stored k)
    /\ get (body (fst (update_profile req w))) "user" = VObj shown
    /\ Forall (fun kv => fst kv <> "password") shown
    /\ (forall k, k <> "name" -> k <> "email" -> k <> "updatedAt" -> k <> "password" ->
          lookup_field k shown = lookup_field k (own_properties stored)).
Proof.
  destruct (fields_of (req_body req)) as [b|r|] eqn:Hb.
  2:{ exfalso. eapply fields_of_no_return; eauto. }
  2:{ unfold update_profile, handler, update_profile_body, bind, pure.
      rewrite Hb. discriminate. }
  rewrite (update_profile_run req w b Hb). cbn zeta.
  destruct (array_findIndex (is_caller req) (loaded "users" w)) as [[i|]| |] eqn:Hf;
    try discriminate.
  destruct (array_findIndex_found _ _ _ Hf) as (stored & Hi & Hnth & Hpred).
  rewrite Hnth.
  destruct (prop stored "email") as [current| |]; try discriminate.
  destruct (if truthy (b "email") && negb (strict_eq (b "email") current)
            then array_find (email_taken req (b "email")) (loaded "users" w)
            else Next VUndefined) as [existing| |]; try discriminate.
  destruct (truthy existing); [discriminate|].
  destruct (if truthy (b "email")
            then flow_bind (toLowerCase (b "email")) (fun e => Next [("email", VStr e)])
            else Next []) as [lowered| |] eqn:Hl; try discriminate.
  intros _. cbn [fst snd body]. rewrite get_second by reflexivity.
  set (updates := profile_updates b lowered (clock w (reads w))).
  assert (Hkeys : forall k, k <> "name" -> k <> "email" -> k <> "updatedAt" ->
            Forall (fun kv => fst kv <> k) updates).
  { intros k H1 H2 H3. unfold updates, profile_updates.
    apply Forall_app. split; [destruct (truthy (b "name")); repeat constructor; auto|].
    apply Forall_app. split; [|repeat constructor; auto].
    destruct (truthy (b "email")); [|injection Hl as <-; constructor].
    destruct (toLowerCase (b "email")); simpl in Hl; try discriminate Hl.
    injection Hl as <-. repeat constructor; auto. }
  exists i, stored, (fst (assigned stored updates)),
    (List.filter (fun kv => negb (String.eqb "password" (fst kv)))
       (snd (assigned stored updates))).
  split; [exact Hi|]. split; [exact (is_caller_true _ _ Hpred)|].
  split; [rewrite saved_written; reflexivity|].
  split.
  { intros k H1 H2 H3. apply (assigned_other stored updates k), Hkeys; auto. }
  split; [reflexivity|]. split; [apply rest_no_password|].
  intros k H1 H2 H3 H4. rewrite lookup_rest_other by exact H4.
  apply (assigned_other stored updates k), Hkeys; auto.
Qed.

End ProfileUpdates.

Section ProfileEmails.
Import JS Http Store Auth CreateFacts ListFacts ProductFacts OrderFacts OrderRuns
  ProfileFacts NumberFacts.
Context {rt : Runtime}.

Lemma emails_distinct_lookup (users : list value) :
  emails_distinct users <->
  (forall i j u v, i <> j -> users !! i = Some u -> users !! j = Some v ->
                   strict_eq (get u "email") (get v "email") = false).
Proof.
  unfold emails_distinct. rewrite pairwise_lookup_sym.
  - split; intros H i j u v Hij Hi Hj.
    + apply negb_true_iff. eapply H; eauto.
    + apply negb_true_iff. eapply H; eauto.
  - intros x y. rewrite strict_eq_sym. reflexivity.
Qed.

Lemma emails_distinct_insert (users : list value) (i : nat) (user : value) :
  emails_distinct users ->
  (forall j v, j <> i -> users !! j = Some v ->
               strict_eq (get user "email") (get v "email") = false) ->
  emails_distinct (<[i := user]> users).
Proof.
  rewrite !emails_distinct_lookup. intros Hd Hnew j k p q Hjk Hj Hk.
  destruct (decide (j = i)) as [->|Hji]; destruct (decide (k = i)) as [->|Hki].
  - congruence.
  - rewrite list_lookup_insert_ne in Hk by auto.
    apply list_lookup_insert_Some in Hj as [(_ & <- & _)|[? _]]; [|congruence].
    eapply Hnew; eauto.
  - rewrite list_lookup_insert_ne in Hj by auto.
    apply list_lookup_insert_Some in Hk as [(_ & <- & _)|[? _]]; [|congruence].
    rewrite strict_eq_sym. eapply Hnew; eauto.
  - rewrite list_lookup_insert_ne in Hj, Hk by auto.
    apply (Hd j k); auto.
Qed.

(** No user other than the caller's has the email the check looked for. *)
Lemma email_taken_none (req : request) (email : string) (users : list value)
    (existing : value) :
  array_find (email_taken req (VStr email)) users = Next existing ->
  truthy existing = false ->
  Forall (fun u => strict_eq (get u "email") (VStr (String_toLowerCase email)) = false
                   \/ strict_eq (get u "id") (get (req_user req) "userId") = true) users.
Proof.
  intros Hf Ht.
  destruct (array_find_found _ _ _ Hf) as [[_ Hnone]|[Hin Hpred]].
  - eapply Forall_impl; [exact Hnone|]. intros u Hu. revert Hu.
    unfold email_taken, get. destruct (prop u "email") as [e| |]; simpl; try discriminate.
    destruct (strict_eq e (VStr (String_toLowerCase email))); [|auto].
    destruct (prop u "id") as [uid| |]; simpl; try discriminate.
    destruct (prop (req_user req) "userId") as [c| |]; simpl; try discriminate.
    intros H. injection H as H. right.
    destruct (strict_eq uid c); [reflexivity|discriminate H].
  - exfalso. revert Hpred Ht. unfold email_taken.
    destruct existing; simpl; try discriminate.
Qed.

(** The email of the record after the assignments. *)
Lemma assigned_email (fields : list (string * value)) (b : string -> value)
    (e : string) (t : float) :
  get (fst (assigned (VObj fields) (profile_updates b [("email", VStr e)] t))) "email"
  = VStr e.
Proof.
  unfold profile_updates, assigned, get. cbn [fst prop].
  rewrite !fold_left_app. cbn [fold_left fst snd].
  rewrite lookup_set_ne by reflexivity. apply lookup_set_eq.
Qed.

(** X23.  The profile update keeps the emails apart: over users whose
    emails are Strings in lower case, no two of them equal, and whose ids
    are all different, whatever the request, the users are written back at
    most once and between the users written no two emails are equal. *)
Theorem update_profile_emails_distinct (req : request) (w : world) :
  let users := loaded "users" w in
  emails_distinct users ->
  emails_lower_case users ->
  Products.ids_distinct users ->
  exists news,
    written (snd (update_profile req w)) = written w ++ news
    /\ Forall (fun e => fst e = "users" /\ emails_distinct (snd e)) news.
Proof.
  cbn zeta. intros Hd Hlow Hids.
  destruct (StoreFacts.readData_clock "users" w) as (_ & _ & Hlog).
  assert (Hnothing : forall (r : response) w',
            (w' = w \/ w' = snd (readData "users" w)) ->
            exists news, written (snd (r, w')) = written w ++ news
              /\ Forall (fun e : string * list value =>
                           fst e = "users" /\ emails_distinct (snd e)) news).
  { intros r w' [-> | ->]; exists []; cbn [snd]; rewrite ?Hlog, app_nil_r; auto. }
  destruct (fields_of (req_body req)) as [b|r|] eqn:Hb.
  2:{ exfalso. eapply fields_of_no_return; eauto. }
  2:{ unfold update_profile, handler, update_profile_body, bind, pure.
      rewrite Hb. apply Hnothing. auto. }
  rewrite (update_profile_run req w b Hb). cbn zeta.
  destruct (array_findIndex (is_caller req) (loaded "users" w)) as [[i|]| |] eqn:Hf;
    try solve [apply Hnothing; auto].
  destruct (array_findIndex_found _ _ _ Hf) as (stored & Hi & Hnth & Hpred).
  rewrite Hnth.
  assert (Hin : stored ∈ loaded "users" w) by (eapply list_elem_of_lookup_2; eauto).
  unfold emails_lower_case in Hlow. rewrite Forall_forall in Hlow.
  destruct (Hlow stored Hin) as (mine & Hmine & Hfixed).
  assert (Hobj : exists fields, stored = VObj fields).
  { revert Hmine. unfold get. destruct stored; simpl; try discriminate. eauto. }
  destruct Hobj as [fields ->].
  cbn [prop]. unfold get in Hmine. cbn [prop] in Hmine. rewrite Hmine.
  destruct (if truthy (b "email") && negb (strict_eq (b "email") (VStr mine))
            then array_find (email_taken req (b "email")) (loaded "users" w)
            else Next VUndefined) as [existing| |] eqn:He; try solve [apply Hnothing; auto].
  destruct (truthy existing) eqn:Hex; [solve [apply Hnothing; auto]|].
  destruct (if truthy (b "email")
            then flow_bind (toLowerCase (b "email")) (fun e => Next [("email", VStr e)])
            else Next []) as [lowered| |] eqn:Hl; try solve [apply Hnothing; auto].
  cbn zeta. cbn [snd]. rewrite saved_written.
  eexists. split; [reflexivity|]. constructor; [|constructor].
  cbn [fst snd]. split; [reflexivity|].
  apply emails_distinct_insert; [exact Hd|].
  intros j v Hji Hj.
  pose proof (proj1 (emails_distinct_lookup _) Hd i j (VObj fields) v
                (not_eq_sym Hji) Hi Hj) as Hold.
  destruct (truthy (b "email")) eqn:Ht.
  2:{ injection Hl as <-.
      assert (Hkeys : Forall (fun kv : string * value => fst kv <> "email")
                        (profile_updates b [] (clock w (reads w)))).
      { unfold profile_updates.
        destruct (truthy (b "name")); repeat constructor; discriminate. }
      rewrite (proj1 (assigned_other (VObj fields) _ "email" Hkeys)). exact Hold. }
  destruct (b "email") as [| | | |email| |] eqn:Hemail; simpl in Hl; try discriminate Hl.
  injection Hl as <-. rewrite assigned_email.
  cbn [andb] in He.
  destruct (strict_eq (VStr email) (VStr mine)) eqn:Hsame; cbn [negb] in He.
  - simpl in Hsame. apply String.eqb_eq in Hsame. subst email.
    rewrite Hfixed. unfold get in Hold. cbn [prop] in Hold. rewrite Hmine in Hold.
    exact Hold.
  - pose proof (email_taken_none req email _ _ He Hex) as Hnone.
    rewrite Forall_forall in Hnone.
    assert (Hv : v ∈ loaded "users" w) by (eapply list_elem_of_lookup_2; eauto).
    destruct (Hnone v Hv) as [Hfree|Hme].
    + rewrite strict_eq_sym. exact Hfree.
    + exfalso.
      pose proof (ids_distinct_lookup _ Hids j i v (VObj fields) Hji Hj Hi) as Hne.
      rewrite (strict_eq_common _ _ _ Hme (is_caller_true _ _ Hpred)) in Hne.
      discriminate Hne.
Qed.

End ProfileEmails.

Section ProfileRuns.
Import JS Http Store Auth Sample.

(** Ada reads her profile. *)
Lemma get_profile_hides_password_witness :
  let w := world_of members steady in
  let r := fst (get_profile (get_as customer []) w) in
  status r = 200%nat
  /\ get (get (body r) "user") "email" = VStr "ada@example.org"
  /\ get (get (body r) "user") "password" = VUndefined.
Proof.
  cbv zeta.
  assert (Hst : status (fst (get_profile (get_as customer [])
                               (world_of members steady))) = 200%nat)
    by (vm_compute; reflexivity).
  destruct (get_profile_hides_password _ _ Hst) as (stored & shown & Hu & _ & _ & _ & Hp & _).
  split; [exact Hst|]. split; [vm_compute; reflexivity|].
  rewrite Hu. exact Hp.
Defined.

(** Ada changes her name and the case of her email. *)
Lemma update_profile_keeps_credentials_witness :
  let req := post_as customer (VObj [("name", VStr "Ada L.");
                                     ("email", VStr "Ada@Example.org")]) in
  let w := world_of members steady in
  exists updated,
    written (snd (update_profile (rt := Node.runtime) req w))
    = [("users", [root; updated])]
    /\ get updated "password" = get ada "password"
    /\ get updated "role" = VStr "customer".
Proof.
  cbv zeta.
  assert (Hst : status (fst (update_profile (rt := Node.runtime)
                               (post_as customer (VObj [("name", VStr "Ada L.");
                                                        ("email", VStr "Ada@Example.org")]))
                               (world_of members steady))) = 200%nat)
    by (vm_compute; reflexivity).
  destruct (@update_profile_keeps_credentials Node.runtime _ _ Hst)
    as (i & stored & updated & shown & Hi & _ & Hw & Hkeep & _).
  assert (Hone : i = 1%nat /\ stored = ada).
  { revert Hw Hi. vm_compute. destruct i as [|[|[|i]]]; simpl; intros Hw Hi;
      try discriminate Hw; try discriminate Hi.
    injection Hi as <-. auto. }
  destruct Hone as [-> ->].
  exists updated. split; [exact Hw|].
  split; [apply Hkeep; discriminate|].
  rewrite Hkeep by discriminate. reflexivity.
Defined.

Lemma update_profile_emails_distinct_witness :
  let req := post_as customer (VObj [("email", VStr "Ada@Example.org")]) in
  let w := world_of members steady in
  exists news,
    written (snd (update_profile (rt := Node.runtime) req w)) = news
    /\ Forall (fun e => emails_distinct (snd e)) news.
Proof.
  cbv zeta.
  destruct (@update_profile_emails_distinct Node.runtime
              (post_as customer (VObj [("email", VStr "Ada@Example.org")]))
              (world_of members steady)) as (news & Hw & Hnews).
  - vm_compute. reflexivity.
  - repeat constructor; eexists; split; vm_compute; reflexivity.
  - vm_compute. reflexivity.
  - exists news. split; [exact Hw|].
    eapply Forall_impl; [exact Hnews|]. intros e [_ He]. exact He.
Defined.

End ProfileRuns.

Section HelperRuns.
Import JS Http Store Helpers Sample.

(** Addresses [isValidEmail] accepts and refuses. *)
Example isValidEmail_sample :
  isValidEmail (rt := Node.runtime) (VStr "ada@example.org") = true
  /\ isValidEmail (rt := Node.runtime) (VStr "ada@example") = false
  /\ isValidEmail (rt := Node.runtime) (VStr "ada lovelace@example.org") = false
  /\ isValidEmail (rt := Node.runtime) (VStr "ada@@example.org") = false
  /\ isValidEmail (rt := Node.runtime) VUndefined = false.
Proof. repeat split; vm_compute; reflexivity. Qed.

(** What is left of a tag, and of the space behind a bracket. *)
Example sanitizeInput_sample :
  sanitizeInput (VStr "  <b>Ada</b> ") = VStr "bAda/b"
  /\ sanitizeInput (VStr "< Ada") = VStr " Ada"
  /\ sanitizeInput (VNum 7) = VNum 7.
Proof. repeat split; vm_compute; reflexivity. Qed.

(** The second of three pages, and the one page of nothing. *)
Lemma getPaginationData_clamped_witness :
  get (getPaginationData (rt := Node.runtime) (VNum 25) (VNum 2) VUndefined) "currentPage"
  = VNum 2
  /\ get (getPaginationData (rt := Node.runtime) (VNum 0) (VNum 5) VUndefined) "currentPage"
     = VNum 1.
Proof.
  split.
  - destruct (@getPaginationData_clamped Node.runtime (VNum 25) (VNum 2) VUndefined)
      as (t & c & Ht & -> & -> & _ & Hkeep & _).
    rewrite Hkeep; vm_compute; reflexivity.
  - destruct (@getPaginationData_clamped Node.runtime (VNum 0) (VNum 5) VUndefined)
      as (t & c & Ht & -> & -> & _ & _ & Hone).
    destruct Hone as [-> _]; vm_compute; reflexivity.
Defined.

End HelperRuns.

Section WriteFailureRuns.
Import JS Http Store Orders Sample.

(** The deletion is answered as done while the order stays on the disk. *)
Lemma write_failure_unreported_witness :
  let w := world_of trading steady in
  let done := delete_order (rt := Node.runtime) (one_as admin "102") (write_protected w) in
  status (fst done) = 200%nat
  /\ loaded "orders" (snd done) = [first_order; second_order; third_order].
Proof.
  cbv zeta.
  destruct (@write_failure_unreported Node.runtime (one_as admin "102")
              (world_of trading steady)) as (_ & Hsame & Hkeep).
  rewrite Hsame. split; [vm_compute; reflexivity|].
  rewrite (proj2 (Hkeep "orders")). vm_compute. reflexivity.
Defined.

End WriteFailureRuns.

(** ** Across routes: created orders, filtered and updated products *)

Section CreatedOrders.
Import JS Http Store Orders CreateFacts ListFacts ProductFacts OrderFacts
  OrderRuns StableFacts NumberFacts RoundTripFacts ClampFacts.
Context {rt : Runtime}.

Lemma stored_form_app (xs ys : list value) :
  stored_form (xs ++ ys) = stored_form xs ++ stored_form ys.
Proof. unfold stored_form. apply map_app. Qed.

(** The [id] of a record survives the writing when it is a finite Number. *)
Lemma jsonify_id (t : float) (rest : list (string * value)) :
  Number_isFinite t = true ->
  exists order', jsonify (VObj (("id", VNum t) :: rest)) = Some order'
                 /\ has_id t order' = Next true.
Proof.
  intros Hfin. rewrite jsonify_obj. eexists. split; [reflexivity|].
  cbn [stored_fields jsonify]. rewrite Hfin.
  unfold has_id. cbn [prop lookup_field flow_bind].
  rewrite String.eqb_refl. cbn [strict_eq]. f_equal.
  destruct (PrimFloat.is_zero t) eqn:Hz.
  - unfold PrimFloat.is_zero in Hz. rewrite eqb_sym. exact Hz.
  - rewrite eqb_compare. rewrite SFcompare_refl; [reflexivity|].
    intros Hnan. revert Hfin. unfold Number_isFinite. rewrite Hnan. discriminate.
Qed.

(** X24.  A created order can be read back by its id: on a disk that can be
    written, over stored orders as the program writes them, each of them an
    object with another [id], after an order was created with a finite
    clock reading as its [id], an admin who asks for the path parameter
    that parses to that [id] is answered 200 with the order as written to
    the file. *)
Theorem create_then_get_order (req req' : request) (w : world) (param : value) :
  read_only (fs w) = false ->
  stored_form (loaded "orders" w) = loaded "orders" w ->
  status (fst (create_order req w)) = 201%nat ->
  let id := clock w (reads w) in
  Number_isFinite id = true ->
  Forall (fun o => has_id id o = Next false) (loaded "orders" w) ->
  prop (req_params req') "id" = Next param ->
  parseInt param = id ->
  not_admin req' = Next false ->
  exists written_order,
    jsonify (get (body (fst (create_order req w))) "order") = Some written_order
    /\ fst (get_order req' (snd (create_order req w))) = Response 200 written_order
    /\ loaded "orders" (snd (create_order req w))
       = loaded "orders" w ++ [written_order].
Proof.
  intros Hro Hstable Hst id Hfin Hothers Hparam Hparse Hadmin.
  destruct (create_order_early req w) as [(r & Hr & Hs)|(b & Hb & H1 & H2 & H3)].
  { rewrite Hr in Hst. cbn [fst] in Hst. destruct Hs; congruence. }
  assert (Hloop : exists result,
            validate_items (loaded "products" w) (items_of (b "items")) 0 [] = Next result
            /\ total_mismatch (fst result) (b "total") = false).
  { revert Hst. rewrite (create_order_run req w b) by assumption. cbv zeta.
    destruct (validate_items (loaded "products" w) (items_of (b "items")) 0 [])
      as [[c l]|r|] eqn:Hv.
    - destruct (total_mismatch c (b "total")) eqn:Hm.
      + cbn. discriminate.
      + intros _. exists (c, l). auto.
    - cbn [fst]. rewrite (validate_items_return _ _ _ _ _ Hv). discriminate.
    - cbn. discriminate. }
  destruct Hloop as ([c l] & Hloop & Hm). cbn [fst] in Hm.
  destruct (create_order_created req w b _ _ Hb H1 H2 H3 Hloop Hm) as (Hr & _ & Hsaved).
  specialize (Hsaved Hro).
  rewrite Hr. cbn [fst body]. rewrite get_second by reflexivity.
  fold id.
  set (order := newOrder b l c id (clock w (S (reads w)))
                  (clock w (S (S (reads w)))) (clock w (S (S (S (reads w)))))) in *.
  assert (Hj : exists order', jsonify order = Some order' /\ has_id id order' = Next true)
    by (unfold order, newOrder; apply jsonify_id; exact Hfin).
  destruct Hj as (order' & Hjson & Hid).
  exists order'. split; [exact Hjson|].
  assert (Hloaded : loaded "orders" (snd (create_order req w))
                    = loaded "orders" w ++ [order']).
  { rewrite StoreFacts.loaded_stored, Hsaved, stored_form_app, Hstable.
    fold id. fold order.
    change (stored_form [order])
      with [match jsonify order with Some y => y | None => VNull end].
    rewrite Hjson. reflexivity. }
  split; [|exact Hloaded].
  rewrite get_order_run, Hparam, Hparse. cbn zeta. rewrite Hloaded.
  destruct (array_find_at (has_id id) (loaded "orders" w ++ [order'])
              (length (loaded "orders" w)) order') as [-> _].
  - rewrite lookup_app_r by lia. rewrite Nat.sub_diag. reflexivity.
  - exact Hid.
  - intros j y Hj Hy. rewrite lookup_app_l in Hy by lia.
    rewrite Forall_forall in Hothers. apply Hothers.
    eapply list_elem_of_lookup_2; eauto.
  - assert (Hobj : exists fields, order' = VObj fields).
    { revert Hjson. unfold order, newOrder. rewrite jsonify_obj.
      intros H. injection H as <-. eauto. }
    destruct Hobj as [fields ->]. cbn [truthy negb].
    rewrite (admin_permitted req' _ Hadmin). reflexivity.
Qed.

End CreatedOrders.

Section CreatedOrderRuns.
Import JS Http Store Orders Sample.

(** Two widgets are ordered in a shop without orders, and the order is read. *)
Lemma create_then_get_order_witness :
  let w := world_of shop steady in
  let w' := snd (create_order (rt := Node.runtime)
                   (post (order_body [item 1 2] (VNum 19.98))) w) in
  let r := fst (get_order (rt := Node.runtime) (one_as admin "1700000000000") w') in
  status r = 200%nat /\ get (body r) "total" = VNum 19.98.
Proof.
  cbv zeta.
  destruct (@create_then_get_order Node.runtime
              (post (order_body [item 1 2] (VNum 19.98)))
              (one_as admin "1700000000000") (world_of shop steady)
              (VStr "1700000000000")) as (stored & Hjson & Hget & _);
    try (vm_compute; reflexivity).
  - constructor.
  - rewrite Hget. split; [reflexivity|].
    revert Hjson. vm_compute. intros H. injection H as <-. reflexivity.
Defined.

End CreatedOrderRuns.

Section CatalogFilters.
Import JS Http Store Products CreateFacts ListFacts ProductFacts NumberFacts CatalogFacts.
Context {rt : Runtime}.

Lemma in_category_true (category p : value) :
  in_category category p = Next true ->
  same_lower (get p "category") category = true.
Proof.
  unfold in_category, get, same_lower.
  destruct (prop p "category") as [c| |]; simpl; try discriminate.
  destruct c; simpl; try discriminate.
  destruct category; simpl; try discriminate.
  intros H. injection H as H. exact H.
Qed.

Lemma field_includes_true (p : value) (k term : string) :
  field_includes p k term = Next true ->
  exists s, get p k = VStr s /\ String_includes (String_toLowerCase s) term = true.
Proof.
  unfold field_includes, get.
  destruct (prop p k) as [c| |]; simpl; try discriminate.
  destruct c; simpl; try discriminate.
  intros H. injection H as H. eauto.
Qed.

Lemma matches_search_true (term : string) (p : value) :
  matches_search term p = Next true ->
  exists k s, In k ["name"; "description"; "category"]
    /\ get p k = VStr s /\ String_includes (String_toLowerCase s) term = true.
Proof.
  unfold matches_search.
  destruct (field_includes p "name" term) as [[|]| |] eqn:H1; simpl; try discriminate.
  { intros _. destruct (field_includes_true _ _ _ H1) as (s & Hs & Hi).
    exists "name", s. simpl. auto. }
  destruct (field_includes p "description" term) as [[|]| |] eqn:H2; simpl;
    try discriminate.
  { intros _. destruct (field_includes_true _ _ _ H2) as (s & Hs & Hi).
    exists "description", s. simpl. auto. }
  intros H3. destruct (field_includes_true _ _ _ H3) as (s & Hs & Hi).
  exists "category", s. simpl. auto.
Qed.

(** X25.  The listing of products answers only with stored products that
    pass its filters: with a category other than ['All'] in the query, each
    has that category without regard to case; with a search term, each has
    the term, in lower case, inside its name, its description or its
    category in lower case. *)
Theorem list_products_filtered (req : request) (w : world) :
  let shown := Orders.items_of (get (body (fst (list_products req w))) "products") in
  let category := get (req_query req) "category" in
  let search := get (req_query req) "search" in
  forall p, In p shown ->
    In p (loaded "products" w)
    /\ (truthy category = true -> strict_eq category (VStr "All") = false ->
        same_lower (get p "category") category = true)
    /\ (truthy search = true ->
        exists term k s,
          search = VStr term
          /\ In k ["name"; "description"; "category"]
          /\ get p k = VStr s
          /\ String_includes (String_toLowerCase s) (String_toLowerCase term) = true).
Proof.
  cbn zeta. intros p.
  unfold list_products, handler, list_products_body, bind, pure, ret.
  destruct (fields_of (req_query req)) as [q|r|] eqn:Hq.
  2:{ exfalso. eapply fields_of_no_return; eauto. }
  2:{ cbn. tauto. }
  rewrite <- !(fields_of_get _ _ _ Hq).
  rewrite (StoreFacts.readData_loaded "products" w). cbn [fst snd].
  match goal with
  | |- context [if ?c then Http.array_filter ?f ?l else Next ?l] =>
      destruct (if c then Http.array_filter f l else Next l) as [ps|r|] eqn:H1
  end.
  2:{ exfalso. destruct (truthy (q "category") && _); try discriminate.
      eapply array_filter_no_return; eauto. apply in_category_no_return. }
  2:{ cbn. tauto. }
  match goal with
  | |- context [if ?c then ?f else Next ps] =>
      destruct (if c then f else Next ps) as [found|r|] eqn:H2
  end.
  2:{ exfalso. destruct (truthy (q "search")); try discriminate.
      destruct (toLowerCase (q "search")) as [term|r'|] eqn:Ht; simpl in H2;
        try discriminate.
      - eapply array_filter_no_return; eauto. apply matches_search_no_return.
      - inversion H2; subst. eapply toLowerCase_no_return; eauto. }
  2:{ cbn. tauto. }
  cbn [fst body]. unfold get at 1.
  cbn [prop lookup_field String.eqb Ascii.eqb Bool.eqb Orders.items_of].
  intros Hin. apply slice_In in Hin.
  assert (Hsearch : In p ps /\ (truthy (q "search") = true ->
            exists term k s, q "search" = VStr term
              /\ In k ["name"; "description"; "category"]
              /\ get p k = VStr s
              /\ String_includes (String_toLowerCase s) (String_toLowerCase term) = true)).
  { destruct (truthy (q "search")) eqn:Hs.
    - destruct (q "search") as [| | | |term| |] eqn:Hterm; simpl in H2;
        try discriminate H2.
      destruct (array_filter_In _ _ _ H2 _ Hin) as [Hps Hm].
      split; [exact Hps|]. intros _.
      destruct (matches_search_true _ _ Hm) as (k & s & Hk & Hv & Hi).
      exists term, k, s. auto.
    - injection H2 as <-. split; [exact Hin|discriminate]. }
  destruct Hsearch as [Hps Hsearch].
  destruct (truthy (q "category")) eqn:Hc; cbn [andb] in H1.
  - destruct (strict_eq (q "category") (VStr "All")) eqn:Hall; cbn [negb] in H1.
    + injection H1 as <-. repeat split; auto. discriminate.
    + destruct (array_filter_In _ _ _ H1 _ Hps) as [Hstored Hm].
      repeat split; auto. intros _ _. apply in_category_true, Hm.
  - injection H1 as <-. repeat split; auto. discriminate.
Qed.

End CatalogFilters.

Section CatalogFilterRuns.
Import JS Http Store Products Sample.

Lemma list_products_filtered_witness :
  let req := get_as VUndefined [("category", VStr "TOYS")] in
  let w := world_of shop steady in
  Orders.items_of (get (body (fst (list_products (rt := Node.runtime) req w))) "products")
  = [gadget]
  /\ same_lower (rt := Node.runtime) (get gadget "category") (VStr "TOYS") = true.
Proof.
  cbv zeta. split; [vm_compute; reflexivity|].
  destruct (@list_products_filtered Node.runtime
              (get_as VUndefined [("category", VStr "TOYS")]) (world_of shop steady)
              gadget) as (_ & Hcat & _).
  - vm_compute. left. reflexivity.
  - apply Hcat; reflexivity.
Defined.

End CatalogFilterRuns.

Section ProductUpdates.
Import JS Http Store Products CreateFacts ListFacts ProductFacts NumberFacts CatalogFacts.
Context {rt : Runtime}.

(** The update assigns to seven properties and to no other. *)
Lemma updated_other (b : string -> value) (t : float) (fields : list (string * value))
    (k : string) :
  ~ In k ["name"; "price"; "category"; "description"; "image"; "featured"; "updatedAt"] ->
  lookup_field k (updated_fields b t fields) = lookup_field k fields.
Proof.
  intros Hk.
  assert (Hset : forall k' v fs, In k' ["name"; "price"; "category"; "description";
                                        "image"; "featured"; "updatedAt"] ->
            lookup_field k (set_field k' v fs) = lookup_field k fs).
  { intros k' v fs Hin. apply lookup_set_ne. apply String.eqb_neq. congruence. }
  assert (Hif : forall k' v fs, In k' ["name"; "price"; "category"; "description";
                                       "image"; "featured"; "updatedAt"] ->
            lookup_field k (assign_if k' v fs) = lookup_field k fs).
  { intros k' v fs Hin. unfold assign_if. destruct (truthy v); auto. }
  unfold updated_fields. cbv zeta.
  rewrite Hset by (simpl; tauto).
  destruct (b "featured"); rewrite ?Hset by (simpl; tauto);
    rewrite !Hif by (simpl; tauto);
    (destruct (truthy (b "price")); [rewrite Hset by (simpl; tauto)|];
     rewrite Hif by (simpl; tauto); reflexivity).
Qed.

(** X26.  A product update that answers 200 changes one stored product, the
    one it answers with, and of it at most [name], [price], [category],
    [description], [image], [featured] and [updatedAt]: its [id], its
    [createdAt] and every other property stay as they were, and so does
    every other product. *)
Theorem update_product_keeps (req : request) (w : world) :
  status (fst (update_product req w)) = 200%nat ->
  let products := loaded "products" w in
  let updated := get (body (fst (update_product req w))) "product" in
  exists (i : nat) (fields : list (string * value)),
    products !! i = Some (VObj fields)
    /\ strict_eq (lookup_field "id" fields)
                 (VNum (parseInt (get (req_params req) "id"))) = true
    /\ written (snd (update_product req w))
       = written w ++ [("products", <[i := updated]> products)]
    /\ get updated "id" = lookup_field "id" fields
    /\ get updated "createdAt" = lookup_field "createdAt" fields
    /\ (forall k,
          ~ In k ["name"; "price"; "category"; "description"; "image"; "featured";
                  "updatedAt"] ->
          get updated k = lookup_field k fields)
    /\ get updated "updatedAt" = VStr (Date_toISOString (clock w (reads w))).
Proof.
  intros Hst. cbn zeta.
  destruct (update_product_outcome req w)
    as [(_ & _ & Hr)|(b & params & i & fields & Hp & Hb & Hi & Hid & _ & _ & Hr & Hw)].
  { exfalso. destruct Hr as [Hr|[Hr|[Hr|[(b & _ & _ & Hr)|Hr]]]];
      rewrite Hr in Hst; discriminate Hst. }
  rewrite Hr. cbn [body]. rewrite get_second by reflexivity.
  exists i, fields. split; [exact Hi|].
  split; [rewrite <- (fields_of_get _ _ "id" Hp); exact Hid|].
  split; [exact Hw|].
  unfold get. cbn [prop].
  split; [apply updated_other; simpl; intuition discriminate|].
  split; [apply updated_other; simpl; intuition discriminate|].
  split; [intros k Hk; apply updated_other, Hk|].
  apply updated_stamp.
Qed.

End ProductUpdates.

Section ProductUpdateRuns.
Import JS Http Store Products Sample.

Lemma update_product_keeps_witness :
  let req := put_as admin "1" (VObj [("id", VNum 99); ("name", VStr "Sprocket")]) in
  let r := fst (update_product (rt := Node.runtime) req (world_of shop steady)) in
  get (get (body r) "product") "id" = VNum 1
  /\ get (get (body r) "product") "name" = VStr "Sprocket".
Proof.
  cbv zeta.
  assert (Hst : status (fst (update_product (rt := Node.runtime)
                               (put_as admin "1" (VObj [("id", VNum 99);
                                                        ("name", VStr "Sprocket")]))
                               (world_of shop steady))) = 200%nat)
    by (vm_compute; reflexivity).
  destruct (@update_product_keeps Node.runtime _ _ Hst)
    as (i & fields & Hi & _ & _ & Hid & _).
  split; [|vm_compute; reflexivity].
  rewrite Hid.
  assert (Hone : i = 0%nat).
  { revert Hid Hi. vm_compute. destruct i as [|[|i]]; simpl; intros Hid Hi;
      try discriminate Hi; auto.
    injection Hi as <-. discriminate Hid. }
  subst i. revert Hi. vm_compute. intros H. injection H as <-. reflexivity.
Defined.

End ProductUpdateRuns.

Section UserData.
Import JS Http Store Helpers ProfileFacts.

(** X27.  [filterUserData] throws on [undefined] and [null] and nowhere
    else; of any other value it returns a new object with every own property
    of the value but [password], of which the object has none. *)
Theorem filterUserData_hides_password (user : value) :
  (filterUserData user = Throw <-> user = VUndefined \/ user = VNull)
  /\ (forall filtered, filterUserData user = Next filtered ->
        exists shown,
          filtered = VObj shown
          /\ Forall (fun kv => fst kv <> "password") shown
          /\ get filtered "password" = VUndefined
          /\ (forall k, k <> "password" ->
                lookup_field k shown = lookup_field k (own_properties user))).
Proof.
  unfold filterUserData, rest_without. split.
  - destruct user; split; try tauto; try discriminate;
      intros [H|H]; discriminate H.
  - intros filtered H.
    exists (List.filter (fun kv => negb (String.eqb "password" (fst kv)))
              (own_properties user)).
    assert (Hf : filtered = VObj (List.filter
                   (fun kv => negb (String.eqb "password" (fst kv)))
                   (own_properties user)))
      by (destruct user; try discriminate H; injection H as <-; reflexivity).
    split; [exact Hf|]. split; [apply rest_no_password|].
    split.
    + rewrite Hf. unfold get. cbn [prop]. apply lookup_absent, rest_no_password.
    + intros k Hk. apply lookup_rest_other, Hk.
Qed.

Lemma filterUserData_hides_password_witness :
  filterUserData Sample.ada
  = Next (VObj [("id", VNum 7); ("name", VStr "Ada"); ("email", VStr "ada@example.org");
                ("role", VStr "customer");
                ("createdAt", VStr "2023-11-14T22:13:20.000Z")])
  /\ get (VObj [("id", VNum 7); ("name", VStr "Ada"); ("email", VStr "ada@example.org");
                ("role", VStr "customer");
                ("createdAt", VStr "2023-11-14T22:13:20.000Z")]) "password"
     = VUndefined.
Proof.
  assert (H : filterUserData Sample.ada
              = Next (VObj [("id", VNum 7); ("name", VStr "Ada");
                            ("email", VStr "ada@example.org"); ("role", VStr "customer");
                            ("createdAt", VStr "2023-11-14T22:13:20.000Z")]))
    by (vm_compute; reflexivity).
  split; [exact H|].
  destruct (filterUserData_hides_password Sample.ada) as [_ Hshown].
  destruct (Hshown _ H) as (shown & _ & _ & Hp & _). exact Hp.
Defined.

End UserData.
